(** * Theologian-web: retrieval pipeline (chunker, index sizing, retrieval,
      confidence, response cache)

    Shallow embedding of [src/main.py] and [src/data_processor.py].

    Python values are modelled as follows:
    - [int] is [Z]; [len] is [Z.of_nat (length _)];
    - [str] is a list of Unicode code points ([N]);
    - a [float] is the rational it denotes ([Q]); scores and time stamps are
      compared and subtracted exactly, and the arithmetic of the confidence
      score rounds as the class [Float64] says;
    - a [dict] with string keys whose order is irrelevant is a [gmap];
      the cache, whose iteration order decides ties of [min], is an
      insertion-ordered association list;
    - an exception is a value of [exn] carried by [result];
    - the FAISS bindings are the class [Faiss] (building an index) and the
      [search] method that a loaded index carries: each call returns or
      raises. *)

From Stdlib Require Import ZArith QArith Qround Qabs List Ascii String.
From Stdlib Require Import DecimalString.
From stdpp Require Import base list gmap.

Local Open Scope Z_scope.

(** ** Python substrate *)

Definition char := N.
Definition str := list char.

(** An ASCII literal as a Python string. *)
Definition py (s : string) : str := List.map N_of_ascii (list_ascii_of_string s).

(** [repr] of an [int] in base ten, as produced by an f-string. *)
Definition str_of_int (z : Z) : str := py (NilZero.string_of_int (Z.to_int z)).

(** The white space that [str.strip()] removes (CPython's
    [_PyUnicode_IsWhitespace]). *)
Definition isspace (c : char) : bool :=
  let in_range lo hi := (N.leb lo c && N.leb c hi)%bool in
  (in_range 9 13 || in_range 28 32 || N.eqb c 133 || N.eqb c 160
   || N.eqb c 5760 || in_range 8192 8202 || N.eqb c 8232 || N.eqb c 8233
   || N.eqb c 8239 || N.eqb c 8287 || N.eqb c 12288)%N%bool.

Fixpoint lstrip (s : str) : str :=
  match s with
  | c :: s' => if isspace c then lstrip s' else s
  | [] => []
  end.

Definition rstrip (s : str) : str := rev (lstrip (rev s)).

Definition strip (s : str) : str := rstrip (lstrip s).

Definition len {A} (l : list A) : Z := Z.of_nat (length l).

(** Normalisation of one bound of a slice [l[lo:hi]] against [n = len l]. *)
Definition slice_bound (n i : Z) : Z :=
  if i <? 0 then Z.max 0 (i + n) else Z.min i n.

(** [l[lo:hi]] with Python's treatment of negative and oversized bounds. *)
Definition py_slice {A} (l : list A) (lo hi : Z) : list A :=
  let a := slice_bound (len l) lo in
  let b := slice_bound (len l) hi in
  take (Z.to_nat (b - a)) (drop (Z.to_nat a) l).

Inductive exn : Type :=
| ValueError
| IndexError
| HTTPException (status_code : Z)
| PyError (class_name : str).  (* any other exception, by its class *)

Inductive result (A : Type) : Type :=
| Ok (a : A)
| Raise (e : exn).
Arguments Ok {A} a.
Arguments Raise {A} e.

(** Sequencing of calls that may raise. *)
Definition bind {A B} (r : result A) (k : A -> result B) : result B :=
  match r with
  | Ok a => k a
  | Raise e => Raise e
  end.

Notation "'let*' x := r 'in' k" := (bind r (fun x => k))
  (at level 10, x name, r at level 200, k at level 200).

(** [l[i]]: negative positions count from the end, anything outside
    [-len l .. len l - 1] raises [IndexError]. *)
Definition py_index {A} (l : list A) (i : Z) : result A :=
  let j := if i <? 0 then i + len l else i in
  if j <? 0 then Raise IndexError
  else match l !! Z.to_nat j with
       | Some x => Ok x
       | None => Raise IndexError
       end.

(** Number of elements of [range(start, stop, step)] for [step <> 0]. *)
Definition range_count (start stop step : Z) : nat :=
  if 0 <? step then Z.to_nat ((stop - start + step - 1) / step)
  else Z.to_nat ((start - stop - step - 1) / (- step)).

(** [list(range(start, stop, step))]; a zero step raises [ValueError]. *)
Definition py_range (start stop step : Z) : result (list Z) :=
  if step =? 0 then Raise ValueError
  else Ok ((fun k => start + Z.of_nat k * step)
           <$> seq 0 (range_count start stop step)).

(** Values stored in metadata dictionaries. *)
Inductive value : Type :=
| VInt (z : Z)
| VStr (s : str)
| VOther (tag : N).  (* any other object, by identity *)

(** [hashlib.md5(s.encode()).hexdigest()], the only use the program makes of
    [hashlib]; strings are taken to be encodable as UTF-8. *)
Class Hashlib := { md5_hexdigest : str -> str }.

(** [str.lower()], which depends on the Unicode case tables. *)
Class StrLower := { lower : str -> str }.

(** The parameters with which a FAISS index object is constructed. *)
Module faiss.
Inductive Index : Type :=
| IndexIVFPQ (d nlist m nbits : Z)
| IndexFlatIP (d : Z).

(** Number of clusters an index is trained with, if it has any. *)
Definition nlist (ix : Index) : option Z :=
  match ix with
  | IndexIVFPQ _ n _ _ => Some n
  | IndexFlatIP _ => None
  end.
End faiss.

(** A two-dimensional [numpy] array is the list of its rows. *)
Definition ndarray := list (list Q).
Definition shape0 (a : ndarray) : Z := len a.
Definition shape1 (a : ndarray) : Z := len (hd [] a).

(** The FAISS bindings, as far as an index is built.  Every call returns or
    raises; an index object is identified by its class and the arguments of
    its constructor ([faiss.Index]).  A call that brings the interpreter
    down neither returns nor raises, and is not part of the model. *)
Class Faiss := {
  (** [faiss.IndexFlatL2(d)], the quantizer handed to [faiss.IndexIVFPQ] *)
  IndexFlatL2 : Z -> result unit;
  (** the constructor call that [index] stands for *)
  index_new : faiss.Index -> result unit;
  (** [index.train(x)] on the newly constructed [index] *)
  index_train : faiss.Index -> ndarray -> result unit;
  (** [index.add(x)]; [trained] tells whether [index.train(x)] came first *)
  index_add : faiss.Index -> bool -> ndarray -> result unit
}.

(** Python's [float] is an IEEE 754 double.  [fl x] is the float nearest to
    the real number [x] (overflow aside): the quotient of the floats [a] and
    [b] is [fl (a / b)], their product [fl (a * b)], and the literal [1.2]
    is [fl (12 # 10)].  [fsum l] is [sum(l)] for floats [l]: left-to-right
    addition before CPython 3.12, compensated summation since. *)
Class Float64 := {
  fl : Q -> Q;
  fsum : list Q -> Q
}.

(** [np.vstack(arrays)]: the rows of the arrays, one array after the other;
    an empty sequence of arrays, or arrays whose rows differ in length,
    raise [ValueError]. *)
Definition np_vstack (arrays : list ndarray) : result ndarray :=
  match arrays with
  | [] => Raise ValueError
  | a :: rest =>
      if forallb (fun b => shape1 b =? shape1 a) rest
      then Ok (concat arrays)
      else Raise ValueError
  end.

(** [sep.join(parts)] *)
Fixpoint join (sep : str) (parts : list str) : str :=
  match parts with
  | [] => []
  | [p] => p
  | p :: rest => p ++ sep ++ join sep rest
  end.

(** [data[k]] for a present key of a dictionary kept in insertion order. *)
Fixpoint assoc_get {V} (data : list (str * V)) (k : str) : option V :=
  match data with
  | [] => None
  | (k', v) :: rest => if bool_decide (k' = k) then Some v else assoc_get rest k
  end.

(** ** [main.py]: [Config] *)

Module Config.
Definition VECTOR_DIM : Z := 768.
Definition INDEX_TYPE : str := py "IVF_PQ".
Definition NLIST : Z := 1024.
Definition M : Z := 96.
Definition NBITS : Z := 8.
Definition CHUNK_SIZE : Z := 512.
Definition OVERLAP : Z := 50.
Definition TOP_K : Z := 10.
Definition CACHE_SIZE : Z := 2000.
Definition CACHE_DURATION : Z := 24 * 3600.
End Config.

(** ** [main.py]: [DocumentProcessor] *)

Module DocumentProcessor.

Record t := { chunk_size : Z; overlap : Z }.

(** [__init__] *)
Definition init : t :=
  {| chunk_size := Config.CHUNK_SIZE; overlap := Config.OVERLAP |}.

Record DocumentChunk := {
  id : str;
  content : str;
  source : str;
  metadata : gmap str value
}.

Section chunking.
Context `{Hashlib}.
Variable self : t.

(** The chunk built for the window at offset [i] when [n] chunks have
    been kept so far. *)
Definition make_chunk (text src : str) (n : nat) (i : Z) : DocumentChunk :=
  let chunk_content := py_slice text i (i + chunk_size self) in
  let chunk_id := md5_hexdigest (src ++ py "_" ++ str_of_int i) in
  {| id := chunk_id;
     content := strip chunk_content;
     source := src;
     metadata :=
       <[py "start_pos" := VInt i]>
       (<[py "end_pos" := VInt (Z.min (i + chunk_size self) (len text))]>
       (<[py "chunk_index" := VInt (Z.of_nat n)]> ∅)) |}.

(** One iteration of the [for] loop. *)
Definition chunk_body (text src : str)
    (chunks : list DocumentChunk) (i : Z) : list DocumentChunk :=
  let chunk_content := py_slice text i (i + chunk_size self) in
  if len (strip chunk_content) <? 50 then chunks
  else chunks ++ [make_chunk text src (length chunks) i].

Definition chunk_document (text src : str) : result (list DocumentChunk) :=
  let content_length := len text in
  match py_range 0 content_length (chunk_size self - overlap self) with
  | Raise e => Raise e
  | Ok offsets => Ok (fold_left (chunk_body text src) offsets [])
  end.
End chunking.

(** What [directory.rglob('*')] yields: the path as text, its [suffix], and
    the text that [load_file] reads ([None] when reading raises). *)
Record file := { file_path : str; suffix : str; file_text : option str }.

Definition supported_formats : list str := [py ".txt"; py ".md"; py ".json"].

Section loading.
Context `{Hashlib} `{StrLower}.
Variable self : t.

(** One iteration of the loop over the files; every exception raised while
    a file is read or chunked is caught. *)
Definition load_body (chunks : list DocumentChunk) (f : file)
    : list DocumentChunk :=
  if bool_decide (lower (suffix f) ∈ supported_formats) then
    match file_text f with
    | Some text =>
        match chunk_document self text (file_path f) with
        | Ok file_chunks => chunks ++ file_chunks
        | Raise _ => chunks
        end
    | None => chunks
    end
  else chunks.

(** [load_documents_from_directory]; [directory] is [None] when the
    directory does not exist, and the list of what lies below it
    otherwise. *)
Definition load_documents_from_directory (directory : option (list file))
    : list DocumentChunk :=
  match directory with
  | None => []
  | Some files => fold_left load_body files []
  end.
End loading.

End DocumentProcessor.

(** ** [data_processor.py]: [TheologyDocumentProcessor] *)

Module TheologyDocumentProcessor.

Record t := { chunk_size : Z; overlap : Z }.

(** [__init__] *)
Definition init : t := {| chunk_size := 512; overlap := 50 |}.

(** A chunk is the dictionary [{"id", "content", "metadata"}]. *)
Record chunk := {
  id : str;
  content : str;
  metadata : gmap str value
}.

(** The loop state: the chunks kept so far and the number of readings of
    [datetime.now()] taken so far. *)
Record loop_state := { chunks : list chunk; reads : nat }.

Section chunking.
Context `{Hashlib}.
Variable self : t.
(** [clock k] is the text of the [k]-th reading of
    [datetime.now().isoformat()] during the call. *)
Variable clock : nat -> str.

(** The chunk built for the window at offset [i]; [chunk_index] is
    [len(chunks)] and [created_at] the clock reading at that point. *)
Definition make_chunk (text src : str) (extra : option (gmap str value))
    (chunk_index : nat) (created_at : str) (i : Z) : chunk :=
  let chunk_content := strip (py_slice text i (i + chunk_size self)) in
  let chunk_id := md5_hexdigest (src ++ py "_" ++ str_of_int i) in
  let chunk_metadata : gmap str value :=
    <[py "source" := VStr src]>
    (<[py "start_pos" := VInt i]>
    (<[py "end_pos" := VInt (Z.min (i + chunk_size self) (len text))]>
    (<[py "chunk_index" := VInt (Z.of_nat chunk_index)]>
    (<[py "created_at" := VStr created_at]> ∅)))) in
  (* [if metadata: chunk_metadata.update(metadata)]; updating with an
     empty dictionary changes nothing *)
  let chunk_metadata :=
    match extra with
    | Some m => m ∪ chunk_metadata
    | None => chunk_metadata
    end in
  {| id := chunk_id; content := chunk_content; metadata := chunk_metadata |}.

(** One iteration of the [for] loop. *)
Definition chunk_body (text src : str) (extra : option (gmap str value))
    (st : loop_state) (i : Z) : loop_state :=
  let chunk_content := strip (py_slice text i (i + chunk_size self)) in
  if len chunk_content <? 50 then st
  else {| chunks :=
            chunks st ++ [make_chunk text src extra (length (chunks st))
                                     (clock (reads st)) i];
          reads := S (reads st) |}.

Definition chunk_document (text src : str)
    (extra : option (gmap str value)) : result (list chunk) :=
  if (match text with [] => true | _ => false end
      || (len (strip text) <? 20))%bool
  then Ok []
  else
    let content_length := len text in
    match py_range 0 content_length (chunk_size self - overlap self) with
    | Raise e => Raise e
    | Ok offsets =>
        Ok (chunks (fold_left (chunk_body text src extra) offsets
                              {| chunks := []; reads := 0 |}))
    end.
End chunking.

(** [build_faiss_index]: the index that is constructed, for [IVF_PQ]
    trained on [vectors], and filled with [vectors]. *)
Definition build_faiss_index `{Faiss} (vectors : ndarray) (index_type : str)
    : result faiss.Index :=
  let dimension := shape1 vectors in
  if bool_decide (index_type = py "IVF_PQ") then
    let nlist := Z.min 1024 (shape0 vectors / 10) in
    let* quantizer := IndexFlatL2 dimension in
    let index := faiss.IndexIVFPQ dimension nlist 96 8 in
    let* _ := index_new index in
    let* _ := index_train index vectors in
    let* _ := index_add index true vectors in
    Ok index
  else if bool_decide (index_type = py "FLAT") then
    let index := faiss.IndexFlatIP dimension in
    let* _ := index_new index in
    let* _ := index_add index false vectors in
    Ok index
  else Raise ValueError.

(** [extract_text_from_dict] *)
Definition text_fields : list str :=
  [py "text"; py "content"; py "body"; py "description"; py "title";
   py "name"; py "summary"].

(** The strings found under the usual field names, in the order of the
    names. *)
Definition field_parts (data : list (str * value)) : list str :=
  omap (fun field =>
          match assoc_get data field with
          | Some (VStr s) => Some s
          | _ => None
          end) text_fields.

(** ["key: value"] for every string value longer than ten characters once
    trimmed, in the order of the dictionary. *)
Definition string_parts (data : list (str * value)) : list str :=
  omap (fun kv : str * value =>
          match kv.2 with
          | VStr s =>
              if 10 <? len (strip s) then Some (kv.1 ++ py ": " ++ s) else None
          | _ => None
          end) data.

Definition extract_text_from_dict (data : list (str * value)) : str :=
  let text_parts := field_parts data in
  let text_parts :=
    match text_parts with
    | [] => string_parts data
    | _ => text_parts
    end in
  join (py " ") text_parts.

Section vectorizing.
(** [self.model.encode(batch_texts, ...)] *)
Variable encode : list str -> ndarray.

(** [vectorize_documents] *)
Definition vectorize_documents (documents : list chunk) (batch_size : Z)
    : result ndarray :=
  let texts := content <$> documents in
  match py_range 0 (len texts) batch_size with
  | Raise e => Raise e
  | Ok offsets =>
      let all_vectors :=
        (fun i => encode (py_slice texts i (i + batch_size))) <$> offsets in
      np_vstack all_vectors
  end.
End vectorizing.

End TheologyDocumentProcessor.

(** ** [main.py]: [FAISSIndexManager] *)

Module FAISSIndexManager.

(** [create_index] *)
Definition create_index `{Faiss} (dimension : Z) : result faiss.Index :=
  if bool_decide (Config.INDEX_TYPE = py "IVF_PQ") then
    let* quantizer := IndexFlatL2 dimension in
    let index :=
      faiss.IndexIVFPQ dimension Config.NLIST Config.M Config.NBITS in
    let* _ := index_new index in
    Ok index
  else
    let index := faiss.IndexFlatIP dimension in
    let* _ := index_new index in
    Ok index.

(** [train_and_add_vectors]: the index that is created for, trained on and
    filled with [vectors].  Every FAISS index has a [train] method, so the
    test [hasattr(self.index, 'train')] holds.  An exception of [train] or
    [add] leaves [self.index] set to the index just created. *)
Definition train_and_add_vectors `{Faiss} (vectors : ndarray)
    : result faiss.Index :=
  let dimension := shape1 vectors in
  let* index := create_index dimension in
  let* _ := index_train index vectors in
  let* _ := index_add index true vectors in
  Ok index.

(** A loaded index is its [search] method: [index.search(query_vector, k)]
    returns the row of scores and the row of positions for the single
    query, or raises. *)
Record t (vector : Type) := {
  index : option (vector -> Z -> result (list Q * list Z))
}.
Arguments index {vector} _.

(** [search] *)
Definition search {vector} (self : t vector) (query_vector : vector) (k : Z)
    : result (list Q * list Z) :=
  match index self with
  | None => Raise ValueError
  | Some ix => ix query_vector k
  end.

End FAISSIndexManager.

(** Comparison of floats, as booleans. *)
Definition Qltb (x y : Q) : bool := negb (Qle_bool y x).

(** ** [main.py]: [VectorSearchEngine] *)

Module VectorSearchEngine.

(** One entry of [relevant_docs]. *)
Record doc := {
  content : str;
  source : str;
  score : Q;
  metadata : gmap str value
}.

Section engine.
Context {vector : Type}.
(** [self.model.encode([query])] *)
Variable encode : str -> vector.

Record t := {
  faiss_manager : FAISSIndexManager.t vector;
  documents : list DocumentProcessor.DocumentChunk
}.

(** The loop over [zip(scores, indices)]. *)
Fixpoint collect (documents : list DocumentProcessor.DocumentChunk)
    (candidates : list (Q * Z)) (relevant_docs : list doc)
    : result (list doc) :=
  match candidates with
  | [] => Ok relevant_docs
  | (sc, idx) :: rest =>
      if ((idx <? len documents) && Qltb (3 # 10) sc)%bool then
        match py_index documents idx with
        | Raise e => Raise e
        | Ok d =>
            collect documents rest
              (relevant_docs ++
               [{| content := DocumentProcessor.content d;
                   source := DocumentProcessor.source d;
                   score := sc;
                   metadata := DocumentProcessor.metadata d |}])
        end
      else collect documents rest relevant_docs
  end.

(** [search]; [start_time] and [end_time] are the two clock readings. *)
Definition search (self : t) (query : str) (top_k : Z)
    (start_time end_time : Q) : result (list doc * Q) :=
  let query_vector := encode query in
  match FAISSIndexManager.search (faiss_manager self) query_vector
                                 (top_k * 2) with
  | Raise e => Raise e
  | Ok (scores, indices) =>
      match collect (documents self) (zip scores indices) [] with
      | Raise e => Raise e
      | Ok relevant_docs =>
          let search_time := (end_time - start_time)%Q in
          Ok (py_slice relevant_docs 0 top_k, search_time)
      end
  end.
End engine.

(** What a build leaves behind when it returns: [self.faiss_manager.index]
    is [index], trained on and filled with [vectors], and [self.documents]
    is [documents].  An exception raised while the index is built leaves
    [self.documents] as it was. *)
Inductive built : Type :=
| Built (vectors : ndarray) (index : faiss.Index)
        (documents : list DocumentProcessor.DocumentChunk).

(** The ten texts of [build_sample_index]. *)
Definition sample_documents : list str :=
  [[19977; 20301; 19968; 39636; 26159; 22522; 30563; 25945; 30340;
    26680; 24515; 25945; 32681; 65292; 25351; 32854; 29238; 12289;
    32854; 23376; 12289; 32854; 38728; 19977; 20491; 20301; 26684;
    22312; 19968; 20491; 31070; 32854; 26412; 36074; 20013; 30340;
    32113; 19968; 12290; 36889; 20491; 25945; 32681; 22312; 23612;
    35199; 20126; 20449; 32147; 20013; 24471; 21040; 20102; 26126;
    30906; 30340; 34920; 36848; 12290];
   [21407; 32618; 26159; 25351; 20154; 39006; 22240; 20126; 30070;
    21644; 22799; 23043; 22312; 20234; 30008; 22290; 20013; 30340;
    22702; 33853; 32780; 25215; 21463; 30340; 32618; 24615; 12290;
    22887; 21476; 26031; 19969; 35469; 28858; 21407; 32618; 26159;
    20154; 39006; 26412; 24615; 30340; 33104; 25943; 65292; 24433;
    38911; 20102; 20154; 30340; 24847; 24535; 21644; 29702; 24615; 12290];
   [22240; 20449; 31281; 32681; 26159; 26032; 25945; 25913; 38761;
    30340; 26680; 24515; 25945; 32681; 65292; 30001; 39340; 19969; 183;
    36335; 24503; 25552; 20986; 12290; 23427; 24375; 35519; 20154;
    19981; 26159; 22240; 34892; 28858; 31281; 32681; 65292; 32780;
    26159; 21934; 32020; 22240; 20449; 24515; 32780; 22312; 19978;
    24093; 38754; 21069; 34987; 23459; 21578; 28858; 32681; 12290];
   [38928; 23450; 35542; 26159; 21152; 29246; 25991; 31070; 23416;
    30340; 37325; 35201; 27010; 24565; 65292; 35469; 28858; 19978;
    24093; 22312; 21109; 19990; 20043; 21069; 23601; 38928; 23450;
    20102; 35504; 23559; 24471; 25937; 12290; 36889; 20491; 25945;
    32681; 22312; 25913; 38761; 23447; 20659; 32113; 20013; 20308;
    26377; 37325; 35201; 22320; 20301; 12290];
   [32854; 38728; 26159; 19977; 20301; 19968; 39636; 30340; 31532;
    19977; 20491; 20301; 26684; 65292; 22312; 20116; 26092; 31680;
    38477; 33256; 21040; 20351; 24466; 36523; 19978; 12290; 32854;
    38728; 30340; 24037; 20316; 21253; 25324; 20809; 29031; 12289;
    37325; 29983; 12289; 25104; 32854; 21644; 36060; 20104; 23660;
    38728; 24681; 36060; 12290];
   [25937; 24681; 26159; 19978; 24093; 25327; 25937; 20154; 39006;
    33067; 38626; 32618; 24801; 30340; 35336; 21123; 65292; 36890;
    36942; 32822; 31308; 22522; 30563; 30340; 21313; 23383; 26550;
    24037; 20316; 24471; 20197; 23526; 29694; 12290; 25937; 24681;
    21253; 25324; 31281; 32681; 12289; 25104; 32854; 21644; 24471;
    27054; 32768; 19977; 20491; 38542; 27573; 12290];
   [32854; 32147; 26159; 22522; 30563; 25945; 20449; 20208; 30340;
    26368; 39640; 27402; 23041; 65292; 34987; 35469; 28858; 26159;
    19978; 24093; 40664; 31034; 30340; 35441; 35486; 12290; 32854;
    32147; 21253; 25324; 33290; 32004; 21644; 26032; 32004; 20841;
    37096; 20998; 65292; 20849; 54; 54; 21367; 26360; 12290];
   [25945; 26371; 26159; 25152; 26377; 20449; 24466; 30340; 32676;
    39636; 65292; 34987; 31281; 28858; 22522; 30563; 30340; 36523;
    39636; 12290; 25945; 26371; 30340; 20351; 21629; 21253; 25324;
    25964; 25308; 12289; 22296; 22865; 12289; 25945; 23566; 21644;
    23459; 25945; 12290];
   [27927; 31150; 26159; 22522; 30563; 25945; 30340; 37325; 35201;
    32854; 31150; 65292; 35937; 24501; 20449; 24466; 33287; 22522;
    30563; 21516; 27515; 21516; 24489; 27963; 12290; 19981; 21516;
    25945; 27966; 23565; 27927; 31150; 30340; 26041; 24335; 21644;
    24847; 32681; 26377; 19981; 21516; 30340; 29702; 35299; 12290];
   [32854; 39184; 26159; 32822; 31308; 35373; 31435; 30340; 32854;
    31150; 65292; 35352; 24565; 20182; 30340; 27515; 21644; 24489;
    27963; 12290; 39173; 21644; 26479; 35937; 24501; 22522; 30563;
    30340; 36523; 39636; 21644; 34880; 65292; 20449; 24466; 36890;
    36942; 32854; 39184; 33287; 20027; 32879; 21512; 12290]]%N.

(** [DocumentChunk(id=f"sample_{i}", content=text,
    source=f"sample_document_{i}.txt",
    metadata={"type": "sample", "index": i})] *)
Definition sample_chunk (i : nat) (text : str)
    : DocumentProcessor.DocumentChunk :=
  {| DocumentProcessor.id := py "sample_" ++ str_of_int (Z.of_nat i);
     DocumentProcessor.content := text;
     DocumentProcessor.source :=
       py "sample_document_" ++ str_of_int (Z.of_nat i) ++ py ".txt";
     DocumentProcessor.metadata :=
       <[py "type" := VStr (py "sample")]>
       (<[py "index" := VInt (Z.of_nat i)]> ∅) |}.

Section building.
Context `{Hashlib} `{StrLower} `{Faiss}.
(** [self.model.encode(texts)] *)
Variable encode : list str -> ndarray.
(** [self.faiss_manager.save_index("theology_vectors.index")] and
    [pickle.dump(self.documents, f)] into ["documents.pkl"]: writing the
    index and the documents to disk returns or raises. *)
Variable persist :
  faiss.Index -> list DocumentProcessor.DocumentChunk -> result unit.

(** [build_sample_index] *)
Definition build_sample_index : result built :=
  let chunks := imap sample_chunk sample_documents in
  let vectors := encode (DocumentProcessor.content <$> chunks) in
  let* index := FAISSIndexManager.train_and_add_vectors vectors in
  Ok (Built vectors index chunks).

(** [build_index_from_documents] *)
Definition build_index_from_documents
    (directory : option (list DocumentProcessor.file)) : result built :=
  let processor := DocumentProcessor.init in
  let chunks :=
    DocumentProcessor.load_documents_from_directory processor directory in
  match chunks with
  | [] => build_sample_index
  | _ =>
      let texts := DocumentProcessor.content <$> chunks in
      let batch_size := 100 in
      let* offsets := py_range 0 (len texts) batch_size in
      let all_vectors :=
        (fun i => encode (py_slice texts i (i + batch_size))) <$> offsets in
      let* vectors := np_vstack all_vectors in
      let* index := FAISSIndexManager.train_and_add_vectors vectors in
      let* _ := persist index chunks in
      Ok (Built vectors index chunks)
  end.
End building.

End VectorSearchEngine.

(** ** [main.py]: confidence of a response ([vector_search]) *)

(** [min(a, b)] on floats: the first argument unless the second is smaller. *)
Definition py_min (a b : Q) : Q := if Qltb b a then b else a.

(** The sum of rationals, starting from [0]. *)
Definition py_sum (l : list Q) : Q := fold_left Qplus l 0%Q.

(** The [confidence_score] that [vector_search] computes for the documents
    that [search] returned: [0.0] when there is none, and otherwise
    [min(sum(scores) / len(relevant_docs) * 1.2, 1.0)]. *)
Definition confidence_of `{Float64}
    (relevant_docs : list VectorSearchEngine.doc) : Q :=
  match relevant_docs with
  | [] => 0%Q
  | _ =>
      let avg_score :=
        fl (fsum (VectorSearchEngine.score <$> relevant_docs)
            / inject_Z (len relevant_docs))%Q in
      py_min (fl (avg_score * fl (12 # 10)))%Q 1%Q
  end.

(** ** [main.py]: [CacheManager] *)

Module CacheManager.

Section cache.
Context `{Hashlib} `{StrLower}.
(** The cached response. *)
Context {Data : Type}.

(** The dictionary stored under a key: [{'data', 'timestamp'}]. *)
Record entry := { data : Data; timestamp : Q }.

(** A Python [dict] in iteration (insertion) order. *)
Local Abbreviation dict := (list (str * entry)).

Definition keys (d : dict) : list str := fst <$> d.

(** A dictionary holds a key once. *)
Definition dict_wf (d : dict) : Prop := NoDup (keys d).

(** [d[k]] for a present key, [k in d]. *)
Fixpoint dict_get (d : dict) (k : str) : option entry :=
  match d with
  | [] => None
  | (k', e) :: d' => if bool_decide (k' = k) then Some e else dict_get d' k
  end.

(** [del d[k]] *)
Fixpoint dict_del (d : dict) (k : str) : dict :=
  match d with
  | [] => []
  | (k', e) :: d' =>
      if bool_decide (k' = k) then dict_del d' k else (k', e) :: dict_del d' k
  end.

(** [d[k] = e]: a present key keeps its place, a new one goes last. *)
Fixpoint dict_set (d : dict) (k : str) (e : entry) : dict :=
  match d with
  | [] => [(k, e)]
  | (k', e') :: d' =>
      if bool_decide (k' = k) then (k, e) :: d'
      else (k', e') :: dict_set d' k e
  end.

(** [min(d.keys(), key=lambda k: d[k]['timestamp'])]: the first key, in
    iteration order, whose time stamp no other key undercuts. *)
Definition min_step (best cur : str * entry) : str * entry :=
  if Qltb (timestamp (snd cur)) (timestamp (snd best)) then cur else best.

Definition min_key (d : dict) : result str :=
  match d with
  | [] => Raise ValueError
  | first :: rest => Ok (fst (fold_left min_step rest first))
  end.

Record t := { cache : dict; max_size : Z; duration : Z }.

(** [__init__] *)
Definition init : t :=
  {| cache := [];
     max_size := Config.CACHE_SIZE;
     duration := Config.CACHE_DURATION |}.

Definition with_cache (self : t) (c : dict) : t :=
  {| cache := c; max_size := max_size self; duration := duration self |}.

Definition _get_cache_key (query : str) : str :=
  md5_hexdigest (strip (lower query)).

(** [get]; [now] is the reading of [datetime.now().timestamp()]. *)
Definition get (self : t) (query : str) (now : Q) : option Data * t :=
  let key := _get_cache_key query in
  match dict_get (cache self) key with
  | Some cached_data =>
      if Qltb (now - timestamp cached_data)%Q (inject_Z (duration self))
      then (Some (data cached_data), self)
      else (None, with_cache self (dict_del (cache self) key))
  | None => (None, self)
  end.

(** The eviction that [set] performs before it stores. *)
Definition evict (self : t) : result dict :=
  if max_size self <=? len (cache self) then
    match min_key (cache self) with
    | Raise e => Raise e
    | Ok oldest_key => Ok (dict_del (cache self) oldest_key)
    end
  else Ok (cache self).

(** [set]; [now] is the reading of [datetime.now().timestamp()]. *)
Definition set (self : t) (query : str) (payload : Data) (now : Q)
    : result t :=
  let key := _get_cache_key query in
  match evict self with
  | Raise e => Raise e
  | Ok c =>
      Ok (with_cache self
            (dict_set c key {| data := payload; timestamp := now |}))
  end.

(** The manager after a call of [set]: an exception leaves it as it
    was. *)
Definition after_set (self : t) (call : str * Data * Q) : t :=
  match set self call.1.1 call.1.2 call.2 with
  | Ok self' => self'
  | Raise _ => self
  end.

(** The managers seen after each of a sequence of calls of [set]. *)
Fixpoint set_trace (self : t) (calls : list (str * Data * Q)) : list t :=
  match calls with
  | [] => []
  | call :: calls' =>
      let self' := after_set self call in
      self' :: set_trace self' calls'
  end.

Definition set_all (self : t) (calls : list (str * Data * Q)) : t :=
  fold_left after_set calls self.
End cache.

Arguments entry : clear implicits.
Arguments t : clear implicits.

Abbreviation dict Data := (list (str * entry Data)).

End CacheManager.

(** ** [main.py]: the request handler [vector_search] *)

Record SearchRequest := {
  question : str;
  top_k : Z;
  temperature : Q;
  use_cache : bool
}.

Record SearchResponse := {
  answer : str;
  sources : list VectorSearchEngine.doc;
  search_time : Q;
  total_time : Q;
  cache_hit : bool;
  confidence_score : Q
}.

(** The answer given when nothing relevant is found. *)
Definition not_found_answer : str :=
  [25265; 27465; 65292; 25105; 22312; 30693; 35672; 24235; 20013; 25214;
   19981; 21040; 30456; 38364; 36039; 35338; 20358; 22238; 31572; 36889;
   20491; 21839; 38988; 12290; 35531; 22039; 35430; 20351; 29992; 19981;
   21516; 30340; 38364; 37749; 35422; 25110; 26356; 20855; 39636; 30340;
   21839; 38988; 12290]%N.

(** The readings of [datetime.now()] at the places where the handler and the
    functions it calls take them, in program order. *)
Record readings := {
  at_start : Q;
  at_get : Q;
  at_search_start : Q;
  at_search_end : Q;
  at_total : Q;
  at_set : Q
}.

Section handler.
Context `{Hashlib} `{StrLower} `{Float64} {vector : Type}.
(** [self.model.encode([query])] *)
Variable encode : str -> vector.
(** [answer_generator.generate_answer], which never raises. *)
Variable generate_answer : str -> list VectorSearchEngine.doc -> Q -> str * Q.

(** [cached_result['cache_hit'] = True] changes the dictionary that the
    cache holds under [key]. *)
Definition mark_hit (cache_manager : CacheManager.t SearchResponse)
    (key : str) (hit : SearchResponse) : CacheManager.t SearchResponse :=
  match CacheManager.dict_get (CacheManager.cache cache_manager) key with
  | Some e =>
      CacheManager.with_cache cache_manager
        (CacheManager.dict_set (CacheManager.cache cache_manager) key
           {| CacheManager.data := hit;
              CacheManager.timestamp := CacheManager.timestamp e |})
  | None => cache_manager
  end.

(** [vector_search]: the response, or the [HTTPException] into which every
    exception is turned, and the cache manager it leaves. *)
Definition vector_search (search_engine : VectorSearchEngine.t)
    (cache_manager : CacheManager.t SearchResponse)
    (request : SearchRequest) (now : readings)
    : result SearchResponse * CacheManager.t SearchResponse :=
  let start_time := at_start now in
  let (cached_result, cache_manager) :=
    if use_cache request
    then CacheManager.get cache_manager (question request) (at_get now)
    else (None, cache_manager) in
  match cached_result with
  | Some cached_result =>
      let hit :=
        {| answer := answer cached_result;
           sources := sources cached_result;
           search_time := search_time cached_result;
           total_time := total_time cached_result;
           cache_hit := true;
           confidence_score := confidence_score cached_result |} in
      (Ok hit,
       mark_hit cache_manager
         (CacheManager._get_cache_key (question request)) hit)
  | None =>
      match VectorSearchEngine.search encode search_engine (question request)
              (top_k request) (at_search_start now) (at_search_end now) with
      | Raise e => (Raise (HTTPException 500), cache_manager)
      | Ok ([], search_time) =>
          (Ok {| answer := not_found_answer;
                 sources := [];
                 search_time := search_time;
                 total_time := (at_total now - start_time)%Q;
                 cache_hit := false;
                 confidence_score := 0%Q |},
           cache_manager)
      | Ok (relevant_docs, search_time) =>
          let (answer, generation_time) :=
            generate_answer (question request) relevant_docs
                            (temperature request) in
          let confidence_score := confidence_of relevant_docs in
          let total_time := (at_total now - start_time)%Q in
          let result :=
            {| answer := answer;
               sources := relevant_docs;
               search_time := search_time;
               total_time := total_time;
               cache_hit := false;
               confidence_score := confidence_score |} in
          if (use_cache request && Qltb (5 # 10) confidence_score)%bool then
            match CacheManager.set cache_manager (question request) result
                                   (at_set now) with
            | Raise e => (Raise (HTTPException 500), cache_manager)
            | Ok cache_manager => (Ok result, cache_manager)
            end
          else (Ok result, cache_manager)
      end
  end.
End handler.

(** ** Vocabulary of the properties *)

(** The trimmed text of the window that starts at offset [i]. *)
Definition window (chunk_size : Z) (text : str) (i : Z) : str :=
  strip (py_slice text i (i + chunk_size)).

(** The window at offset [i] passes the minimum-length test of the loop. *)
Definition kept (chunk_size : Z) (text : str) (i : Z) : Prop :=
  50 <= len (window chunk_size text i).

#[global] Instance kept_dec chunk_size text i : Decision (kept chunk_size text i).
Proof. unfold kept. apply _. Defined.

Definition start_pos (m : gmap str value) : option value := m !! py "start_pos".
Definition end_pos (m : gmap str value) : option value := m !! py "end_pos".

(** The offsets of [range(0, len(text), stride)] for a positive stride. *)
Definition offsets_of (text : str) (stride : Z) : list Z :=
  (fun k => Z.of_nat k * stride) <$> seq 0 (range_count 0 (len text) stride).

(** The test of the early return of
    [TheologyDocumentProcessor.chunk_document]. *)
Definition too_short (text : str) : bool :=
  (match text with [] => true | _ => false end || (len (strip text) <? 20))%bool.




(** The entry [(k, e)] at position [n] of a cache dictionary is its oldest:
    no entry has a smaller time stamp, and every entry before it, in
    iteration order, has a larger one. *)
Definition oldest_at {Data} (d : CacheManager.dict Data) (n : nat)
    (k : str) (e : CacheManager.entry Data) : Prop :=
  d !! n = Some (k, e) /\
  (forall (m : nat) x, d !! m = Some x ->
     (CacheManager.timestamp e <= CacheManager.timestamp (snd x))%Q) /\
  (forall (m : nat) x, (m < n)%nat -> d !! m = Some x ->
     (CacheManager.timestamp e < CacheManager.timestamp (snd x))%Q).

(** The cache entries that a sequence of calls of [set] writes. *)
Definition entries_of `{Hashlib} `{StrLower} {Data}
    (calls : list (str * Data * Q)) : CacheManager.dict Data :=
  (fun c => (CacheManager._get_cache_key c.1.1,
             {| CacheManager.data := c.1.2; CacheManager.timestamp := c.2 |}))
  <$> calls.

(** The outcome of a call, seen through a projection of its value. *)
Definition on_ok {A B} (f : A -> B) (r : result A) : result B :=
  match r with
  | Ok a => Ok (f a)
  | Raise e => Raise e
  end.

(** Stand-ins for the library functions, to run the model on concrete
    inputs: a digest that returns its argument, and lower-casing of the
    ASCII letters. *)
Definition plain_digest : Hashlib := {| md5_hexdigest := fun s => s |}.
Definition ascii_lower : StrLower :=
  {| lower := fun s =>
       (fun c => if (N.leb 65 c && N.leb c 90)%bool then (c + 32)%N else c) <$> s |}.

(** Stand-ins for the FAISS bindings: one that accepts every call, and one
    that refuses, as the k-means of FAISS does, to train an [IndexIVFPQ] on
    fewer vectors than it has clusters or than one of its sub-quantizers has
    centroids ([2 ^ nbits]). *)
Definition lenient_faiss : Faiss :=
  {| IndexFlatL2 := fun _ => Ok tt;
     index_new := fun _ => Ok tt;
     index_train := fun _ _ => Ok tt;
     index_add := fun _ _ _ => Ok tt |}.

Definition strict_faiss : Faiss :=
  {| IndexFlatL2 := fun _ => Ok tt;
     index_new := fun _ => Ok tt;
     index_train := fun index x =>
       match index with
       | faiss.IndexIVFPQ _ nlist _ nbits =>
           if ((shape0 x <? nlist) || (shape0 x <? 2 ^ nbits))%bool
           then Raise (PyError (py "RuntimeError"))
           else Ok tt
       | faiss.IndexFlatIP _ => Ok tt
       end;
     index_add := fun _ _ _ => Ok tt |}.

(** The bindings accept to construct [index] (an [IndexIVFPQ] over its
    quantizer), to train it on [x] when it is an [IndexIVFPQ], and to fill
    it with [x]. *)
Definition accepts `{Faiss} (index : faiss.Index) (x : ndarray) : Prop :=
  match index with
  | faiss.IndexIVFPQ d _ _ _ =>
      IndexFlatL2 d = Ok tt /\ index_new index = Ok tt /\
      index_train index x = Ok tt /\ index_add index true x = Ok tt
  | faiss.IndexFlatIP _ =>
      index_new index = Ok tt /\ index_add index false x = Ok tt
  end.

(** The bindings refuse to train an index on fewer vectors than the index
    has clusters. *)
Definition refuses_few_vectors `{Faiss} : Prop :=
  forall (index : faiss.Index) (nlist : Z) (x : ndarray),
    faiss.nlist index = Some nlist -> shape0 x < nlist ->
    exists e, index_train index x = Raise e.

(** Float arithmetic without rounding. *)
Definition exact_arithmetic : Float64 :=
  {| fl := fun x => x; fsum := py_sum |}.

(** Float arithmetic as IEEE 754 has it.  [binary64_round x] is the double
    nearest to [x]: 53 significant bits, ties to the even significand, the
    last place no finer than [2 ^ -1074]. *)
Definition pow2 (k : Z) : Q :=
  if 0 <=? k then inject_Z (2 ^ k) else 1 # Z.to_pos (2 ^ (- k)).

Definition round_half_even (x : Q) : Z :=
  let f := Qfloor x in
  match (x - inject_Z f ?= 1 # 2)%Q with
  | Lt => f
  | Gt => f + 1
  | Eq => if Z.even f then f else f + 1
  end.

Definition binary64_round (x : Q) : Q :=
  if Qeq_bool x 0 then 0%Q
  else
    let a := Qabs x in
    let e0 := Z.log2 (Qnum a) - Z.log2 (Zpos (Qden a)) in
    (* [2 ^ e <= a < 2 ^ (e + 1)] *)
    let e := if Qle_bool (pow2 e0) a then e0 else e0 - 1 in
    let last_place := Z.max (e - 52) (-1074) in
    let m := round_half_even (a / pow2 last_place) in
    let r := (inject_Z m * pow2 last_place)%Q in
    if Qle_bool 0 x then r else (- r)%Q.

(** Doubles, with [sum] adding from left to right. *)
Definition binary64 : Float64 :=
  {| fl := binary64_round;
     fsum := fun l => fold_left (fun acc x => binary64_round (acc + x)) l 0%Q |}.

(** The bindings' [search] asserts [k > 0]. *)
Definition answering (scores : list Q) (positions : list Z)
    : unit -> Z -> result (list Q * list Z) :=
  fun _ k =>
    if 0 <? k then Ok (scores, positions)
    else Raise (PyError (py "AssertionError")).

(** ** Inputs of the scenarios *)

(** A text of 1446 characters: 462 letters, 512 blanks, 412 letters and 60
    blanks. *)
Definition text_with_blank_windows : str :=
  repeat 97%N 462 ++ repeat 32%N 512 ++ repeat 97%N 412 ++ repeat 32%N 60.

(** The vectors of [build_sample_index]: ten rows of dimension 768. *)
Definition sample_vectors : ndarray := repeat (repeat 0%Q 768) 10.

(** Three chunks of a document store. *)
Definition chunk_named (name : string) : DocumentProcessor.DocumentChunk :=
  {| DocumentProcessor.id := py name;
     DocumentProcessor.content := py name;
     DocumentProcessor.source := py "doc.txt";
     DocumentProcessor.metadata := ∅ |}.

Definition three_chunks : list DocumentProcessor.DocumentChunk :=
  [chunk_named "c0"; chunk_named "c1"; chunk_named "c2"].

(** The largest [float32], with which FAISS pads the distances of the
    neighbours it did not find; their positions are [-1]. *)
Definition FLT_MAX : Q := 340282346638528859811704183484516925440 # 1.

(** An index that finds one neighbour, at position 2 with score 0.5, and
    pads the rest of the [k] candidates. *)
Definition padded_index : FAISSIndexManager.t unit :=
  {| FAISSIndexManager.index :=
       Some (fun _ k =>
               if 0 <? k then
                 Ok (take (Z.to_nat k) ((5 # 10) :: repeat FLT_MAX (Z.to_nat k)),
                     take (Z.to_nat k) (2 :: repeat (-1) (Z.to_nat k)))
               else Raise (PyError (py "AssertionError"))) |}.

(** The entry of [relevant_docs] made of a passage and its score. *)
Definition doc_of (d : DocumentProcessor.DocumentChunk) (sc : Q)
    : VectorSearchEngine.doc :=
  {| VectorSearchEngine.content := DocumentProcessor.content d;
     VectorSearchEngine.source := DocumentProcessor.source d;
     VectorSearchEngine.score := sc;
     VectorSearchEngine.metadata := DocumentProcessor.metadata d |}.

(** What the loop keeps of a candidate whose position is not negative. *)
Definition retained (documents : list DocumentProcessor.DocumentChunk)
    (c : Q * Z) : option VectorSearchEngine.doc :=
  if ((c.2 <? len documents) && Qltb (3 # 10) c.1)%bool
  then (fun d => doc_of d c.1) <$> documents !! Z.to_nat c.2
  else None.

(** Two documents with scores 0.5 and 0.9. *)
Definition two_docs : list VectorSearchEngine.doc :=
  [ {| VectorSearchEngine.content := py "a"; VectorSearchEngine.source := py "s";
       VectorSearchEngine.score := 5 # 10; VectorSearchEngine.metadata := ∅ |};
    {| VectorSearchEngine.content := py "b"; VectorSearchEngine.source := py "s";
       VectorSearchEngine.score := 9 # 10; VectorSearchEngine.metadata := ∅ |} ].

(** A cache that holds one answer, stored at time 100 under the key of
    ["hello"], with a duration of one day. *)
Definition one_entry_cache : CacheManager.t nat :=
  {| CacheManager.cache :=
       [(py "hello", {| CacheManager.data := 7%nat;
                        CacheManager.timestamp := 100 |})];
     CacheManager.max_size := Config.CACHE_SIZE;
     CacheManager.duration := Config.CACHE_DURATION |}.

(** 2001 calls of [set]: call [i] stores [i] at time [i] under the query
    made of [i] letters. *)
Definition calls_2001 : list (str * nat * Q) :=
  (fun i : nat => (repeat 97%N i, i, inject_Z (Z.of_nat i))) <$> seq 0 2001.

(** A full cache of capacity two whose older entry is not the one stored
    under the key of the empty query. *)
Definition two_entry_cache `{Hashlib} `{StrLower} {Data : Type}
    (payload : Data) : CacheManager.t Data :=
  {| CacheManager.cache :=
       [(0%N :: CacheManager._get_cache_key [],
         {| CacheManager.data := payload; CacheManager.timestamp := 0 |});
        (CacheManager._get_cache_key [],
         {| CacheManager.data := payload; CacheManager.timestamp := 1 |})];
     CacheManager.max_size := 2;
     CacheManager.duration := Config.CACHE_DURATION |}.

(** A full cache of capacity two: ["a"] written at time 1, ["b"] at 2. *)
Definition cache_a_b : CacheManager.t nat :=
  {| CacheManager.cache :=
       [(py "a", {| CacheManager.data := 1%nat; CacheManager.timestamp := 1 |});
        (py "b", {| CacheManager.data := 2%nat; CacheManager.timestamp := 2 |})];
     CacheManager.max_size := 2;
     CacheManager.duration := Config.CACHE_DURATION |}.

(** * Properties *)

(** ** Python substrate *)

Example py_range_1000 : py_range 0 1000 462 = Ok [0; 462; 924].
Proof. reflexivity. Qed.

Example py_range_down : py_range 5 0 (-2) = Ok [5; 3; 1].
Proof. reflexivity. Qed.

Example py_range_backwards : py_range 0 100 (-10) = Ok [].
Proof. reflexivity. Qed.

Example py_slice_neg : py_slice [1; 2; 3; 4; 5] 1 (-1) = [2; 3; 4].
Proof. reflexivity. Qed.

Example str_of_int_462 : str_of_int 462 = py "462".
Proof. reflexivity. Qed.

Example strip_ex : strip (py "  a b ") = py "a b".
Proof. reflexivity. Qed.

Lemma py_range_pos (stop step : Z) :
  0 < step ->
  py_range 0 stop step =
    Ok ((fun k => Z.of_nat k * step) <$> seq 0 (range_count 0 stop step)).
Proof.
  intros Hs. unfold py_range.
  destruct (step =? 0) eqn:E; [lia|]. reflexivity.
Qed.

Lemma range_count_pos (stop step : Z) :
  0 < step -> 0 < stop ->
  exists n : nat, range_count 0 stop step = S n /\
    Z.of_nat n * step < stop <= Z.of_nat (S n) * step.
Proof.
  intros Hs Hl. unfold range_count.
  destruct (0 <? step) eqn:E; [|lia].
  set (q := (stop - 0 + step - 1) / step).
  assert (Hq : 1 <= q).
  { unfold q. apply Z.div_le_lower_bound; lia. }
  exists (Z.to_nat (q - 1)). split; [lia|].
  assert (Hm := Z.div_mod (stop - 0 + step - 1) step ltac:(lia)).
  assert (Hr := Z.mod_pos_bound (stop - 0 + step - 1) step Hs).
  fold q in Hm. nia.
Qed.

Lemma range_count_bound (stop step : Z) (k : nat) :
  0 < step -> (k < range_count 0 stop step)%nat -> Z.of_nat k * step < stop.
Proof.
  intros Hs. unfold range_count.
  destruct (0 <? step) eqn:E; [|lia].
  intros Hk.
  set (q := (stop - 0 + step - 1) / step) in *.
  assert (Hm := Z.div_mod (stop - 0 + step - 1) step ltac:(lia)).
  assert (Hr := Z.mod_pos_bound (stop - 0 + step - 1) step Hs).
  fold q in Hm. nia.
Qed.

Lemma lstrip_length (s : str) : (length (lstrip s) <= length s)%nat.
Proof.
  induction s as [|c s IH]; simpl; [lia|].
  destruct (isspace c); simpl; lia.
Qed.

Lemma lstrip_app (a b : str) :
  lstrip (a ++ b) = match lstrip a with [] => lstrip b | _ => lstrip a ++ b end.
Proof.
  induction a as [|c a IH]; simpl.
  - reflexivity.
  - destruct (isspace c); [exact IH | reflexivity].
Qed.

Lemma rstrip_length (s : str) : (length (rstrip s) <= length s)%nat.
Proof.
  unfold rstrip. rewrite length_rev.
  etransitivity; [apply lstrip_length|]. by rewrite length_rev.
Qed.

Lemma rstrip_app_length (a b : str) :
  (length (rstrip a) <= length (rstrip (a ++ b)))%nat.
Proof.
  unfold rstrip at 2. rewrite rev_app_distr, lstrip_app.
  destruct (lstrip (rev b)) as [|c r] eqn:E.
  - reflexivity.
  - rewrite length_rev, length_app, length_rev.
    pose proof (rstrip_length a). lia.
Qed.

Lemma strip_length (s : str) : len (strip s) <= len s.
Proof.
  unfold strip, len.
  pose proof (rstrip_length (lstrip s)). pose proof (lstrip_length s). lia.
Qed.

(** Trimming a prefix of a text never leaves more than trimming the text. *)
Lemma strip_take_length (n : nat) (s : str) :
  len (strip (take n s)) <= len (strip s).
Proof.
  unfold len. apply inj_le.
  rewrite <- (take_drop n s) at 2.
  unfold strip. rewrite lstrip_app.
  destruct (lstrip (take n s)) as [|c r] eqn:E.
  - simpl. lia.
  - apply rstrip_app_length.
Qed.

Lemma lstrip_no_space (s : str) :
  Forall (fun c => isspace c = false) s -> lstrip s = s.
Proof.
  destruct 1 as [|c s Hc _]; simpl; [reflexivity|]. by rewrite Hc.
Qed.

Lemma strip_no_space (s : str) :
  Forall (fun c => isspace c = false) s -> strip s = s.
Proof.
  intros Hs. unfold strip, rstrip.
  rewrite (lstrip_no_space s Hs), lstrip_no_space, rev_involutive; [done|].
  by apply List.Forall_rev.
Qed.

(** A slice that starts at position [0] is a prefix. *)
Lemma py_slice_0_take {A} (l : list A) (hi : Z) :
  exists n : nat, py_slice l 0 hi = take n l.
Proof.
  unfold py_slice. exists (Z.to_nat (slice_bound (len l) hi - slice_bound (len l) 0)).
  replace (slice_bound (len l) 0) with 0; [done|].
  unfold slice_bound, len. simpl. lia.
Qed.

(** A slice within the text, by positions. *)
Lemma py_slice_in_range {A} (l : list A) (lo hi : Z) :
  0 <= lo <= hi ->
  py_slice l lo hi =
    take (Z.to_nat (Z.min hi (len l) - Z.min lo (len l))) (drop (Z.to_nat lo) l).
Proof.
  intros Hr. unfold py_slice, slice_bound.
  destruct (lo <? 0) eqn:E1; [lia|]. destruct (hi <? 0) eqn:E2; [lia|].
  destruct (decide (lo <= len l)) as [Hl|Hl].
  - by rewrite (Z.min_l lo) by lia.
  - unfold len in *. rewrite !drop_ge by lia. by rewrite !take_nil.
Qed.

Lemma py_slice_length {A} (l : list A) (lo hi : Z) :
  0 <= lo <= hi -> lo <= len l ->
  len (py_slice l lo hi) = Z.min hi (len l) - lo.
Proof.
  intros Hr Hl. rewrite py_slice_in_range by done.
  unfold len in *. rewrite length_take, length_drop. lia.
Qed.

Lemma py_slice_Forall {A} (P : A -> Prop) (l : list A) (lo hi : Z) :
  Forall P l -> Forall P (py_slice l lo hi).
Proof.
  intros Hl. unfold py_slice. by apply Forall_take, Forall_drop.
Qed.

(** In a text without white space a window keeps all its characters. *)
Lemma window_no_space (chunk_size : Z) (text : str) (i : Z) :
  Forall (fun c => isspace c = false) text ->
  0 <= chunk_size -> 0 <= i <= len text ->
  len (window chunk_size text i) = Z.min (i + chunk_size) (len text) - i.
Proof.
  intros Hs Hc Hi. unfold window.
  rewrite strip_no_space by by apply py_slice_Forall.
  apply py_slice_length; lia.
Qed.

(** The window at the start of the text is no longer than the trimmed text. *)
Lemma window_0_length (chunk_size : Z) (text : str) :
  len (window chunk_size text 0) <= len (strip text).
Proof.
  unfold window. destruct (py_slice_0_take text (0 + chunk_size)) as [n ->].
  apply strip_take_length.
Qed.

(** ** The chunking loops in closed form *)

Section chunk_loops.
Context `{Hashlib}.

(** The loop of [DocumentProcessor.chunk_document] appends one chunk per
    kept window, in the order of the offsets. *)
Lemma DocumentProcessor_loop (self : DocumentProcessor.t) (text src : str)
    (offsets : list Z) (acc : list DocumentProcessor.DocumentChunk) :
  fold_left (DocumentProcessor.chunk_body self text src) offsets acc =
  acc ++ imap (fun k i =>
                 DocumentProcessor.make_chunk self text src (length acc + k) i)
              (filter (kept (DocumentProcessor.chunk_size self) text) offsets).
Proof.
  induction offsets as [|i offs IH] in acc |- *; simpl.
  - by rewrite app_nil_r.
  - rewrite IH, filter_cons. unfold DocumentProcessor.chunk_body, kept, window.
    destruct (len _ <? 50) eqn:E; destruct (decide _) as [Hk|Hk]; try lia.
    + reflexivity.
    + simpl. rewrite <- app_assoc. simpl.
      rewrite Nat.add_0_r. do 2 f_equal.
      apply imap_ext. intros k x _. simpl.
      rewrite length_app. simpl. f_equal. lia.
Qed.

(** The same for [TheologyDocumentProcessor.chunk_document], whose loop
    also reads the clock once per kept window. *)
Lemma TheologyDocumentProcessor_loop (self : TheologyDocumentProcessor.t)
    (clock : nat -> str) (text src : str) (extra : option (gmap str value))
    (offsets : list Z) (st : TheologyDocumentProcessor.loop_state) :
  let keep := filter (kept (TheologyDocumentProcessor.chunk_size self) text)
                     offsets in
  fold_left (TheologyDocumentProcessor.chunk_body self clock text src extra)
            offsets st =
  {| TheologyDocumentProcessor.chunks :=
       TheologyDocumentProcessor.chunks st ++
       imap (fun k i =>
               TheologyDocumentProcessor.make_chunk self text src extra
                 (length (TheologyDocumentProcessor.chunks st) + k)
                 (clock (TheologyDocumentProcessor.reads st + k)%nat) i)
            keep;
     TheologyDocumentProcessor.reads :=
       (TheologyDocumentProcessor.reads st + length keep)%nat |}.
Proof.
  induction offsets as [|i offs IH] in st |- *; simpl.
  - destruct st as [cs r]. simpl. by rewrite app_nil_r, Nat.add_0_r.
  - rewrite IH, filter_cons.
    unfold TheologyDocumentProcessor.chunk_body, kept, window.
    destruct (len _ <? 50) eqn:E; destruct (decide _) as [Hk|Hk]; try lia.
    + reflexivity.
    + simpl. rewrite <- app_assoc. simpl.
      rewrite !Nat.add_0_r. f_equal; [|lia]. do 2 f_equal.
      apply imap_ext. intros k x _. simpl.
      rewrite length_app. simpl. f_equal; [lia|]. f_equal. lia.
Qed.

Lemma DocumentProcessor_chunks (self : DocumentProcessor.t) (text src : str) :
  let stride := DocumentProcessor.chunk_size self - DocumentProcessor.overlap self in
  0 < stride ->
  DocumentProcessor.chunk_document self text src =
  Ok (imap (fun k i => DocumentProcessor.make_chunk self text src k i)
           (filter (kept (DocumentProcessor.chunk_size self) text)
                   (offsets_of text stride))).
Proof.
  intros stride Hs. unfold DocumentProcessor.chunk_document.
  fold stride. rewrite py_range_pos by done.
  by rewrite DocumentProcessor_loop.
Qed.

Lemma TheologyDocumentProcessor_chunks (self : TheologyDocumentProcessor.t)
    (clock : nat -> str) (text src : str) (extra : option (gmap str value)) :
  let stride := TheologyDocumentProcessor.chunk_size self
                - TheologyDocumentProcessor.overlap self in
  0 < stride ->
  TheologyDocumentProcessor.chunk_document self clock text src extra =
  Ok (if too_short text then []
      else imap (fun k i =>
                   TheologyDocumentProcessor.make_chunk self text src extra
                     k (clock k) i)
                (filter (kept (TheologyDocumentProcessor.chunk_size self) text)
                        (offsets_of text stride))).
Proof.
  intros stride Hs. unfold TheologyDocumentProcessor.chunk_document.
  fold (too_short text). destruct (too_short text); [done|].
  fold stride. rewrite py_range_pos by done.
  by rewrite TheologyDocumentProcessor_loop.
Qed.

End chunk_loops.

(** ** Offsets of the kept windows *)






Lemma fmap_imap_ext {A B C} (g : B -> C) (h : A -> C) (f : nat -> A -> B)
    (l : list A) :
  (forall k x, g (f k x) = h x) -> g <$> imap f l = h <$> l.
Proof.
  intros Hg. rewrite fmap_imap, <- imap_const.
  apply imap_ext. intros k x _. simpl. apply Hg.
Qed.

(** ** What the chunkers record about a window *)

Section chunk_fields.
Context `{Hashlib}.

Lemma DocumentProcessor_start_pos self text src n i :
  start_pos (DocumentProcessor.metadata
               (DocumentProcessor.make_chunk self text src n i))
  = Some (VInt i).
Proof. unfold start_pos. simpl. by rewrite lookup_insert_eq. Qed.

Lemma DocumentProcessor_end_pos self text src n i :
  end_pos (DocumentProcessor.metadata
             (DocumentProcessor.make_chunk self text src n i))
  = Some (VInt (Z.min (i + DocumentProcessor.chunk_size self) (len text))).
Proof.
  unfold end_pos. simpl.
  rewrite lookup_insert_ne by (by vm_compute). by rewrite lookup_insert_eq.
Qed.

Lemma TheologyDocumentProcessor_start_pos self text src n t i :
  start_pos (TheologyDocumentProcessor.metadata
               (TheologyDocumentProcessor.make_chunk self text src None n t i))
  = Some (VInt i).
Proof.
  unfold start_pos. simpl.
  rewrite lookup_insert_ne by (by vm_compute). by rewrite lookup_insert_eq.
Qed.

Lemma TheologyDocumentProcessor_end_pos self text src n t i :
  end_pos (TheologyDocumentProcessor.metadata
             (TheologyDocumentProcessor.make_chunk self text src None n t i))
  = Some (VInt (Z.min (i + TheologyDocumentProcessor.chunk_size self)
                      (len text))).
Proof.
  unfold end_pos. simpl.
  do 2 rewrite lookup_insert_ne by (by vm_compute).
  by rewrite lookup_insert_eq.
Qed.
End chunk_fields.

(** ** Chunker: start and end positions *)

Lemma offsets_of_head (text : str) (stride : Z) :
  0 < stride -> text <> [] -> 0 ∈ offsets_of text stride.
Proof.
  intros Hs Ht.
  assert (Hl : 0 < len text) by (destruct text; [done|unfold len; simpl; lia]).
  destruct (range_count_pos (len text) stride Hs Hl) as (n & Hn & _).
  unfold offsets_of. rewrite Hn. simpl. left.
Qed.


(** ** Chunker: the 1000-character scenario *)

Lemma offsets_of_1000 (text : str) :
  len text = 1000 -> offsets_of text 462 = [0; 462; 924].
Proof. intros Hl. unfold offsets_of. by rewrite Hl. Qed.

(** C9.  A text of 1000 characters none of which is white space, chunked by
    [TheologyDocumentProcessor] with its default chunk size 512 and overlap
    50, gives exactly three chunks, with [start_pos] 0, 462 and 924; the
    last one has [start_pos] 924 and [end_pos] 1000.  The chunker of
    [main.py], whose defaults are the same, does the same. *)
Theorem chunk_document_scenario_1000 `{Hashlib} (clock : nat -> str)
    (text src : str) :
  len text = 1000 ->
  Forall (fun c => isspace c = false) text ->
  (exists c0 c1 c2,
     TheologyDocumentProcessor.chunk_document TheologyDocumentProcessor.init
       clock text src None = Ok [c0; c1; c2] /\
     start_pos (TheologyDocumentProcessor.metadata c0) = Some (VInt 0) /\
     start_pos (TheologyDocumentProcessor.metadata c1) = Some (VInt 462) /\
     start_pos (TheologyDocumentProcessor.metadata c2) = Some (VInt 924) /\
     end_pos (TheologyDocumentProcessor.metadata c2) = Some (VInt 1000)) /\
  (exists c0 c1 c2,
     DocumentProcessor.chunk_document DocumentProcessor.init text src
     = Ok [c0; c1; c2] /\
     start_pos (DocumentProcessor.metadata c0) = Some (VInt 0) /\
     start_pos (DocumentProcessor.metadata c1) = Some (VInt 462) /\
     start_pos (DocumentProcessor.metadata c2) = Some (VInt 924) /\
     end_pos (DocumentProcessor.metadata c2) = Some (VInt 1000)).
Proof.
  intros Hl Hs.
  assert (Hk : forall i, 0 <= i <= 950 -> kept 512 text i).
  { intros i Hi. unfold kept. rewrite window_no_space by (done || lia). lia. }
  split.
  - pose proof (TheologyDocumentProcessor_chunks TheologyDocumentProcessor.init
                  clock text src None) as Hc.
    simpl in Hc. specialize (Hc ltac:(lia)).
    assert (Hshort : too_short text = false).
    { unfold too_short. rewrite strip_no_space by done. rewrite Hl.
      by destruct text. }
    rewrite Hshort, offsets_of_1000 in Hc by done.
    rewrite !filter_cons_True, filter_nil in Hc by (apply Hk; lia).
    simpl in Hc. rewrite Hc. do 3 eexists. split; [reflexivity|].
    rewrite !TheologyDocumentProcessor_start_pos,
      TheologyDocumentProcessor_end_pos.
    simpl. rewrite Hl. by repeat split.
  - pose proof (DocumentProcessor_chunks DocumentProcessor.init text src) as Hc.
    simpl in Hc. specialize (Hc ltac:(by vm_compute)).
    change (Config.CHUNK_SIZE - Config.OVERLAP) with 462 in Hc.
    change Config.CHUNK_SIZE with 512 in Hc.
    rewrite offsets_of_1000 in Hc by done.
    rewrite !filter_cons_True, filter_nil in Hc by (apply Hk; lia).
    simpl in Hc. rewrite Hc. do 3 eexists. split; [reflexivity|].
    rewrite !DocumentProcessor_start_pos, DocumentProcessor_end_pos.
    simpl. rewrite Hl. by repeat split.
Qed.

Lemma chunk_document_scenario_1000_witness :
  exists c0 c1 c2,
    TheologyDocumentProcessor.chunk_document (H := plain_digest)
      TheologyDocumentProcessor.init (fun _ => py "2025-01-01T00:00:00")
      (repeat 97%N 1000) (py "doc.txt") None = Ok [c0; c1; c2] /\
    start_pos (TheologyDocumentProcessor.metadata c0) = Some (VInt 0) /\
    start_pos (TheologyDocumentProcessor.metadata c1) = Some (VInt 462) /\
    start_pos (TheologyDocumentProcessor.metadata c2) = Some (VInt 924) /\
    end_pos (TheologyDocumentProcessor.metadata c2) = Some (VInt 1000).
Proof.
  apply (chunk_document_scenario_1000 (H := plain_digest)).
  - by vm_compute.
  - apply Forall_forall. intros c Hc. apply list_elem_of_In, repeat_spec in Hc.
    by subst.
Defined.

(** ** Chunker: determinism and identifiers *)

Lemma Forall_imap {A B} (P : B -> Prop) (f : nat -> A -> B) (l : list A) :
  (forall k x, P (f k x)) -> Forall P (imap f l).
Proof.
  intros Hf. apply Forall_forall. intros y Hy.
  apply list_elem_of_lookup in Hy as [k Hk].
  rewrite list_lookup_imap in Hk.
  destruct (l !! k); simplify_eq/=. apply Hf.
Qed.

Lemma py_range_cases (start stop step : Z) :
  (step = 0 /\ py_range start stop step = Raise ValueError) \/
  (step <> 0 /\ exists offsets, py_range start stop step = Ok offsets).
Proof.
  unfold py_range. destruct (step =? 0) eqn:E.
  - left. split; [lia|done].
  - right. split; [lia|]. by eexists.
Qed.

Section chunk_ids.
Context `{Hashlib}.

(** The identifier and the text of a chunk of [TheologyDocumentProcessor]
    do not depend on the clock or on the number of chunks before it. *)
Lemma TheologyDocumentProcessor_clock_free self clock1 clock2 text src extra :
  on_ok (fmap TheologyDocumentProcessor.id)
    (TheologyDocumentProcessor.chunk_document self clock1 text src extra)
  = on_ok (fmap TheologyDocumentProcessor.id)
      (TheologyDocumentProcessor.chunk_document self clock2 text src extra)
  /\
  on_ok (fmap TheologyDocumentProcessor.content)
    (TheologyDocumentProcessor.chunk_document self clock1 text src extra)
  = on_ok (fmap TheologyDocumentProcessor.content)
      (TheologyDocumentProcessor.chunk_document self clock2 text src extra).
Proof.
  unfold TheologyDocumentProcessor.chunk_document.
  destruct (_ || _)%bool; [done|].
  destruct (py_range _ _ _) as [offsets|e]; [|done].
  rewrite !TheologyDocumentProcessor_loop. simpl.
  split; f_equal.
  - rewrite !(fmap_imap_ext TheologyDocumentProcessor.id
                (fun i => md5_hexdigest (src ++ py "_" ++ str_of_int i)));
      done.
  - rewrite !(fmap_imap_ext TheologyDocumentProcessor.content
                (fun i => window (TheologyDocumentProcessor.chunk_size self)
                            text i));
      done.
Qed.

Lemma TheologyDocumentProcessor_ids self clock text src extra :
  match TheologyDocumentProcessor.chunk_document self clock text src extra with
  | Ok chunks =>
      Forall (fun c => exists i : Z,
                TheologyDocumentProcessor.id c
                  = md5_hexdigest (src ++ py "_" ++ str_of_int i) /\
                ((forall m, extra = Some m -> m !! py "start_pos" = None) ->
                 start_pos (TheologyDocumentProcessor.metadata c)
                   = Some (VInt i)))
             chunks
  | Raise e =>
      e = ValueError /\
      TheologyDocumentProcessor.chunk_size self
        = TheologyDocumentProcessor.overlap self
  end.
Proof.
  unfold TheologyDocumentProcessor.chunk_document.
  destruct (_ || _)%bool; [by constructor|].
  destruct (py_range_cases 0 (len text)
              (TheologyDocumentProcessor.chunk_size self
               - TheologyDocumentProcessor.overlap self))
    as [[Hz ->]|[_ [offsets ->]]].
  { split; [done|lia]. }
  rewrite TheologyDocumentProcessor_loop. simpl.
  apply Forall_imap. intros k i. exists i. split; [done|].
  intros Hextra. destruct extra as [m|].
  - unfold start_pos. simpl. rewrite lookup_union_r by by apply Hextra.
    rewrite lookup_insert_ne by (by vm_compute). by rewrite lookup_insert_eq.
  - apply TheologyDocumentProcessor_start_pos.
Qed.

Lemma DocumentProcessor_ids self text src :
  match DocumentProcessor.chunk_document self text src with
  | Ok chunks =>
      Forall (fun c => exists i : Z,
                DocumentProcessor.id c
                  = md5_hexdigest (src ++ py "_" ++ str_of_int i) /\
                start_pos (DocumentProcessor.metadata c) = Some (VInt i))
             chunks
  | Raise e =>
      e = ValueError /\
      DocumentProcessor.chunk_size self = DocumentProcessor.overlap self
  end.
Proof.
  unfold DocumentProcessor.chunk_document.
  destruct (py_range_cases 0 (len text)
              (DocumentProcessor.chunk_size self
               - DocumentProcessor.overlap self))
    as [[Hz ->]|[_ [offsets ->]]].
  { split; [done|lia]. }
  rewrite DocumentProcessor_loop. simpl.
  apply Forall_imap. intros k i. exists i. split; [done|].
  apply DocumentProcessor_start_pos.
Qed.
End chunk_ids.

(** C8.  Two calls of [TheologyDocumentProcessor.chunk_document] on the same
    text and source return the same identifiers and the same texts, in the
    same order, whatever the clock reads during either call (the chunker of
    [main.py] reads nothing but its arguments).  In both chunkers the
    identifier of a chunk is the digest of the source, an underscore and the
    offset of its window, which is its [start_pos] (unless, in
    [data_processor.py], the extra metadata carries a [start_pos] of its
    own). *)
Theorem chunk_document_deterministic `{Hashlib}
    (self_t : TheologyDocumentProcessor.t) (self_m : DocumentProcessor.t)
    (clock1 clock2 : nat -> str) (text src : str)
    (extra : option (gmap str value)) :
  (on_ok (fmap TheologyDocumentProcessor.id)
     (TheologyDocumentProcessor.chunk_document self_t clock1 text src extra)
   = on_ok (fmap TheologyDocumentProcessor.id)
       (TheologyDocumentProcessor.chunk_document self_t clock2 text src extra)
   /\
   on_ok (fmap TheologyDocumentProcessor.content)
     (TheologyDocumentProcessor.chunk_document self_t clock1 text src extra)
   = on_ok (fmap TheologyDocumentProcessor.content)
       (TheologyDocumentProcessor.chunk_document self_t clock2 text src extra))
  /\
  match TheologyDocumentProcessor.chunk_document self_t clock1 text src extra with
  | Ok chunks =>
      Forall (fun c => exists i : Z,
                TheologyDocumentProcessor.id c
                  = md5_hexdigest (src ++ py "_" ++ str_of_int i) /\
                ((forall m, extra = Some m -> m !! py "start_pos" = None) ->
                 start_pos (TheologyDocumentProcessor.metadata c)
                   = Some (VInt i)))
             chunks
  | Raise e =>
      e = ValueError /\
      TheologyDocumentProcessor.chunk_size self_t
        = TheologyDocumentProcessor.overlap self_t
  end /\
  match DocumentProcessor.chunk_document self_m text src with
  | Ok chunks =>
      Forall (fun c => exists i : Z,
                DocumentProcessor.id c
                  = md5_hexdigest (src ++ py "_" ++ str_of_int i) /\
                start_pos (DocumentProcessor.metadata c) = Some (VInt i))
             chunks
  | Raise e =>
      e = ValueError /\
      DocumentProcessor.chunk_size self_m = DocumentProcessor.overlap self_m
  end.
Proof.
  split; [apply TheologyDocumentProcessor_clock_free|]. split.
  - apply TheologyDocumentProcessor_ids.
  - apply DocumentProcessor_ids.
Qed.

(** The chunks themselves do depend on the clock: their [created_at] is the
    reading taken when they are built. *)
Example chunk_document_created_at :
  TheologyDocumentProcessor.chunk_document (H := plain_digest)
    TheologyDocumentProcessor.init (fun _ => py "2025-01-01T00:00:00")
    (repeat 97%N 60) (py "doc.txt") None
  <> TheologyDocumentProcessor.chunk_document (H := plain_digest)
       TheologyDocumentProcessor.init (fun _ => py "2025-01-02T00:00:00")
       (repeat 97%N 60) (py "doc.txt") None.
Proof.
  intros E. apply (f_equal (on_ok (fmap (fun c =>
    TheologyDocumentProcessor.metadata c !! py "created_at")))) in E.
  by vm_compute in E.
Qed.

(** ** Chunker: a stride that is not positive *)

Lemma py_range_zero_step (start stop : Z) :
  py_range start stop 0 = Raise ValueError.
Proof. reflexivity. Qed.

Lemma py_range_negative_step (stop step : Z) :
  step < 0 -> 0 <= stop -> py_range 0 stop step = Ok [].
Proof.
  intros Hs Hl. unfold py_range, range_count.
  destruct (step =? 0) eqn:E0; [lia|].
  destruct (0 <? step) eqn:E1; [lia|].
  replace (Z.to_nat _) with 0%nat; [done|].
  assert ((0 - stop - step - 1) / - step < 1); [|lia].
  apply Z.div_lt_upper_bound; lia.
Qed.

(** C4 (as the code has it).  Nothing validates the configuration.  With
    [overlap = chunk_size] the call of [range] with step zero raises
    [ValueError] when the chunker is called ([data_processor.py] returns the
    empty list first when the text is empty or trims to fewer than 20
    characters); with [overlap > chunk_size] the range is empty and both
    chunkers return the empty list without any error.  In neither case does
    the loop run. *)
Theorem chunk_document_nonpositive_stride `{Hashlib} (clock : nat -> str)
    (text src : str) (extra : option (gmap str value))
    (chunk_size overlap : Z) :
  chunk_size <= overlap ->
  DocumentProcessor.chunk_document
    {| DocumentProcessor.chunk_size := chunk_size;
       DocumentProcessor.overlap := overlap |} text src
  = (if overlap =? chunk_size then Raise ValueError else Ok []) /\
  TheologyDocumentProcessor.chunk_document
    {| TheologyDocumentProcessor.chunk_size := chunk_size;
       TheologyDocumentProcessor.overlap := overlap |} clock text src extra
  = (if too_short text then Ok []
     else if overlap =? chunk_size then Raise ValueError else Ok []).
Proof.
  intros Hle.
  unfold DocumentProcessor.chunk_document,
    TheologyDocumentProcessor.chunk_document.
  fold (too_short text). simpl.
  assert (Hlen : 0 <= len text) by (unfold len; lia).
  destruct (overlap =? chunk_size) eqn:E.
  - replace (chunk_size - overlap) with 0 by lia.
    rewrite py_range_zero_step. by destruct (too_short text).
  - rewrite py_range_negative_step by lia. by destruct (too_short text).
Qed.

(** C4 (as stated) fails: with chunk size 50 and overlap 60 both chunkers
    return the empty list for a text of 100 letters, and no error is
    raised. *)
Lemma chunk_document_negative_stride_counterexample :
  DocumentProcessor.chunk_document (H := plain_digest)
    {| DocumentProcessor.chunk_size := 50; DocumentProcessor.overlap := 60 |}
    (repeat 97%N 100) (py "doc.txt") = Ok [] /\
  TheologyDocumentProcessor.chunk_document (H := plain_digest)
    {| TheologyDocumentProcessor.chunk_size := 50;
       TheologyDocumentProcessor.overlap := 60 |}
    (fun _ => py "2025-01-01T00:00:00") (repeat 97%N 100) (py "doc.txt") None
  = Ok [].
Proof. split; by vm_compute. Qed.

Lemma chunk_document_nonpositive_stride_witness :
  DocumentProcessor.chunk_document (H := plain_digest)
    {| DocumentProcessor.chunk_size := 50; DocumentProcessor.overlap := 50 |}
    (repeat 97%N 100) (py "doc.txt")
  = (if 50 =? 50 then Raise ValueError else Ok []) /\
  TheologyDocumentProcessor.chunk_document (H := plain_digest)
    {| TheologyDocumentProcessor.chunk_size := 50;
       TheologyDocumentProcessor.overlap := 50 |}
    (fun _ => py "2025-01-01T00:00:00") (repeat 97%N 100) (py "doc.txt") None
  = (if too_short (repeat 97%N 100) then Ok []
     else if 50 =? 50 then Raise ValueError else Ok []).
Proof.
  apply (chunk_document_nonpositive_stride (H := plain_digest)). lia.
Defined.

(** ** Comparison of floats *)

Lemma Qltb_lt (x y : Q) : Qltb x y = true <-> (x < y)%Q.
Proof.
  unfold Qltb. rewrite negb_true_iff, <- not_true_iff_false, Qle_bool_iff.
  split; [apply Qnot_le_lt | apply Qlt_not_le].
Qed.

Lemma Qltb_ge (x y : Q) : Qltb x y = false <-> (y <= x)%Q.
Proof.
  unfold Qltb. by rewrite negb_false_iff, Qle_bool_iff.
Qed.

(** ** The cache dictionary *)

Section dict_facts.
Context {Data : Type}.
Abbreviation entry := (CacheManager.entry Data).
Abbreviation dict := (CacheManager.dict Data).
Implicit Types (d : dict) (k : str) (e : entry).

Lemma dict_get_None d k :
  CacheManager.dict_get d k = None <-> k ∉ CacheManager.keys d.
Proof.
  induction d as [|[k' e'] d IH]; simpl.
  - split; [intros _; apply not_elem_of_nil | done].
  - rewrite not_elem_of_cons. case_bool_decide; subst.
    + split; [done | by intros [? _]].
    + rewrite IH. split; [by intros; split | by intros [_ ?]].
Qed.

Lemma dict_get_elem_of d k e :
  CacheManager.dict_get d k = Some e -> (k, e) ∈ d.
Proof.
  induction d as [|[k' e'] d IH]; simpl; [done|].
  case_bool_decide; subst.
  - intros [= ->]. left.
  - intros Hg. right. by apply IH.
Qed.

Lemma dict_get_lookup d k e (n : nat) :
  CacheManager.dict_wf d -> d !! n = Some (k, e) ->
  CacheManager.dict_get d k = Some e.
Proof.
  unfold CacheManager.dict_wf, CacheManager.keys.
  induction d as [|[k' e'] d IH] in n |- *; simpl; [done|].
  rewrite NoDup_cons. intros [Hnot Hnd].
  destruct n as [|n]; simpl.
  - intros [= -> ->]. by rewrite bool_decide_eq_true_2.
  - intros Hn. rewrite bool_decide_eq_false_2; [by eapply IH|].
    intros ->. apply Hnot.
    apply list_elem_of_fmap. exists (k, e). split; [done|].
    by eapply list_elem_of_lookup_2.
Qed.

Lemma dict_del_not_in d k : k ∉ CacheManager.keys (CacheManager.dict_del d k).
Proof.
  induction d as [|[k' e'] d IH]; simpl; [apply not_elem_of_nil|].
  case_bool_decide; [done|].
  unfold CacheManager.keys. rewrite fmap_cons, not_elem_of_cons. by split.
Qed.

Lemma dict_del_get d k : CacheManager.dict_get (CacheManager.dict_del d k) k = None.
Proof. apply dict_get_None, dict_del_not_in. Qed.

Lemma dict_del_get_ne d k k' :
  k <> k' ->
  CacheManager.dict_get (CacheManager.dict_del d k) k'
  = CacheManager.dict_get d k'.
Proof.
  intros Hne. induction d as [|[k0 e0] d IH]; simpl; [done|].
  case_bool_decide; subst.
  - by rewrite bool_decide_eq_false_2.
  - simpl. by rewrite IH.
Qed.

Lemma dict_del_length d k :
  (length (CacheManager.dict_del d k) <= length d)%nat.
Proof.
  induction d as [|[k' e'] d IH]; simpl; [done|].
  case_bool_decide; simpl; lia.
Qed.

Lemma dict_del_absent d k :
  k ∉ CacheManager.keys d -> CacheManager.dict_del d k = d.
Proof.
  unfold CacheManager.keys.
  induction d as [|[k' e'] d IH]; simpl; [done|].
  rewrite not_elem_of_cons. intros [Hne Hnot].
  rewrite bool_decide_eq_false_2 by done. by rewrite IH.
Qed.

(** Deleting the key found at position [n] removes that position. *)
Lemma dict_del_lookup d k e (n : nat) :
  CacheManager.dict_wf d -> d !! n = Some (k, e) ->
  CacheManager.dict_del d k = delete n d.
Proof.
  unfold CacheManager.dict_wf, CacheManager.keys.
  induction d as [|[k' e'] d IH] in n |- *; simpl; [done|].
  rewrite NoDup_cons. intros [Hnot Hnd].
  destruct n as [|n]; simpl.
  - intros [= -> ->]. rewrite bool_decide_eq_true_2 by done.
    by apply dict_del_absent.
  - intros Hn. rewrite bool_decide_eq_false_2; [f_equal; by eapply IH|].
    intros ->. apply Hnot.
    apply list_elem_of_fmap. exists (k, e). split; [done|].
    by eapply list_elem_of_lookup_2.
Qed.

Lemma dict_del_length_present d k :
  CacheManager.dict_wf d -> k ∈ CacheManager.keys d ->
  S (length (CacheManager.dict_del d k)) = length d.
Proof.
  intros Hwf Hin. unfold CacheManager.keys in Hin.
  apply list_elem_of_fmap in Hin as ([k' e] & -> & Hin).
  apply list_elem_of_lookup in Hin as [n Hn]. simpl.
  rewrite (dict_del_lookup d k' e n) by done.
  pose proof (length_delete d n ltac:(eauto)) as Hd.
  apply lookup_lt_Some in Hn. lia.
Qed.

Lemma dict_del_length_lt d k :
  k ∈ CacheManager.keys d ->
  (length (CacheManager.dict_del d k) < length d)%nat.
Proof.
  unfold CacheManager.keys.
  induction d as [|[k' e'] d IH]; simpl.
  - intros Hin. by apply elem_of_nil in Hin.
  - rewrite elem_of_cons. case_bool_decide; subst.
    + intros _. pose proof (dict_del_length d k). lia.
    + intros [?|Hin]; [done|]. simpl. apply IH in Hin. lia.
Qed.

Lemma dict_del_wf d k :
  CacheManager.dict_wf d -> CacheManager.dict_wf (CacheManager.dict_del d k).
Proof.
  unfold CacheManager.dict_wf, CacheManager.keys.
  induction d as [|[k' e'] d IH]; simpl; [done|].
  rewrite NoDup_cons. intros [Hnot Hnd].
  case_bool_decide; [by apply IH|].
  simpl. rewrite NoDup_cons. split; [|by apply IH].
  intros Hin. apply Hnot.
  apply list_elem_of_fmap in Hin as ([k0 e0] & -> & Hin).
  apply list_elem_of_fmap. exists (k0, e0). split; [done|].
  clear -Hin. induction d as [|[k1 e1] d IH]; simpl in *; [done|].
  case_bool_decide; [right; by apply IH|].
  apply elem_of_cons in Hin as [->|Hin]; [left | right; by apply IH].
Qed.

Lemma dict_set_absent d k e :
  k ∉ CacheManager.keys d -> CacheManager.dict_set d k e = d ++ [(k, e)].
Proof.
  unfold CacheManager.keys.
  induction d as [|[k' e'] d IH]; simpl; [done|].
  rewrite not_elem_of_cons. intros [Hne Hnot].
  rewrite bool_decide_eq_false_2 by done. by rewrite IH.
Qed.

Lemma dict_set_length d k e :
  length (CacheManager.dict_set d k e)
  = if decide (k ∈ CacheManager.keys d) then length d else S (length d).
Proof.
  unfold CacheManager.keys.
  induction d as [|[k' e'] d IH].
  - cbn [CacheManager.dict_set length]. rewrite fmap_nil.
    case_decide as Hin; [by apply elem_of_nil in Hin|done].
  - cbn [CacheManager.dict_set]. rewrite fmap_cons. cbn [fst].
    case_bool_decide; subst.
    + rewrite decide_True by left. done.
    + cbn [length]. rewrite IH.
      destruct (decide (k ∈ fst <$> d)) as [Hin|Hin].
      * by rewrite decide_True by by right.
      * rewrite decide_False; [done|].
        by intros [->|?]%elem_of_cons.
Qed.

Lemma dict_set_length_le d k e :
  (length (CacheManager.dict_set d k e) <= S (length d))%nat.
Proof. rewrite dict_set_length. case_decide; lia. Qed.

Lemma dict_set_get d k e :
  CacheManager.dict_get (CacheManager.dict_set d k e) k = Some e.
Proof.
  induction d as [|[k' e'] d IH]; simpl.
  - by rewrite bool_decide_eq_true_2.
  - case_bool_decide; subst; simpl.
    + by rewrite bool_decide_eq_true_2.
    + by rewrite bool_decide_eq_false_2.
Qed.

Lemma dict_set_get_ne d k k' e :
  k <> k' ->
  CacheManager.dict_get (CacheManager.dict_set d k e) k'
  = CacheManager.dict_get d k'.
Proof.
  intros Hne. induction d as [|[k0 e0] d IH]; simpl.
  - by rewrite bool_decide_eq_false_2.
  - case_bool_decide; subst; simpl.
    + by rewrite !bool_decide_eq_false_2.
    + by rewrite IH.
Qed.
End dict_facts.

(** ** The oldest entry *)

Section min_key_facts.
Context {Data : Type}.
Abbreviation ts x := (CacheManager.timestamp (Data := Data) (snd x)).

Lemma fold_min_step (first : str * CacheManager.entry Data)
    (rest : list (str * CacheManager.entry Data)) :
  let best := fold_left CacheManager.min_step rest first in
  exists n : nat,
    (first :: rest) !! n = Some best /\
    (forall (m : nat) x, (first :: rest) !! m = Some x -> (ts best <= ts x)%Q) /\
    (forall (m : nat) x, (m < n)%nat -> (first :: rest) !! m = Some x ->
       (ts best < ts x)%Q).
Proof.
  induction rest as [|y rest IH] using rev_ind; simpl.
  - exists 0%nat. split; [done|]. split.
    + intros [|m] x; simpl; [|done]. intros [= <-]. apply Qle_refl.
    + intros m x Hm. lia.
  - destruct IH as (n & Hn & Hmin & Hfirst).
    rewrite fold_left_app. simpl.
    set (best := fold_left CacheManager.min_step rest first) in *.
    assert (Hlen : (n < length (first :: rest))%nat)
      by (by eapply lookup_lt_Some).
    unfold CacheManager.min_step at 1 2 3.
    destruct (Qltb (ts y) (ts best)) eqn:E.
    + apply Qltb_lt in E. exists (length (first :: rest)). split; [|split].
      * rewrite app_comm_cons, lookup_app_r by done.
        by rewrite Nat.sub_diag.
      * intros m x. rewrite app_comm_cons, lookup_app_Some.
        intros [Hx|[_ Hx]].
        -- apply Qlt_le_weak. eapply Qlt_le_trans; [exact E|]. by eapply Hmin.
        -- destruct (m - _)%nat; simpl in Hx; [|done].
           injection Hx as <-. apply Qle_refl.
      * intros m x Hm. rewrite app_comm_cons, lookup_app_l by done.
        intros Hx. eapply Qlt_le_trans; [exact E|]. by eapply Hmin.
    + apply Qltb_ge in E. exists n. split; [|split].
      * by rewrite app_comm_cons, lookup_app_l.
      * intros m x. rewrite app_comm_cons, lookup_app_Some.
        intros [Hx|[_ Hx]]; [by eapply Hmin|].
        destruct (m - _)%nat; simpl in Hx; [|done].
        by injection Hx as <-.
      * intros m x Hm. rewrite app_comm_cons, lookup_app_l by lia.
        by apply Hfirst.
Qed.

(** [min] over a non-empty dictionary returns the key of its oldest
    entry. *)
Lemma min_key_oldest (d : CacheManager.dict Data) :
  d <> [] ->
  exists (n : nat) k e, CacheManager.min_key d = Ok k /\ oldest_at d n k e.
Proof.
  destruct d as [|first rest]; [done|]. intros _.
  destruct (fold_min_step first rest) as (n & Hn & Hmin & Hfirst).
  destruct (fold_left CacheManager.min_step rest first) as [k e] eqn:E.
  exists n, k, e. split.
  - unfold CacheManager.min_key. by rewrite E.
  - split; [done|]. split; [exact Hmin | exact Hfirst].
Qed.

Lemma min_key_empty :
  CacheManager.min_key (Data := Data) [] = Raise ValueError.
Proof. reflexivity. Qed.

Lemma oldest_at_key (d : CacheManager.dict Data) n k e :
  oldest_at d n k e -> k ∈ CacheManager.keys d.
Proof.
  intros [Hn _]. apply list_elem_of_fmap. exists (k, e).
  split; [done|]. by eapply list_elem_of_lookup_2.
Qed.

(** What [evict] does, by cases. *)
Lemma evict_below (self : CacheManager.t Data) :
  len (CacheManager.cache self) < CacheManager.max_size self ->
  CacheManager.evict self = Ok (CacheManager.cache self).
Proof.
  intros Hlt. unfold CacheManager.evict.
  destruct (_ <=? _) eqn:E; [lia|done].
Qed.

Lemma evict_full (self : CacheManager.t Data) :
  CacheManager.max_size self <= len (CacheManager.cache self) ->
  CacheManager.cache self <> [] ->
  exists (n : nat) k e,
    oldest_at (CacheManager.cache self) n k e /\
    CacheManager.evict self
    = Ok (CacheManager.dict_del (CacheManager.cache self) k).
Proof.
  intros Hle Hne. unfold CacheManager.evict.
  destruct (_ <=? _) eqn:E; [|lia].
  destruct (min_key_oldest _ Hne) as (n & k & e & -> & Hold).
  by exists n, k, e.
Qed.

Lemma evict_full_empty (self : CacheManager.t Data) :
  CacheManager.max_size self <= len (CacheManager.cache self) ->
  CacheManager.cache self = [] ->
  CacheManager.evict self = Raise ValueError.
Proof.
  intros Hle Hnil. unfold CacheManager.evict.
  destruct (_ <=? _) eqn:E; [|lia]. by rewrite Hnil.
Qed.
End min_key_facts.

(** ** Reading the cache *)

(** C6.  [get] on a query whose key is present and younger than the
    duration returns the stored data and leaves the cache as it is; when the
    key is present and its age has reached the duration, [get] returns
    nothing and the cache it leaves no longer holds the key (every other key
    is untouched); when the key is absent, [get] returns nothing and leaves
    the cache as it is. *)
Theorem get_respects_ttl `{Hashlib} `{StrLower} {Data : Type}
    (self : CacheManager.t Data) (query : str) (now : Q) :
  let key := CacheManager._get_cache_key query in
  (forall e,
     CacheManager.dict_get (CacheManager.cache self) key = Some e ->
     (now - CacheManager.timestamp e < inject_Z (CacheManager.duration self))%Q ->
     CacheManager.get self query now = (Some (CacheManager.data e), self)) /\
  (forall e,
     CacheManager.dict_get (CacheManager.cache self) key = Some e ->
     (inject_Z (CacheManager.duration self) <= now - CacheManager.timestamp e)%Q ->
     exists self',
       CacheManager.get self query now = (None, self') /\
       CacheManager.cache self'
         = CacheManager.dict_del (CacheManager.cache self) key /\
       CacheManager.dict_get (CacheManager.cache self') key = None /\
       (forall k', k' <> key ->
          CacheManager.dict_get (CacheManager.cache self') k'
          = CacheManager.dict_get (CacheManager.cache self) k')) /\
  (CacheManager.dict_get (CacheManager.cache self) key = None ->
   CacheManager.get self query now = (None, self)).
Proof.
  intros key. unfold CacheManager.get. fold key. split; [|split].
  - intros e -> Hage. apply Qltb_lt in Hage. by rewrite Hage.
  - intros e -> Hage. apply Qltb_ge in Hage. rewrite Hage.
    eexists. split; [done|]. simpl. split; [done|]. split.
    + apply dict_del_get.
    + intros k' Hne. apply dict_del_get_ne. congruence.
  - by intros ->.
Qed.

Lemma get_respects_ttl_witness :
  CacheManager.get (H := plain_digest) (H0 := ascii_lower)
    one_entry_cache (py " Hello ") 200 = (Some 7%nat, one_entry_cache) /\
  (exists self',
     CacheManager.get (H := plain_digest) (H0 := ascii_lower)
       one_entry_cache (py " Hello ") 86500 = (None, self') /\
     CacheManager.cache self' = []) /\
  CacheManager.get (H := plain_digest) (H0 := ascii_lower)
    one_entry_cache (py "other") 200 = (None, one_entry_cache).
Proof.
  pose proof (get_respects_ttl (H := plain_digest) (H0 := ascii_lower)
                one_entry_cache (py " Hello ")) as Hhit.
  pose proof (get_respects_ttl (H := plain_digest) (H0 := ascii_lower)
                one_entry_cache (py "other") 200) as (_ & _ & Hmiss).
  split; [|split].
  - destruct (Hhit 200%Q) as (Hfresh & _ & _).
    apply (Hfresh {| CacheManager.data := 7%nat;
                     CacheManager.timestamp := 100 |}).
    + reflexivity.
    + reflexivity.
  - destruct (Hhit 86500%Q) as (_ & Hstale & _).
    destruct (Hstale {| CacheManager.data := 7%nat;
                        CacheManager.timestamp := 100 |})
      as (self' & Hget & Hcache & _).
    + reflexivity.
    + by vm_compute.
    + exists self'. split; [exact Hget|]. rewrite Hcache. reflexivity.
  - apply Hmiss. reflexivity.
Defined.

(** ** Writing the cache *)

Section cache_writes.
Context `{Hashlib} `{StrLower} {Data : Type}.
Implicit Types (self : CacheManager.t Data) (call : str * Data * Q).

Lemma len_nonempty {A} (l : list A) : 0 < len l -> l <> [].
Proof. by destruct l. Qed.

Lemma after_set_max_size self call :
  CacheManager.max_size (CacheManager.after_set self call)
  = CacheManager.max_size self.
Proof.
  unfold CacheManager.after_set, CacheManager.set.
  by destruct (CacheManager.evict self).
Qed.

(** A call of [set] on a cache within its capacity leaves it within its
    capacity, whether it returns or raises. *)
Lemma after_set_size self call :
  len (CacheManager.cache self) <= CacheManager.max_size self ->
  len (CacheManager.cache (CacheManager.after_set self call))
  <= CacheManager.max_size self.
Proof.
  intros Hinv. unfold CacheManager.after_set, CacheManager.set.
  destruct (decide (len (CacheManager.cache self) < CacheManager.max_size self))
    as [Hlt|Hge].
  - rewrite evict_below by done. simpl.
    pose proof (dict_set_length_le (CacheManager.cache self)
                  (CacheManager._get_cache_key call.1.1)
                  {| CacheManager.data := call.1.2;
                     CacheManager.timestamp := call.2 |}).
    unfold len in *. lia.
  - destruct (CacheManager.cache self) as [|x d] eqn:Ec.
    + rewrite evict_full_empty; [by rewrite Ec | rewrite Ec; lia | done].
    + destruct (evict_full self) as (n & k & e & Hold & ->);
        [rewrite Ec; lia | by rewrite Ec |].
      simpl. rewrite Ec in *.
      pose proof (dict_del_length_lt _ _ (oldest_at_key _ _ _ _ Hold)).
      pose proof (dict_set_length_le (CacheManager.dict_del (x :: d) k)
                    (CacheManager._get_cache_key call.1.1)
                    {| CacheManager.data := call.1.2;
                       CacheManager.timestamp := call.2 |}).
      unfold len in *. lia.
Qed.

Lemma set_trace_size self (calls : list (str * Data * Q)) :
  len (CacheManager.cache self) <= CacheManager.max_size self ->
  Forall (fun s => CacheManager.max_size s = CacheManager.max_size self /\
                   len (CacheManager.cache s) <= CacheManager.max_size self)
         (CacheManager.set_trace self calls).
Proof.
  induction calls as [|call calls IH] in self |- *; intros Hinv; simpl.
  - constructor.
  - pose proof (after_set_max_size self call) as Hmax.
    pose proof (after_set_size self call Hinv) as Hsize.
    constructor; [done|].
    rewrite <- Hmax. apply IH. by rewrite Hmax.
Qed.

(** [set] on a cache that holds as many entries as its capacity, which is
    not zero: the oldest entry is deleted, then the new entry is stored. *)
Lemma set_when_full self (query : str) (payload : Data) (now : Q) :
  len (CacheManager.cache self) = CacheManager.max_size self ->
  0 < CacheManager.max_size self ->
  exists (n : nat) k e,
    oldest_at (CacheManager.cache self) n k e /\
    CacheManager.set self query payload now
    = Ok (CacheManager.with_cache self
            (CacheManager.dict_set
               (CacheManager.dict_del (CacheManager.cache self) k)
               (CacheManager._get_cache_key query)
               {| CacheManager.data := payload;
                  CacheManager.timestamp := now |})).
Proof.
  intros Hfull Hpos.
  destruct (evict_full self) as (n & k & e & Hold & Hev);
    [lia | apply len_nonempty; lia |].
  exists n, k, e. split; [done|].
  unfold CacheManager.set. by rewrite Hev.
Qed.

(** Calls of [set] with fresh keys that fit in the capacity append their
    entries in order. *)
Lemma set_all_fill self (calls : list (str * Data * Q)) :
  NoDup (CacheManager.keys (CacheManager.cache self)
         ++ CacheManager.keys (entries_of calls)) ->
  len (CacheManager.cache self) + len calls <= CacheManager.max_size self ->
  CacheManager.set_all self calls
  = CacheManager.with_cache self (CacheManager.cache self ++ entries_of calls).
Proof.
  unfold CacheManager.set_all.
  induction calls as [|call calls IH] in self |- *; intros Hnd Hfit; simpl.
  - rewrite app_nil_r. by destruct self.
  - unfold len in Hfit. simpl in Hfit.
    assert (Hset : CacheManager.after_set self call
                   = CacheManager.with_cache self
                       (CacheManager.cache self ++ entries_of [call])).
    { unfold CacheManager.after_set, CacheManager.set.
      rewrite evict_below by (unfold len; lia).
      rewrite dict_set_absent; [done|].
      apply NoDup_app in Hnd as (_ & Hdisj & _).
      intros Hin. apply (Hdisj _ Hin). simpl. left. }
    rewrite Hset, IH.
    + simpl. by rewrite <- app_assoc.
    + simpl. unfold CacheManager.keys in *.
      rewrite fmap_app, <- app_assoc. exact Hnd.
    + simpl. unfold len. rewrite length_app. simpl. lia.
Qed.
End cache_writes.

Lemma delete_app_left {A} (l1 l2 : list A) (n : nat) :
  (n < length l1)%nat -> delete n (l1 ++ l2) = delete n l1 ++ l2.
Proof.
  induction l1 as [|x l1 IH] in n |- *; simpl; [lia|].
  destruct n as [|n]; simpl; [done|]. intros Hn. f_equal. apply IH. lia.
Qed.

Lemma elem_of_delete {A} (l : list A) (n : nat) (x : A) :
  x ∈ delete n l -> x ∈ l.
Proof.
  induction l as [|y l IH] in n |- *; simpl; [done|].
  destruct n as [|n]; simpl.
  - by right.
  - intros [->|Hin]%elem_of_cons; [left | right; by eapply IH].
Qed.

Section cache_overflow.
Context `{Hashlib} `{StrLower} {Data : Type}.

(** One call more than the capacity, on an empty cache, all keys distinct:
    every call but the last fills the cache, the last call evicts the entry
    with the smallest time stamp (the earliest written among equals) and
    stores its own. *)
Lemma set_all_overflow (self : CacheManager.t Data)
    (calls : list (str * Data * Q)) :
  CacheManager.cache self = [] ->
  0 < CacheManager.max_size self ->
  len calls = CacheManager.max_size self + 1 ->
  NoDup (CacheManager.keys (entries_of calls)) ->
  exists (n : nat) q p t,
    Z.of_nat n < CacheManager.max_size self /\
    calls !! n = Some (q, p, t) /\
    (forall (m : nat) c, Z.of_nat m < CacheManager.max_size self ->
       calls !! m = Some c -> (t <= c.2)%Q) /\
    (forall (m : nat) c, (m < n)%nat -> calls !! m = Some c -> (t < c.2)%Q) /\
    CacheManager.cache (CacheManager.set_all self calls)
    = entries_of (delete n calls).
Proof.
  intros Hempty Hpos Hlen Hnd.
  destruct calls as [|last first _] using rev_ind.
  { unfold len in Hlen. simpl in Hlen. lia. }
  unfold len in Hlen. rewrite length_app in Hlen. simpl in Hlen.
  unfold entries_of, CacheManager.keys in Hnd.
  rewrite !fmap_app, NoDup_app in Hnd. destruct Hnd as (Hnd1 & Hdisj & _).
  unfold CacheManager.set_all. rewrite fold_left_app. simpl.
  fold (CacheManager.set_all self first).
  rewrite set_all_fill; cycle 1.
  { by rewrite Hempty. }
  { rewrite Hempty. unfold len. simpl. lia. }
  rewrite Hempty. simpl.
  set (self1 := CacheManager.with_cache self (entries_of first)).
  destruct (set_when_full self1 last.1.1 last.1.2 last.2)
    as (n & k & e & (Hn & Hmin & Hfirst) & Hset).
  { simpl. unfold len, entries_of. rewrite length_fmap. lia. }
  { done. }
  unfold CacheManager.after_set. rewrite Hset. simpl in *.
  unfold entries_of in Hn. rewrite list_lookup_fmap in Hn.
  destruct (first !! n) as [[[q p] t]|] eqn:En; [|done].
  simpl in Hn. injection Hn as <- <-.
  assert (Hlt : (n < length first)%nat) by (by eapply lookup_lt_Some).
  exists n, q, p, t. split; [lia|]. split; [by rewrite lookup_app_l|].
  split; [|split].
  - intros m c Hm. rewrite lookup_app_l by lia. intros Hc.
    apply (Hmin m (CacheManager._get_cache_key c.1.1,
                   {| CacheManager.data := c.1.2;
                      CacheManager.timestamp := c.2 |})).
    unfold entries_of. by rewrite list_lookup_fmap, Hc.
  - intros m c Hm. rewrite lookup_app_l by lia. intros Hc.
    apply (Hfirst m (CacheManager._get_cache_key c.1.1,
                     {| CacheManager.data := c.1.2;
                        CacheManager.timestamp := c.2 |})); [done|].
    unfold entries_of. by rewrite list_lookup_fmap, Hc.
  - erewrite (dict_del_lookup (entries_of first)); cycle 1.
    { exact Hnd1. }
    { unfold entries_of. rewrite list_lookup_fmap, En. done. }
    rewrite dict_set_absent.
    + rewrite delete_app_left by done.
      unfold entries_of. by rewrite fmap_app, list_fmap_delete.
    + intros Hin. apply list_elem_of_fmap in Hin as (x & Hx & Hin).
      apply elem_of_delete in Hin.
      apply (Hdisj (CacheManager._get_cache_key last.1.1)).
      * apply list_elem_of_fmap. exists x. split; [done|]. exact Hin.
      * simpl. left.
Qed.
End cache_overflow.

(** C1.  (1) Starting from a cache that holds no more entries than its
    capacity, the cache holds no more entries than its capacity after every
    call of a sequence of calls of [set].  (2) A call of [set] on a cache
    that holds exactly as many entries as its capacity (not zero) deletes,
    before it stores, the entry with the smallest time stamp (the first such
    entry in iteration order); recency of reads plays no part.  (3) 2001
    calls of [set] with pairwise distinct keys on the initial cache of
    capacity 2000 leave exactly 2000 entries: those of all calls but the one
    with the smallest time stamp among the first 2000, which is the first
    call when the clock does not go backwards.  (4) With a capacity of zero
    the cache is empty, there is nothing to delete, and [set] raises
    [ValueError] without storing anything. *)
Theorem cache_capacity `{Hashlib} `{StrLower} {Data : Type} :
  (forall (self : CacheManager.t Data) (calls : list (str * Data * Q)),
     len (CacheManager.cache self) <= CacheManager.max_size self ->
     Forall (fun s => len (CacheManager.cache s) <= CacheManager.max_size self)
            (CacheManager.set_trace self calls)) /\
  (forall (self : CacheManager.t Data) (query : str) (payload : Data) (now : Q),
     len (CacheManager.cache self) = CacheManager.max_size self ->
     0 < CacheManager.max_size self ->
     exists (n : nat) k e,
       oldest_at (CacheManager.cache self) n k e /\
       CacheManager.set self query payload now
       = Ok (CacheManager.with_cache self
               (CacheManager.dict_set
                  (CacheManager.dict_del (CacheManager.cache self) k)
                  (CacheManager._get_cache_key query)
                  {| CacheManager.data := payload;
                     CacheManager.timestamp := now |}))) /\
  (forall calls : list (str * Data * Q),
     length calls = 2001%nat ->
     NoDup ((fun c => CacheManager._get_cache_key c.1.1) <$> calls) ->
     let final := CacheManager.set_all CacheManager.init calls in
     len (CacheManager.cache final) = 2000 /\
     exists (n : nat) q p t,
       (n < 2000)%nat /\
       calls !! n = Some (q, p, t) /\
       (forall (m : nat) c, (m < 2000)%nat -> calls !! m = Some c ->
          (t <= c.2)%Q) /\
       (forall (m : nat) c, (m < n)%nat -> calls !! m = Some c ->
          (t < c.2)%Q) /\
       CacheManager.cache final = entries_of (delete n calls) /\
       ((forall (i j : nat) ci cj, (i <= j)%nat ->
           calls !! i = Some ci -> calls !! j = Some cj -> (ci.2 <= cj.2)%Q) ->
        n = 0%nat)) /\
  (forall (self : CacheManager.t Data) (query : str) (payload : Data) (now : Q),
     CacheManager.max_size self <= 0 ->
     CacheManager.cache self = [] ->
     CacheManager.set self query payload now = Raise ValueError /\
     CacheManager.after_set self (query, payload, now) = self).
Proof.
  split; [|split; [|split]]; cycle 3.
  { intros self query payload now Hcap Hempty.
    unfold CacheManager.after_set, CacheManager.set. simpl.
    rewrite evict_full_empty; [done | | done].
    rewrite Hempty. unfold len. simpl. lia. }
  - intros self calls Hinv.
    eapply Forall_impl; [by apply set_trace_size|].
    by intros s [_ Hs].
  - intros self query payload now. apply set_when_full.
  - intros calls Hlen Hnd final.
    destruct (set_all_overflow CacheManager.init calls)
      as (n & q & p & t & Hn & Hcall & Hmin & Hfirst & Hfinal).
    { done. }
    { done. }
    { unfold len. rewrite Hlen. done. }
    { unfold CacheManager.keys, entries_of.
      by rewrite <- list_fmap_compose. }
    change (CacheManager.max_size CacheManager.init) with 2000 in *.
    fold final in Hfinal. split.
    + rewrite Hfinal. unfold len, entries_of. rewrite length_fmap.
      rewrite length_delete by eauto. rewrite Hlen. done.
    + exists n, q, p, t. split; [lia|]. split; [done|].
      split; [|split; [|split]].
      * intros m c Hm. apply Hmin. lia.
      * exact Hfirst.
      * exact Hfinal.
      * intros Hmono. destruct n as [|n]; [done|]. exfalso.
        destruct (calls !! 0%nat) as [c0|] eqn:E0.
        -- apply (Qlt_not_le _ _ (Hfirst 0%nat c0 ltac:(lia) E0)).
           apply (Hmono 0%nat (S n) c0 (q, p, t)); [lia|done|done].
        -- apply lookup_ge_None in E0. lia.
Qed.

Lemma ascii_lower_letters (i : nat) :
  lower (StrLower := ascii_lower) (repeat 97%N i) = repeat 97%N i.
Proof.
  induction i as [|i IH]; [done|].
  simpl. f_equal. exact IH.
Qed.

Lemma letters_key (i : nat) :
  CacheManager._get_cache_key (H := plain_digest) (H0 := ascii_lower)
    (repeat 97%N i) = repeat 97%N i.
Proof.
  unfold CacheManager._get_cache_key. rewrite ascii_lower_letters.
  cbn [md5_hexdigest plain_digest]. apply strip_no_space.
  apply Forall_forall. intros c Hc.
  apply list_elem_of_In, repeat_spec in Hc. by subst.
Qed.

Lemma calls_2001_keys :
  NoDup ((fun c : str * nat * Q =>
            CacheManager._get_cache_key (H := plain_digest) (H0 := ascii_lower)
              c.1.1) <$> calls_2001).
Proof.
  unfold calls_2001. rewrite <- list_fmap_compose.
  apply NoDup_fmap_2_strong; [|apply NoDup_seq].
  intros i j _ _.
  change (CacheManager._get_cache_key (H := plain_digest) (H0 := ascii_lower)
            (repeat 97%N i)
          = CacheManager._get_cache_key (H := plain_digest) (H0 := ascii_lower)
              (repeat 97%N j) -> i = j).
  rewrite !letters_key.
  intros E. apply (f_equal length) in E. by rewrite !repeat_length in E.
Qed.

Lemma cache_capacity_witness :
  len (CacheManager.cache
         (CacheManager.set_all (H := plain_digest) (H0 := ascii_lower)
            CacheManager.init calls_2001)) = 2000 /\
  exists (n : nat) q p t,
    calls_2001 !! n = Some (q, p, t) /\
    CacheManager.cache
      (CacheManager.set_all (H := plain_digest) (H0 := ascii_lower)
         CacheManager.init calls_2001)
    = entries_of (H := plain_digest) (H0 := ascii_lower)
        (delete n calls_2001).
Proof.
  destruct (cache_capacity (H := plain_digest) (H0 := ascii_lower)
              (Data := nat)) as (_ & _ & Hscenario & _).
  destruct (Hscenario calls_2001)
    as (Hlen & n & q & p & t & _ & Hn & _ & _ & Hfinal & _).
  - unfold calls_2001. by rewrite length_fmap, length_seq.
  - exact calls_2001_keys.
  - split; [exact Hlen|]. exists n, q, p, t. by split.
Defined.

(** ** Overwriting a key of a full cache *)

Section cache_overwrite.
Context `{Hashlib} `{StrLower} {Data : Type}.

Lemma dict_get_Some_key (d : CacheManager.dict Data) k :
  k ∈ CacheManager.keys d <-> is_Some (CacheManager.dict_get d k).
Proof.
  rewrite <- not_eq_None_Some, dict_get_None.
  split; [by intros ? ?|]. intros Hnn.
  by destruct (decide (k ∈ CacheManager.keys d)).
Qed.

(** [set] with a key that a full cache already holds. *)
Lemma set_existing_when_full (self : CacheManager.t Data)
    (query : str) (payload : Data) (now : Q) :
  let key := CacheManager._get_cache_key query in
  let new := {| CacheManager.data := payload;
                CacheManager.timestamp := now |} in
  CacheManager.dict_wf (CacheManager.cache self) ->
  len (CacheManager.cache self) = CacheManager.max_size self ->
  key ∈ CacheManager.keys (CacheManager.cache self) ->
  exists (n : nat) k e self',
    oldest_at (CacheManager.cache self) n k e /\
    CacheManager.set self query payload now = Ok self' /\
    CacheManager.cache self'
    = CacheManager.dict_set
        (CacheManager.dict_del (CacheManager.cache self) k) key new /\
    CacheManager.dict_get (CacheManager.cache self') key = Some new /\
    (k <> key ->
     len (CacheManager.cache self') = CacheManager.max_size self - 1 /\
     k ∉ CacheManager.keys (CacheManager.cache self')) /\
    (k = key ->
     len (CacheManager.cache self') = CacheManager.max_size self).
Proof.
  intros key new Hwf Hfull Hin.
  assert (Hpos : 0 < CacheManager.max_size self).
  { rewrite <- Hfull. unfold len.
    destruct (CacheManager.cache self); [by apply elem_of_nil in Hin|].
    simpl. lia. }
  destruct (set_when_full self query payload now Hfull Hpos)
    as (n & k & e & Hold & Hset).
  fold key new in Hset.
  eexists n, k, e, _. split; [exact Hold|]. split; [exact Hset|].
  simpl. split; [done|]. split; [apply dict_set_get|].
  pose proof (dict_del_length_present _ _ Hwf (oldest_at_key _ _ _ _ Hold))
    as Hdel.
  split.
  - intros Hne. split.
    + unfold len in *. rewrite dict_set_length, decide_True; [lia|].
      apply dict_get_Some_key. rewrite dict_del_get_ne by done.
      by apply dict_get_Some_key.
    + apply dict_get_None.
      rewrite dict_set_get_ne by done. apply dict_del_get.
  - intros ->. unfold len in *.
    rewrite dict_set_length, decide_False by apply dict_del_not_in. lia.
Qed.

Lemma cons_neq {A} (x : A) (l : list A) : x :: l <> l.
Proof. intros E. apply (f_equal length) in E. simpl in E. lia. Qed.

Lemma set_existing_can_shrink (payload : Data) :
  exists self',
    CacheManager.set (two_entry_cache payload) [] payload 2 = Ok self' /\
    len (CacheManager.cache self') = 1 /\
    ((0%N :: CacheManager._get_cache_key [])
       ∉ CacheManager.keys (CacheManager.cache self')) /\
    (0%N :: CacheManager._get_cache_key []) <> CacheManager._get_cache_key [].
Proof.
  set (key := CacheManager._get_cache_key []).
  assert (Hne : 0%N :: key <> key) by apply cons_neq.
  eexists. split; [|split; [|split]].
  - unfold CacheManager.set, CacheManager.evict. simpl.
    fold key. unfold CacheManager.min_step. simpl.
    rewrite bool_decide_eq_true_2 by done.
    rewrite bool_decide_eq_false_2 by done. simpl.
    rewrite bool_decide_eq_true_2 by done. reflexivity.
  - reflexivity.
  - simpl. fold key. by intros [?|[]%elem_of_nil]%elem_of_cons.
  - exact Hne.
Qed.
End cache_overwrite.

(** C10.  When [set] is called with a query whose key is already in a cache
    that holds exactly as many entries as its capacity, the eviction still
    runs: the entry with the smallest time stamp is deleted, then the key is
    written.  If the deleted entry is another one, the cache ends one entry
    below its capacity and no longer holds the deleted key; if it is the
    entry of the key itself, the cache stays at its capacity.  The first
    case occurs: for a cache of capacity two, overwriting the younger entry
    evicts the older one and leaves a single entry. *)
Theorem set_existing_key_evicts `{Hashlib} `{StrLower} {Data : Type} :
  (forall (self : CacheManager.t Data) (query : str) (payload : Data) (now : Q),
     let key := CacheManager._get_cache_key query in
     let new := {| CacheManager.data := payload;
                   CacheManager.timestamp := now |} in
     CacheManager.dict_wf (CacheManager.cache self) ->
     len (CacheManager.cache self) = CacheManager.max_size self ->
     key ∈ CacheManager.keys (CacheManager.cache self) ->
     exists (n : nat) k e self',
       oldest_at (CacheManager.cache self) n k e /\
       CacheManager.set self query payload now = Ok self' /\
       CacheManager.cache self'
       = CacheManager.dict_set
           (CacheManager.dict_del (CacheManager.cache self) k) key new /\
       CacheManager.dict_get (CacheManager.cache self') key = Some new /\
       (k <> key ->
        len (CacheManager.cache self') = CacheManager.max_size self - 1 /\
        k ∉ CacheManager.keys (CacheManager.cache self')) /\
       (k = key ->
        len (CacheManager.cache self') = CacheManager.max_size self)) /\
  (forall payload : Data,
     exists (self self' : CacheManager.t Data) (query : str) (now : Q) (k : str),
       CacheManager.dict_wf (CacheManager.cache self) /\
       len (CacheManager.cache self) = CacheManager.max_size self /\
       CacheManager._get_cache_key query
         ∈ CacheManager.keys (CacheManager.cache self) /\
       CacheManager.set self query payload now = Ok self' /\
       len (CacheManager.cache self') < CacheManager.max_size self /\
       k <> CacheManager._get_cache_key query /\
       k ∈ CacheManager.keys (CacheManager.cache self) /\
       k ∉ CacheManager.keys (CacheManager.cache self')).
Proof.
  split.
  - intros self query payload now. apply set_existing_when_full.
  - intros payload.
    destruct (set_existing_can_shrink payload) as (self' & Hset & Hlen & Hout & Hne).
    exists (two_entry_cache payload), self', [], 2%Q,
      (0%N :: CacheManager._get_cache_key []).
    split; [|split; [|split; [|split; [|split; [|split; [|split]]]]]].
    + unfold CacheManager.dict_wf. simpl.
      apply NoDup_cons. split.
      * by intros [?|[]%elem_of_nil]%elem_of_cons.
      * apply NoDup_singleton.
    + reflexivity.
    + simpl. right. left.
    + exact Hset.
    + rewrite Hlen. simpl. lia.
    + exact Hne.
    + simpl. left.
    + exact Hout.
Qed.

Lemma set_existing_key_evicts_witness :
  exists self',
    CacheManager.set (H := plain_digest) (H0 := ascii_lower)
      cache_a_b (py "B") 3%nat 3 = Ok self' /\
    CacheManager.cache self'
    = [(py "b", {| CacheManager.data := 3%nat; CacheManager.timestamp := 3 |})].
Proof.
  destruct (set_existing_key_evicts (H := plain_digest) (H0 := ascii_lower)
              (Data := nat)) as (Hset & _).
  destruct (Hset cache_a_b (py "B") 3%nat 3%Q)
    as (n & k & e & self' & Hold & Hcall & Hcache & _).
  - unfold CacheManager.dict_wf. refine (bool_decide_unpack _ _). by vm_compute.
  - reflexivity.
  - refine (bool_decide_unpack _ _). by vm_compute.
  - exists self'. split; [exact Hcall|].
    assert (Hk : k = py "a").
    { destruct Hold as (Hn & Hmin & _).
      destruct n as [|[|n]]; simpl in Hn; [by injection Hn|exfalso|done].
      injection Hn as <- <-.
      specialize (Hmin 0%nat _ eq_refl). by vm_compute in Hmin. }
    rewrite Hcache, Hk. reflexivity.
Defined.

(** ** Confidence *)

Lemma py_sum_nonneg (l : list Q) (acc : Q) :
  Forall (fun x => (0 <= x)%Q) l -> (0 <= acc)%Q ->
  (0 <= fold_left Qplus l acc)%Q.
Proof.
  induction l as [|x l IH] in acc |- *; intros Hl Hacc; simpl; [done|].
  apply Forall_cons in Hl as [Hx Hl]. apply IH; [done|].
  replace 0%Q with (0 + 0)%Q by done. by apply Qplus_le_compat.
Qed.

Lemma py_min_cases (a b : Q) :
  ((a <= b)%Q /\ py_min a b = a) \/ ((b < a)%Q /\ py_min a b = b).
Proof.
  unfold py_min. destruct (Qltb b a) eqn:E.
  - right. by apply Qltb_lt in E.
  - left. by apply Qltb_ge in E.
Qed.

(** A response that [vector_search] computes, rather than takes from the
    cache, carries the confidence of the documents it cites. *)
Lemma vector_search_confidence `{Hashlib} `{StrLower} `{Float64}
    {vector : Type} (encode : str -> vector)
    (generate_answer : str -> list VectorSearchEngine.doc -> Q -> str * Q)
    (search_engine : VectorSearchEngine.t)
    (cache_manager cache_manager' : CacheManager.t SearchResponse)
    (request : SearchRequest) (now : readings) (response : SearchResponse) :
  vector_search encode generate_answer search_engine cache_manager request now
  = (Ok response, cache_manager') ->
  cache_hit response = false ->
  confidence_score response = confidence_of (sources response).
Proof.
  unfold vector_search.
  destruct (if use_cache request then _ else _) as [[cached|] cm].
  { intros [= <- _]. done. }
  destruct (VectorSearchEngine.search _ _ _ _ _ _) as [[docs st]|e]; [|done].
  destruct docs as [|d docs].
  { by intros [= <- _]. }
  destruct (generate_answer _ _ _) as [ans gt].
  destruct (_ && _)%bool.
  - destruct (CacheManager.set _ _ _ _); [|done]. by intros [= <- _].
  - by intros [= <- _].
Qed.

(** ** Cluster count of the approximate index *)

Lemma lenient_faiss_accepts (index : faiss.Index) (x : ndarray) :
  accepts (H := lenient_faiss) index x.
Proof. destruct index; by repeat split. Qed.

Lemma strict_faiss_refuses : refuses_few_vectors (H := strict_faiss).
Proof.
  intros index nlist x Hn Hlt. destruct index as [d n m nbits|d]; [|done].
  injection Hn as ->. simpl.
  assert (E : (shape0 x <? nlist) = true) by by apply Z.ltb_lt.
  rewrite E. by eexists.
Qed.

Section index_building.
Context `{Faiss}.

(** [data_processor.py] clamps the cluster count by the number of vectors:
    the index it returns is the one with [min(1024, n // 10)] clusters, and
    it returns it when the bindings accept it. *)
Lemma build_faiss_index_nlist (vectors : ndarray) :
  let index :=
    faiss.IndexIVFPQ (shape1 vectors) (Z.min 1024 (shape0 vectors / 10)) 96 8 in
  (forall index',
     TheologyDocumentProcessor.build_faiss_index vectors (py "IVF_PQ")
     = Ok index' -> index' = index /\ accepts index vectors) /\
  (accepts index vectors ->
   TheologyDocumentProcessor.build_faiss_index vectors (py "IVF_PQ")
   = Ok index).
Proof.
  intros index. unfold TheologyDocumentProcessor.build_faiss_index.
  rewrite bool_decide_eq_true_2 by done. fold index. unfold bind. split.
  - intros index'. simpl.
    destruct (IndexFlatL2 _) as [[]|]; [|done].
    destruct (index_new _) as [[]|]; [|done].
    destruct (index_train _ _) as [[]|]; [|done].
    destruct (index_add _ _ _) as [[]|]; [|done].
    by intros [= <-].
  - intros (-> & -> & -> & ->). done.
Qed.

(** An exception of the bindings comes out of [build_faiss_index] as it
    is. *)
Lemma build_faiss_index_train_raises (vectors : ndarray) (e : exn) :
  let index :=
    faiss.IndexIVFPQ (shape1 vectors) (Z.min 1024 (shape0 vectors / 10)) 96 8 in
  IndexFlatL2 (shape1 vectors) = Ok tt -> index_new index = Ok tt ->
  index_train index vectors = Raise e ->
  TheologyDocumentProcessor.build_faiss_index vectors (py "IVF_PQ") = Raise e.
Proof.
  intros index Hq Hn Ht. unfold TheologyDocumentProcessor.build_faiss_index.
  rewrite bool_decide_eq_true_2 by done. fold index. unfold bind.
  by rewrite Hq, Hn, Ht.
Qed.

Lemma build_faiss_index_flat (vectors : ndarray) :
  let index := faiss.IndexFlatIP (shape1 vectors) in
  (forall index',
     TheologyDocumentProcessor.build_faiss_index vectors (py "FLAT")
     = Ok index' -> index' = index /\ accepts index vectors) /\
  (accepts index vectors ->
   TheologyDocumentProcessor.build_faiss_index vectors (py "FLAT") = Ok index).
Proof.
  intros index. unfold TheologyDocumentProcessor.build_faiss_index.
  rewrite bool_decide_eq_false_2 by by vm_compute.
  rewrite bool_decide_eq_true_2 by done. fold index. unfold bind. split.
  - intros index'. simpl.
    destruct (index_new _) as [[]|]; [|done].
    destruct (index_add _ _ _) as [[]|]; [|done].
    by intros [= <-].
  - intros (-> & ->). done.
Qed.

(** [main.py] always uses [Config.NLIST]. *)
Lemma train_and_add_vectors_nlist (vectors : ndarray) :
  let index := faiss.IndexIVFPQ (shape1 vectors) 1024 96 8 in
  (forall index',
     FAISSIndexManager.train_and_add_vectors vectors = Ok index' ->
     index' = index /\ accepts index vectors) /\
  (accepts index vectors ->
   FAISSIndexManager.train_and_add_vectors vectors = Ok index).
Proof.
  intros index.
  unfold FAISSIndexManager.train_and_add_vectors,
    FAISSIndexManager.create_index.
  rewrite bool_decide_eq_true_2 by done.
  change (faiss.IndexIVFPQ (shape1 vectors) Config.NLIST Config.M Config.NBITS)
    with index.
  unfold bind. split.
  - intros index'. simpl.
    destruct (IndexFlatL2 _) as [[]|]; [|done].
    destruct (index_new _) as [[]|]; [|done].
    destruct (index_train _ _) as [[]|]; [|done].
    destruct (index_add _ _ _) as [[]|]; [|done].
    by intros [= <-].
  - intros (-> & -> & -> & ->). done.
Qed.

(** With bindings that refuse to train on fewer vectors than clusters,
    [train_and_add_vectors] raises on fewer than 1024 vectors. *)
Lemma train_and_add_vectors_few (vectors : ndarray) :
  refuses_few_vectors -> shape0 vectors < 1024 ->
  exists e, FAISSIndexManager.train_and_add_vectors vectors = Raise e.
Proof.
  intros Href Hfew.
  unfold FAISSIndexManager.train_and_add_vectors,
    FAISSIndexManager.create_index.
  rewrite bool_decide_eq_true_2 by done. unfold bind.
  destruct (IndexFlatL2 _) as [[]|e]; [|by exists e].
  destruct (index_new _) as [[]|e]; [|by exists e].
  destruct (Href (faiss.IndexIVFPQ (shape1 vectors) Config.NLIST Config.M
                    Config.NBITS) 1024 vectors eq_refl Hfew) as [e He].
  exists e. by rewrite He.
Qed.
End index_building.

(** C7 (the code falls short).  Whatever the bindings do,
    [build_faiss_index] of [data_processor.py] asks for an index with
    [min(1024, n // 10)] clusters, which is at most 1024 and at most
    [n // 10]: this is the index it returns, and it returns it when the
    bindings accept to construct, train and fill it.
    [train_and_add_vectors] of [main.py] asks for 1024 clusters whatever
    [n] is: for the ten vectors of the sample index that is more than
    [10 // 10 = 1], and with bindings that refuse to train on fewer vectors
    than clusters the call raises. *)
Theorem create_index_nlist_not_clamped `{Faiss} :
  (forall vectors : ndarray,
     exists n,
       n <= 1024 /\ n <= shape0 vectors / 10 /\
       (forall index,
          TheologyDocumentProcessor.build_faiss_index vectors (py "IVF_PQ")
          = Ok index ->
          index = faiss.IndexIVFPQ (shape1 vectors) n 96 8) /\
       (accepts (faiss.IndexIVFPQ (shape1 vectors) n 96 8) vectors ->
        TheologyDocumentProcessor.build_faiss_index vectors (py "IVF_PQ")
        = Ok (faiss.IndexIVFPQ (shape1 vectors) n 96 8))) /\
  (forall vectors : ndarray,
     (forall index,
        FAISSIndexManager.train_and_add_vectors vectors = Ok index ->
        index = faiss.IndexIVFPQ (shape1 vectors) 1024 96 8 /\
        faiss.nlist index = Some 1024) /\
     (accepts (faiss.IndexIVFPQ (shape1 vectors) 1024 96 8) vectors ->
      FAISSIndexManager.train_and_add_vectors vectors
      = Ok (faiss.IndexIVFPQ (shape1 vectors) 1024 96 8))) /\
  shape0 sample_vectors = 10 /\
  (accepts (faiss.IndexIVFPQ 768 1024 96 8) sample_vectors ->
   FAISSIndexManager.train_and_add_vectors sample_vectors
   = Ok (faiss.IndexIVFPQ 768 1024 96 8)) /\
  ~ (1024 <= shape0 sample_vectors / 10) /\
  (refuses_few_vectors ->
   exists e, FAISSIndexManager.train_and_add_vectors sample_vectors = Raise e).
Proof.
  split; [|split; [|split; [|split; [|split]]]].
  - intros vectors. exists (Z.min 1024 (shape0 vectors / 10)).
    destruct (build_faiss_index_nlist vectors) as [Hret Hacc].
    split; [lia|]. split; [lia|]. split; [|exact Hacc].
    intros index Hb. by destruct (Hret index Hb).
  - intros vectors.
    destruct (train_and_add_vectors_nlist vectors) as [Hret Hacc].
    split; [|exact Hacc].
    intros index Hb. destruct (Hret index Hb) as [-> _]. done.
  - reflexivity.
  - apply (train_and_add_vectors_nlist sample_vectors).
  - by vm_compute.
  - intros Href. apply train_and_add_vectors_few; [done|]. by vm_compute.
Qed.

Lemma create_index_nlist_not_clamped_witness :
  (exists e,
     FAISSIndexManager.train_and_add_vectors (H := strict_faiss)
       sample_vectors = Raise e) /\
  FAISSIndexManager.train_and_add_vectors (H := lenient_faiss) sample_vectors
  = Ok (faiss.IndexIVFPQ 768 1024 96 8).
Proof.
  split.
  - destruct (create_index_nlist_not_clamped (H := strict_faiss))
      as (_ & _ & _ & _ & _ & Hraise).
    apply Hraise, strict_faiss_refuses.
  - destruct (create_index_nlist_not_clamped (H := lenient_faiss))
      as (_ & _ & _ & Hok & _).
    apply Hok, lenient_faiss_accepts.
Defined.

(** The two paths on the ten sample vectors, with the bindings that accept
    everything and with those that refuse too few training vectors. *)
Example sample_index_lenient :
  FAISSIndexManager.train_and_add_vectors (H := lenient_faiss) sample_vectors
  = Ok (faiss.IndexIVFPQ 768 1024 96 8) /\
  TheologyDocumentProcessor.build_faiss_index (H := lenient_faiss)
    sample_vectors (py "IVF_PQ")
  = Ok (faiss.IndexIVFPQ 768 1 96 8).
Proof. split; reflexivity. Qed.

Example sample_index_strict :
  FAISSIndexManager.train_and_add_vectors (H := strict_faiss) sample_vectors
  = Raise (PyError (py "RuntimeError")) /\
  TheologyDocumentProcessor.build_faiss_index (H := strict_faiss)
    sample_vectors (py "IVF_PQ")
  = Raise (PyError (py "RuntimeError")).
Proof. split; reflexivity. Qed.

(** ** Retrieval *)

Section retrieval.
Context {vector : Type}.
Variable encode : str -> vector.

(** On candidates without negative positions the loop never raises: it keeps,
    in order, the candidates that pass both tests. *)
Lemma collect_nonnegative (documents : list DocumentProcessor.DocumentChunk)
    (candidates : list (Q * Z)) (acc : list VectorSearchEngine.doc) :
  Forall (fun c => 0 <= c.2) candidates ->
  VectorSearchEngine.collect documents candidates acc
  = Ok (acc ++ omap (retained documents) candidates).
Proof.
  induction candidates as [|[sc idx] cs IH] in acc |- *; intros Hall; simpl.
  - by rewrite app_nil_r.
  - apply Forall_cons in Hall as [Hidx Hall]. simpl in Hidx.
    unfold retained at 1. simpl.
    destruct ((idx <? len documents) && Qltb (3 # 10) sc)%bool eqn:E.
    + apply andb_true_iff in E as [Hlt _]. apply Z.ltb_lt in Hlt.
      unfold py_index. destruct (idx <? 0) eqn:E0; [lia|].
      rewrite E0.
      destruct (documents !! Z.to_nat idx) as [d|] eqn:Ed.
      * simpl. rewrite IH by done. by rewrite <- app_assoc.
      * apply lookup_ge_None in Ed. unfold len in Hlt. lia.
    + by apply IH.
Qed.

Lemma retained_Some (documents : list DocumentProcessor.DocumentChunk)
    (c : Q * Z) (r : VectorSearchEngine.doc) :
  retained documents c = Some r ->
  VectorSearchEngine.score r = c.1 /\ ((3 # 10) < c.1)%Q.
Proof.
  unfold retained.
  destruct ((c.2 <? len documents) && Qltb (3 # 10) c.1)%bool eqn:E; [|done].
  apply andb_true_iff in E as [_ Hsc]. apply Qltb_lt in Hsc.
  destruct (documents !! Z.to_nat c.2) as [d|]; [|done].
  simpl. by intros [= <-].
Qed.

Lemma retained_scores_sublist (documents : list DocumentProcessor.DocumentChunk)
    (candidates : list (Q * Z)) :
  sublist (VectorSearchEngine.score <$> omap (retained documents) candidates)
          (fst <$> candidates).
Proof.
  induction candidates as [|c cs IH]; simpl; [constructor|].
  destruct (retained documents c) as [r|] eqn:E; simpl.
  - apply retained_Some in E as [-> _]. by constructor.
  - by constructor.
Qed.

Lemma retained_scores_above (documents : list DocumentProcessor.DocumentChunk)
    (candidates : list (Q * Z)) :
  Forall (fun d => ((3 # 10) < VectorSearchEngine.score d)%Q)
         (omap (retained documents) candidates).
Proof.
  induction candidates as [|c cs IH]; simpl; [constructor|].
  destruct (retained documents c) as [r|] eqn:E; simpl; [|done].
  constructor; [|done]. apply retained_Some in E as [-> Hsc]. done.
Qed.

Lemma zip_fst_sublist {A B} (l : list A) (k : list B) :
  sublist (fst <$> zip l k) l.
Proof.
  induction l as [|x l IH] in k |- *; simpl; [constructor|].
  destruct k as [|y k]; simpl.
  - apply sublist_nil_l.
  - constructor. apply IH.
Qed.

Lemma zip_snd_Forall {A B} (P : B -> Prop) (l : list A) (k : list B) :
  Forall P k -> Forall (fun c => P c.2) (zip l k).
Proof.
  intros Hk. induction l as [|x l IH] in k, Hk |- *; simpl; [constructor|].
  destruct Hk as [|y k Hy Hk]; simpl; [constructor|].
  constructor; [done|]. by apply IH.
Qed.

(** [search] on an index that answers the request for [2 * top_k]
    candidates without a negative position: nothing is raised, every result
    scores above 0.3, there are at most [top_k] results and their scores
    come in the order in which the index returned them. *)
Lemma search_without_negative_positions (self : VectorSearchEngine.t)
    (ix : vector -> Z -> result (list Q * list Z)) (query : str) (top_k : Z)
    (start_time end_time : Q) (scores : list Q) (indices : list Z) :
  FAISSIndexManager.index (VectorSearchEngine.faiss_manager self) = Some ix ->
  ix (encode query) (top_k * 2) = Ok (scores, indices) ->
  0 <= top_k ->
  Forall (fun i => 0 <= i) indices ->
  exists docs,
    VectorSearchEngine.search encode self query top_k start_time end_time
    = Ok (docs, (end_time - start_time)%Q) /\
    len docs <= top_k /\
    Forall (fun d => ((3 # 10) < VectorSearchEngine.score d)%Q) docs /\
    sublist (VectorSearchEngine.score <$> docs) scores.
Proof.
  intros Hix Hans Hk Hpos.
  unfold VectorSearchEngine.search, FAISSIndexManager.search.
  rewrite Hix, Hans. simpl in *.
  rewrite collect_nonnegative by by apply (zip_snd_Forall (fun i => 0 <= i)).
  simpl. eexists. split; [reflexivity|].
  rewrite py_slice_in_range by lia. rewrite drop_0.
  set (kept_docs := omap _ _).
  split; [|split].
  - unfold len. rewrite length_take. lia.
  - apply Forall_take, retained_scores_above.
  - transitivity (fst <$> zip scores indices); [|apply zip_fst_sublist].
    etransitivity; [|apply retained_scores_sublist].
    apply fmap_sublist, sublist_take.
Qed.
(** A candidate at a negative position within [-len(documents)] that scores
    above 0.3 is not skipped: it is reported with the passage counted from
    the end of the store. *)
Lemma collect_negative_position
    (documents : list DocumentProcessor.DocumentChunk)
    (sc : Q) (idx : Z) (rest : list (Q * Z))
    (acc : list VectorSearchEngine.doc) (d : DocumentProcessor.DocumentChunk) :
  idx < 0 -> ((3 # 10) < sc)%Q ->
  documents !! Z.to_nat (idx + len documents) = Some d ->
  0 <= idx + len documents ->
  VectorSearchEngine.collect documents ((sc, idx) :: rest) acc
  = VectorSearchEngine.collect documents rest (acc ++ [doc_of d sc]).
Proof.
  intros Hneg Hsc Hd Hin. simpl.
  assert (Hlt : (idx <? len documents) = true).
  { apply Z.ltb_lt. unfold len. lia. }
  apply Qltb_lt in Hsc. rewrite Hlt, Hsc. simpl.
  unfold py_index. destruct (idx <? 0) eqn:E0; [|lia].
  destruct (idx + len documents <? 0) eqn:E1; [lia|].
  by rewrite Hd.
Qed.

(** With an empty store it makes the loop raise. *)
Lemma collect_negative_position_empty (sc : Q) (idx : Z)
    (rest : list (Q * Z)) (acc : list VectorSearchEngine.doc) :
  idx < 0 -> ((3 # 10) < sc)%Q ->
  VectorSearchEngine.collect [] ((sc, idx) :: rest) acc = Raise IndexError.
Proof.
  intros Hneg Hsc. cbn [VectorSearchEngine.collect].
  assert (Hlt : (idx <? 0) = true) by by apply Z.ltb_lt.
  apply Qltb_lt in Hsc.
  change (len (@nil DocumentProcessor.DocumentChunk)) with 0.
  rewrite Hlt, Hsc. cbn [andb]. unfold py_index. rewrite Hlt.
  change (len (@nil DocumentProcessor.DocumentChunk)) with 0.
  destruct (idx + 0 <? 0) eqn:E; [done|lia].
Qed.
End retrieval.

(** C3 (the code falls short).  A candidate at position [-1] passes the test
    [idx < len(documents)], and [documents[-1]] is the last passage: asked
    for two results, [search] requests four candidates, gets one neighbour
    and three padded ones, and returns the last passage twice, the second
    time with the padding score.  With an empty document store the same
    candidates make [search] raise [IndexError]. *)
Theorem search_negative_position_not_skipped :
  FAISSIndexManager.search padded_index tt (2 * 2)
  = Ok ([5 # 10; FLT_MAX; FLT_MAX; FLT_MAX], [2; -1; -1; -1]) /\
  VectorSearchEngine.search (fun _ => tt)
    {| VectorSearchEngine.faiss_manager := padded_index;
       VectorSearchEngine.documents := three_chunks |}
    (py "grace") 2 0 1
  = Ok ([doc_of (chunk_named "c2") (5 # 10);
         doc_of (chunk_named "c2") FLT_MAX], 1%Q) /\
  VectorSearchEngine.search (fun _ => tt)
    {| VectorSearchEngine.faiss_manager := padded_index;
       VectorSearchEngine.documents := [] |}
    (py "grace") 2 0 1
  = Raise IndexError.
Proof. split; [|split]; by vm_compute. Qed.

(** * Further properties *)

(** ** More on trimming *)

(** Trimming the right end of a text leaves at least what trimming the right
    end of any of its suffixes leaves. *)
Lemma rstrip_suffix_length (a b : str) :
  (length (rstrip b) <= length (rstrip (a ++ b)))%nat.
Proof.
  unfold rstrip. rewrite rev_app_distr, lstrip_app, !length_rev.
  destruct (lstrip (rev b)) as [|c r] eqn:E; simpl; [lia|].
  rewrite length_app. simpl. lia.
Qed.

Lemma lstrip_suffix (s : str) : exists w, s = w ++ lstrip s.
Proof.
  induction s as [|c s [w IH]]; simpl.
  - by exists [].
  - destruct (isspace c).
    + exists (c :: w). simpl. by rewrite <- IH.
    + by exists [].
Qed.

(** Trimming a suffix of a text never leaves more than trimming the text. *)
Lemma strip_drop_length (n : nat) (s : str) :
  len (strip (drop n s)) <= len (strip s).
Proof.
  unfold len. apply inj_le.
  rewrite <- (take_drop n s) at 2.
  set (a := take n s). set (b := drop n s).
  assert (Hb : (length (strip b) <= length (rstrip b))%nat).
  { unfold strip. destruct (lstrip_suffix b) as [w Hw].
    rewrite Hw at 2. apply rstrip_suffix_length. }
  unfold strip at 2. rewrite lstrip_app.
  destruct (lstrip a) as [|c r] eqn:E; [done|].
  etransitivity; [exact Hb|]. apply rstrip_suffix_length.
Qed.

(** A window of a text, trimmed, is no longer than the text, trimmed. *)
Lemma window_strip_length (chunk_size : Z) (text : str) (i : Z) :
  len (window chunk_size text i) <= len (strip text).
Proof.
  unfold window, py_slice.
  etransitivity; [apply strip_take_length | apply strip_drop_length].
Qed.

Lemma window_length (chunk_size : Z) (text : str) (i : Z) :
  0 <= chunk_size -> 0 <= i <= len text ->
  len (window chunk_size text i) <= Z.min (i + chunk_size) (len text) - i.
Proof.
  intros Hc Hi. unfold window.
  etransitivity; [apply strip_length|].
  rewrite py_slice_length by lia. lia.
Qed.


(** ** The offsets at which chunks are made *)

(** What holds of the offset [i] of a chunk for a text and a positive
    stride: it is a multiple of the stride, lies in the text, and its window
    passes the length test. *)
Definition chunk_offset (chunk_size stride : Z) (text : str) (i : Z) : Prop :=
  (exists m : nat, i = Z.of_nat m * stride) /\
  0 <= i < len text /\
  kept chunk_size text i.

Lemma kept_offsets (chunk_size stride : Z) (text : str) :
  0 < stride ->
  Forall (chunk_offset chunk_size stride text)
         (filter (kept chunk_size text) (offsets_of text stride)).
Proof.
  intros Hs. apply Forall_forall. intros i Hi.
  apply list_elem_of_filter in Hi as [Hk Hi].
  unfold offsets_of in Hi. apply list_elem_of_fmap in Hi as (m & -> & Hm).
  apply elem_of_seq in Hm as [_ Hm]. simpl in Hm.
  pose proof (range_count_bound (len text) stride m Hs Hm).
  split; [by exists m|]. split; [lia|done].
Qed.

Lemma kept_offsets_length (chunk_size stride : Z) (text : str) :
  0 < stride ->
  len (filter (kept chunk_size text) (offsets_of text stride)) * stride
  < len text + stride.
Proof.
  intros Hs.
  pose proof (length_filter (kept chunk_size text) (offsets_of text stride)) as Hf.
  unfold offsets_of in *. rewrite length_fmap, length_seq in Hf.
  destruct (range_count 0 (len text) stride) as [|n] eqn:En.
  - unfold len in *. assert (Hz : length (filter (kept chunk_size text)
      ((fun k => Z.of_nat k * stride) <$> seq 0 0)) = 0%nat) by lia.
    rewrite Hz. simpl. lia.
  - assert (Hb := range_count_bound (len text) stride n Hs ltac:(lia)).
    unfold len in *. nia.
Qed.

(** ** Chunker: start and end positions of the chunks *)





Section chunk_positions.
Context `{Hashlib}.


End chunk_positions.




Section chunk_anatomy.
Context `{Hashlib}.

Lemma DocumentProcessor_anatomy (self : DocumentProcessor.t) (text src : str) :
  let stride := DocumentProcessor.chunk_size self - DocumentProcessor.overlap self in
  0 < stride ->
  exists offs : list Z,
    DocumentProcessor.chunk_document self text src
    = Ok (imap (DocumentProcessor.make_chunk self text src) offs) /\
    Forall (chunk_offset (DocumentProcessor.chunk_size self) stride text) offs /\
    len offs * stride < len text + stride /\
    (len (strip text) < 50 -> offs = []).
Proof.
  intros stride Hs.
  exists (filter (kept (DocumentProcessor.chunk_size self) text)
            (offsets_of text stride)).
  split; [by apply DocumentProcessor_chunks|].
  split; [by apply kept_offsets|]. split; [by apply kept_offsets_length|].
  intros Hshort.
  destruct (filter _ _) as [|i offs] eqn:E; [done|]. exfalso.
  assert (Hi : i ∈ filter (kept (DocumentProcessor.chunk_size self) text)
                 (offsets_of text stride)) by (rewrite E; left).
  apply list_elem_of_filter in Hi as [Hk _]. unfold kept in Hk.
  pose proof (window_strip_length (DocumentProcessor.chunk_size self) text i).
  lia.
Qed.

Lemma TheologyDocumentProcessor_anatomy (self : TheologyDocumentProcessor.t)
    (clock : nat -> str) (text src : str) (extra : option (gmap str value)) :
  let stride := TheologyDocumentProcessor.chunk_size self
                - TheologyDocumentProcessor.overlap self in
  0 < stride ->
  exists offs : list Z,
    TheologyDocumentProcessor.chunk_document self clock text src extra
    = Ok (imap (fun k i =>
                  TheologyDocumentProcessor.make_chunk self text src extra
                    k (clock k) i) offs) /\
    Forall (chunk_offset (TheologyDocumentProcessor.chunk_size self) stride text)
           offs /\
    len offs * stride < len text + stride /\
    (len (strip text) < 50 -> offs = []).
Proof.
  intros stride Hs.
  rewrite TheologyDocumentProcessor_chunks by done. fold stride.
  destruct (too_short text) eqn:Eshort.
  - exists []. split; [done|]. split; [constructor|]. split; [|done].
    unfold len. simpl. lia.
  - exists (filter (kept (TheologyDocumentProcessor.chunk_size self) text)
              (offsets_of text stride)).
    split; [done|].
    split; [by apply kept_offsets|]. split; [by apply kept_offsets_length|].
    intros Hshort.
    destruct (filter _ _) as [|i offs] eqn:E; [done|]. exfalso.
    assert (Hi : i ∈ filter (kept (TheologyDocumentProcessor.chunk_size self) text)
                   (offsets_of text stride)) by (rewrite E; left).
    apply list_elem_of_filter in Hi as [Hk _]. unfold kept in Hk.
    pose proof (window_strip_length
                  (TheologyDocumentProcessor.chunk_size self) text i).
    lia.
Qed.
End chunk_anatomy.

Lemma Forall_imap_impl {A B} (Q : A -> Prop) (P : B -> Prop)
    (f : nat -> A -> B) (l : list A) :
  Forall Q l -> (forall k x, Q x -> P (f k x)) -> Forall P (imap f l).
Proof.
  intros Hl Hf. apply Forall_forall. intros y Hy.
  apply list_elem_of_lookup in Hy as [k Hk].
  rewrite list_lookup_imap in Hk.
  destruct (l !! k) as [x|] eqn:Ex; simplify_eq/=.
  apply Hf. rewrite Forall_forall in Hl. apply Hl.
  by eapply list_elem_of_lookup_2.
Qed.

Lemma lstrip_head (s : str) (c : char) (r : str) :
  lstrip s = c :: r -> isspace c = false.
Proof.
  induction s as [|x s IH]; simpl; [done|].
  destruct (isspace x) eqn:E; [exact IH|]. by intros [= <- _].
Qed.

Lemma lstrip_idem (s : str) : lstrip (lstrip s) = lstrip s.
Proof.
  destruct (lstrip s) as [|c r] eqn:E; [done|].
  simpl. by rewrite (lstrip_head s c r E).
Qed.

Lemma rstrip_cons_keep (c : char) (r : str) :
  isspace c = false -> exists r', rstrip (c :: r) = c :: r'.
Proof.
  intros Hc. unfold rstrip. simpl. rewrite lstrip_app.
  destruct (lstrip (rev r)) as [|x xs] eqn:E.
  - simpl. rewrite Hc. by exists [].
  - rewrite rev_app_distr. simpl. by eexists.
Qed.

(** Trimming twice is trimming once. *)
Lemma strip_idem (s : str) : strip (strip s) = strip s.
Proof.
  unfold strip. destruct (lstrip s) as [|c r] eqn:E; [done|].
  destruct (rstrip_cons_keep c r (lstrip_head s c r E)) as [r' Hr].
  assert (Hl : lstrip (rstrip (c :: r)) = rstrip (c :: r)).
  { rewrite Hr. simpl. by rewrite (lstrip_head s c r E). }
  rewrite Hl. unfold rstrip. by rewrite rev_involutive, lstrip_idem.
Qed.

(** ** Chunker: what every chunk holds *)

(** X1.  For a configuration with [0 <= overlap < chunk_size], both chunkers
    return chunks whose text is trimmed (trimming it again changes nothing)
    and has at least 50 and at most [chunk_size] characters. *)
Theorem chunk_content_bounds `{Hashlib} (clock : nat -> str)
    (text src : str) (extra : option (gmap str value))
    (chunk_size overlap : Z) :
  0 <= overlap < chunk_size ->
  (exists chunks,
     DocumentProcessor.chunk_document
       {| DocumentProcessor.chunk_size := chunk_size;
          DocumentProcessor.overlap := overlap |} text src = Ok chunks /\
     Forall (fun c =>
               50 <= len (DocumentProcessor.content c) <= chunk_size /\
               strip (DocumentProcessor.content c) = DocumentProcessor.content c)
            chunks) /\
  (exists chunks,
     TheologyDocumentProcessor.chunk_document
       {| TheologyDocumentProcessor.chunk_size := chunk_size;
          TheologyDocumentProcessor.overlap := overlap |}
       clock text src extra = Ok chunks /\
     Forall (fun c =>
               50 <= len (TheologyDocumentProcessor.content c) <= chunk_size /\
               strip (TheologyDocumentProcessor.content c)
               = TheologyDocumentProcessor.content c)
            chunks).
Proof.
  intros Hcfg.
  assert (Hwin : forall i, chunk_offset chunk_size (chunk_size - overlap) text i ->
            50 <= len (window chunk_size text i) <= chunk_size /\
            strip (window chunk_size text i) = window chunk_size text i).
  { intros i (_ & Hi & Hk). split.
    - split; [exact Hk|].
      pose proof (window_length chunk_size text i ltac:(lia) ltac:(lia)). lia.
    - apply strip_idem. }
  split.
  - destruct (DocumentProcessor_anatomy
                {| DocumentProcessor.chunk_size := chunk_size;
                   DocumentProcessor.overlap := overlap |} text src)
      as (offs & -> & Hoffs & _); [simpl; lia|].
    eexists. split; [done|].
    eapply Forall_imap_impl; [exact Hoffs|]. intros k i Hi. by apply Hwin.
  - destruct (TheologyDocumentProcessor_anatomy
                {| TheologyDocumentProcessor.chunk_size := chunk_size;
                   TheologyDocumentProcessor.overlap := overlap |}
                clock text src extra)
      as (offs & -> & Hoffs & _); [simpl; lia|].
    eexists. split; [done|].
    eapply Forall_imap_impl; [exact Hoffs|]. intros k i Hi. by apply Hwin.
Qed.

Lemma chunk_content_bounds_witness :
  exists chunks,
    DocumentProcessor.chunk_document (H := plain_digest)
      {| DocumentProcessor.chunk_size := 512;
         DocumentProcessor.overlap := 50 |}
      text_with_blank_windows (py "doc.txt") = Ok chunks /\
    Forall (fun c =>
              50 <= len (DocumentProcessor.content c) <= 512 /\
              strip (DocumentProcessor.content c) = DocumentProcessor.content c)
           chunks.
Proof.
  apply (chunk_content_bounds (H := plain_digest)
           (fun _ => py "2025-01-01T00:00:00") text_with_blank_windows
           (py "doc.txt") None 512 50).
  lia.
Defined.



Lemma chunk_document_negative_stride_empty `{Hashlib} (clock : nat -> str)
    (text src : str) (extra : option (gmap str value))
    (chunk_size overlap : Z) :
  chunk_size < overlap ->
  DocumentProcessor.chunk_document
    {| DocumentProcessor.chunk_size := chunk_size;
       DocumentProcessor.overlap := overlap |} text src = Ok [] /\
  TheologyDocumentProcessor.chunk_document
    {| TheologyDocumentProcessor.chunk_size := chunk_size;
       TheologyDocumentProcessor.overlap := overlap |}
    clock text src extra = Ok [].
Proof.
  intros Hlt.
  unfold DocumentProcessor.chunk_document,
    TheologyDocumentProcessor.chunk_document.
  simpl. assert (Hlen : 0 <= len text) by (unfold len; lia).
  rewrite py_range_negative_step by lia. by destruct (_ || _)%bool.
Qed.

(** X3.  A text that trims to fewer than 50 characters (the empty text
    included) gives no chunk and no error, in both chunkers, for every
    configuration whose stride is not zero. *)
Theorem chunk_document_short_text `{Hashlib} (clock : nat -> str)
    (text src : str) (extra : option (gmap str value))
    (chunk_size overlap : Z) :
  chunk_size <> overlap ->
  len (strip text) < 50 ->
  DocumentProcessor.chunk_document
    {| DocumentProcessor.chunk_size := chunk_size;
       DocumentProcessor.overlap := overlap |} text src = Ok [] /\
  TheologyDocumentProcessor.chunk_document
    {| TheologyDocumentProcessor.chunk_size := chunk_size;
       TheologyDocumentProcessor.overlap := overlap |}
    clock text src extra = Ok [].
Proof.
  intros Hne Hshort.
  destruct (decide (overlap < chunk_size)) as [Hpos|Hneg].
  - split.
    + destruct (DocumentProcessor_anatomy
                  {| DocumentProcessor.chunk_size := chunk_size;
                     DocumentProcessor.overlap := overlap |} text src)
        as (offs & -> & _ & _ & Hnil); [simpl; lia|].
      by rewrite (Hnil Hshort).
    + destruct (TheologyDocumentProcessor_anatomy
                  {| TheologyDocumentProcessor.chunk_size := chunk_size;
                     TheologyDocumentProcessor.overlap := overlap |}
                  clock text src extra)
        as (offs & -> & _ & _ & Hnil); [simpl; lia|].
      by rewrite (Hnil Hshort).
  - apply chunk_document_negative_stride_empty. lia.
Qed.

Lemma chunk_document_short_text_witness :
  DocumentProcessor.chunk_document (H := plain_digest)
    {| DocumentProcessor.chunk_size := 512; DocumentProcessor.overlap := 50 |}
    (py "   a short note   ") (py "doc.txt") = Ok [] /\
  TheologyDocumentProcessor.chunk_document (H := plain_digest)
    {| TheologyDocumentProcessor.chunk_size := 512;
       TheologyDocumentProcessor.overlap := 50 |}
    (fun _ => py "2025-01-01T00:00:00")
    (py "   a short note   ") (py "doc.txt") None = Ok [].
Proof.
  apply (chunk_document_short_text (H := plain_digest)).
  - lia.
  - by vm_compute.
Defined.



(** The chunk [c] after [chunk_metadata.update(m)]. *)
Definition updated_chunk (m : gmap str value)
    (c : TheologyDocumentProcessor.chunk) : TheologyDocumentProcessor.chunk :=
  {| TheologyDocumentProcessor.id := TheologyDocumentProcessor.id c;
     TheologyDocumentProcessor.content := TheologyDocumentProcessor.content c;
     TheologyDocumentProcessor.metadata :=
       m ∪ TheologyDocumentProcessor.metadata c |}.

(** X5.  Extra metadata passed to [chunk_document] of [data_processor.py]
    changes nothing but the metadata of the chunks, which it updates: the
    chunks are those obtained without it, with every key of the extra
    metadata written over the computed one.  A document that carries a
    [start_pos] or [source] field of its own thus replaces the computed
    value in every chunk. *)
Theorem extra_metadata_overrides `{Hashlib} (clock : nat -> str)
    (text src : str) (m : gmap str value) (chunk_size overlap : Z) :
  overlap < chunk_size ->
  exists chunks,
    TheologyDocumentProcessor.chunk_document
      {| TheologyDocumentProcessor.chunk_size := chunk_size;
         TheologyDocumentProcessor.overlap := overlap |}
      clock text src None = Ok chunks /\
    TheologyDocumentProcessor.chunk_document
      {| TheologyDocumentProcessor.chunk_size := chunk_size;
         TheologyDocumentProcessor.overlap := overlap |}
      clock text src (Some m) = Ok (updated_chunk m <$> chunks) /\
    Forall (fun c => forall k v, m !! k = Some v ->
              TheologyDocumentProcessor.metadata c !! k = Some v)
           (updated_chunk m <$> chunks).
Proof.
  intros Hcfg.
  rewrite !TheologyDocumentProcessor_chunks by (simpl; lia). simpl.
  eexists. split; [reflexivity|]. split.
  - f_equal. destruct (too_short text); [done|].
    rewrite fmap_imap. by apply imap_ext.
  - apply Forall_fmap, Forall_forall. intros c _ k v Hk. simpl.
    by apply lookup_union_Some_l.
Qed.

Lemma extra_metadata_overrides_witness :
  exists chunks,
    TheologyDocumentProcessor.chunk_document (H := plain_digest)
      {| TheologyDocumentProcessor.chunk_size := 512;
         TheologyDocumentProcessor.overlap := 50 |}
      (fun _ => py "2025-01-01T00:00:00") (repeat 97%N 600) (py "doc.json") None
    = Ok chunks /\
    TheologyDocumentProcessor.chunk_document (H := plain_digest)
      {| TheologyDocumentProcessor.chunk_size := 512;
         TheologyDocumentProcessor.overlap := 50 |}
      (fun _ => py "2025-01-01T00:00:00") (repeat 97%N 600) (py "doc.json")
      (Some {[ py "start_pos" := VStr (py "chapter 3") ]})
    = Ok (updated_chunk {[ py "start_pos" := VStr (py "chapter 3") ]} <$> chunks) /\
    Forall (fun c => forall k v,
              ({[ py "start_pos" := VStr (py "chapter 3") ]} : gmap str value)
                !! k = Some v ->
              TheologyDocumentProcessor.metadata c !! k = Some v)
           (updated_chunk {[ py "start_pos" := VStr (py "chapter 3") ]} <$> chunks).
Proof.
  apply (extra_metadata_overrides (H := plain_digest)). lia.
Defined.

(** ** Batches *)

Lemma range_count_cover (stop step : Z) :
  0 < step -> 0 <= stop -> stop <= Z.of_nat (range_count 0 stop step) * step.
Proof.
  intros Hs Hl. destruct (decide (0 < stop)) as [Hpos|Hz]; [|nia].
  destruct (range_count_pos stop step Hs Hpos) as (n & -> & _ & Hn). exact Hn.
Qed.

(** The first [k] batches of a list are its first [k * batch_size]
    elements. *)
Lemma batches_prefix {A} (l : list A) (batch_size : Z) (k : nat) :
  0 < batch_size -> (k <= range_count 0 (len l) batch_size)%nat ->
  concat ((fun i => py_slice l i (i + batch_size))
          <$> ((fun m => Z.of_nat m * batch_size) <$> seq 0 k))
  = take (Z.to_nat (Z.of_nat k * batch_size)) l.
Proof.
  intros Hb. induction k as [|k IH]; intros Hk; [done|].
  rewrite seq_S, !fmap_app, concat_app, IH by lia. simpl.
  rewrite app_nil_r.
  pose proof (range_count_bound (len l) batch_size k Hb ltac:(lia)) as Hlt.
  rewrite py_slice_in_range by lia.
  rewrite (Z.min_l (Z.of_nat k * batch_size)) by lia.
  rewrite take_take_drop.
  destruct (decide (Z.of_nat k * batch_size + batch_size <= len l)) as [Hin|Hout].
  - f_equal. lia.
  - unfold len in *. rewrite !take_ge by lia. done.
Qed.

(** The batches of a list, one after the other, are the list. *)
Lemma batches_concat {A} (l : list A) (batch_size : Z) :
  0 < batch_size ->
  concat ((fun i => py_slice l i (i + batch_size))
          <$> ((fun m => Z.of_nat m * batch_size)
               <$> seq 0 (range_count 0 (len l) batch_size)))
  = l.
Proof.
  intros Hb. rewrite batches_prefix by (done || lia).
  apply take_ge.
  pose proof (range_count_cover (len l) batch_size Hb ltac:(unfold len; lia)).
  unfold len in *. lia.
Qed.

(** A batch is never empty and never longer than the batch size. *)
Lemma batch_length {A} (l : list A) (batch_size : Z) (m : nat) :
  0 < batch_size -> (m < range_count 0 (len l) batch_size)%nat ->
  0 < len (py_slice l (Z.of_nat m * batch_size)
                    (Z.of_nat m * batch_size + batch_size)) <= batch_size.
Proof.
  intros Hb Hm.
  pose proof (range_count_bound (len l) batch_size m Hb Hm) as Hlt.
  rewrite py_slice_length by lia. lia.
Qed.

(** An encoder that embeds each text on its own, in vectors of one
    dimension. *)
Definition pointwise (encode : list str -> ndarray) (embed : str -> list Q)
    (dimension : Z) : Prop :=
  (forall batch, encode batch = embed <$> batch) /\
  (forall s, len (embed s) = dimension).

Lemma concat_fmap_fmap {A B} (f : A -> B) (ls : list (list A)) :
  concat ((fun l : list A => f <$> l) <$> ls) = f <$> concat ls.
Proof.
  induction ls as [|l ls IH]; [done|].
  rewrite fmap_cons. cbn [concat]. rewrite fmap_app. f_equal. exact IH.
Qed.

(** Encoding a list batch by batch and stacking the results, with an encoder
    that embeds each text on its own. *)
Lemma vstack_batches (encode : list str -> ndarray) (embed : str -> list Q)
    (dimension : Z) (texts : list str) (batch_size : Z) :
  pointwise encode embed dimension ->
  0 < batch_size -> texts <> [] ->
  np_vstack ((fun i => encode (py_slice texts i (i + batch_size)))
             <$> ((fun m => Z.of_nat m * batch_size)
                  <$> seq 0 (range_count 0 (len texts) batch_size)))
  = Ok (embed <$> texts).
Proof.
  intros [Henc Hdim] Hb Hne.
  set (offsets := (fun m => Z.of_nat m * batch_size)
                  <$> seq 0 (range_count 0 (len texts) batch_size)).
  assert (Hshape : Forall (fun a : ndarray => shape1 a = dimension)
            ((fun i => encode (py_slice texts i (i + batch_size))) <$> offsets)).
  { apply Forall_fmap, Forall_fmap, Forall_forall. intros m Hm. simpl.
    apply elem_of_seq in Hm as [_ Hm]. simpl in Hm.
    pose proof (batch_length texts batch_size m Hb Hm) as [Hpos _].
    rewrite Henc. unfold shape1.
    destruct (py_slice texts _ _) as [|s b]; [unfold len in Hpos; simpl in Hpos; lia|].
    simpl. apply Hdim. }
  assert (Hcat : concat ((fun i => encode (py_slice texts i (i + batch_size)))
                         <$> offsets) = embed <$> texts).
  { transitivity
      (embed <$> concat ((fun i => py_slice texts i (i + batch_size))
                         <$> offsets)).
    - rewrite <- concat_fmap_fmap, <- list_fmap_compose.
      f_equal. apply list_fmap_ext. intros k i _. simpl. apply Henc.
    - f_equal. apply (batches_concat texts batch_size Hb). }
  unfold np_vstack.
  destruct (_ <$> offsets) as [|a rest] eqn:E.
  { destruct texts; [done|]. by simpl in Hcat. }
  apply Forall_cons in Hshape as [Ha Hrest].
  assert (Hall : forallb (fun b : ndarray => shape1 b =? shape1 a) rest = true).
  { apply forallb_forall. intros b Hb'. rewrite Forall_forall in Hrest.
    apply list_elem_of_In in Hb'. rewrite (Hrest b Hb'), Ha. lia. }
  by rewrite Hall, Hcat.
Qed.

(** ** Vectorizing the documents *)

(** The batches of a pointwise encoder, stacked, are the embeddings of the
    texts. *)
Lemma vectorize_documents_whole (encode : list str -> ndarray)
    (embed : str -> list Q) (dimension : Z)
    (documents : list TheologyDocumentProcessor.chunk) (batch_size : Z) :
  pointwise encode embed dimension ->
  0 < batch_size ->
  documents <> [] ->
  TheologyDocumentProcessor.vectorize_documents encode documents batch_size
  = Ok (embed <$> (TheologyDocumentProcessor.content <$> documents)).
Proof.
  intros Hp Hb Hne. unfold TheologyDocumentProcessor.vectorize_documents.
  rewrite py_range_pos by done.
  by rewrite (vstack_batches encode embed dimension)
    by (done || by destruct documents).
Qed.

(** X6.  With an encoder that embeds each text on its own in vectors of one
    dimension, [vectorize_documents] on a non-empty list of documents and a
    positive batch size returns exactly one vector per document, in the
    order of the documents: the embedding of its text.  The batch size does
    not show in the result. *)
Theorem vectorize_documents_aligned (encode : list str -> ndarray)
    (embed : str -> list Q) (dimension : Z)
    (documents : list TheologyDocumentProcessor.chunk) (batch_size : Z) :
  pointwise encode embed dimension ->
  0 < batch_size ->
  documents <> [] ->
  exists vectors,
    TheologyDocumentProcessor.vectorize_documents encode documents batch_size
    = Ok vectors /\
    vectors = embed ∘ TheologyDocumentProcessor.content <$> documents /\
    shape0 vectors = len documents /\
    shape1 vectors = dimension.
Proof.
  intros Hp Hb Hne. eexists. split.
  { by apply (vectorize_documents_whole encode embed dimension). }
  split; [by rewrite <- list_fmap_compose|]. split.
  - unfold shape0, len. by rewrite !length_fmap.
  - destruct documents as [|c cs]; [done|]. unfold shape1. simpl. apply Hp.
Qed.

(** An encoder for experiments: the vector of a text is its length. *)
Definition length_encoder (batch : list str) : ndarray :=
  (fun s => [inject_Z (len s)]) <$> batch.

Lemma length_encoder_pointwise :
  pointwise length_encoder (fun s => [inject_Z (len s)]) 1.
Proof. by split. Qed.

Definition two_chunks : list TheologyDocumentProcessor.chunk :=
  [ {| TheologyDocumentProcessor.id := py "a";
       TheologyDocumentProcessor.content := py "grace";
       TheologyDocumentProcessor.metadata := ∅ |};
    {| TheologyDocumentProcessor.id := py "b";
       TheologyDocumentProcessor.content := py "faith alone";
       TheologyDocumentProcessor.metadata := ∅ |} ].

Lemma vectorize_documents_aligned_witness :
  exists vectors,
    TheologyDocumentProcessor.vectorize_documents length_encoder two_chunks 1
    = Ok vectors /\
    vectors = (fun s => [inject_Z (len s)]) ∘ TheologyDocumentProcessor.content
              <$> two_chunks /\
    shape0 vectors = len two_chunks /\
    shape1 vectors = 1.
Proof.
  apply (vectorize_documents_aligned length_encoder
           (fun s => [inject_Z (len s)]) 1 two_chunks 1).
  - exact length_encoder_pointwise.
  - lia.
  - done.
Defined.

(** X7.  [vectorize_documents] raises [ValueError], whatever the encoder,
    when there is no document or when the batch size is not positive: a zero
    batch size is refused by [range], and otherwise there is no batch and
    [np.vstack] refuses the empty sequence. *)
Theorem vectorize_documents_errors (encode : list str -> ndarray)
    (documents : list TheologyDocumentProcessor.chunk) (batch_size : Z) :
  documents = [] \/ batch_size <= 0 ->
  TheologyDocumentProcessor.vectorize_documents encode documents batch_size
  = Raise ValueError.
Proof.
  intros Hcase. unfold TheologyDocumentProcessor.vectorize_documents.
  destruct (decide (batch_size = 0)) as [->|Hnz]; [done|].
  destruct (decide (batch_size < 0)) as [Hneg|Hpos].
  - rewrite py_range_negative_step; [done | done | unfold len; lia].
  - destruct Hcase as [->|?]; [|lia].
    rewrite py_range_pos by lia.
    assert (Hc : range_count 0 (len (TheologyDocumentProcessor.content <$> []))
                   batch_size = 0%nat).
    { unfold range_count. destruct (0 <? batch_size) eqn:E; [|lia].
      change (len (TheologyDocumentProcessor.content <$> [])) with 0.
      rewrite Z.div_small by lia. done. }
    by rewrite Hc.
Qed.

Lemma vectorize_documents_errors_witness :
  TheologyDocumentProcessor.vectorize_documents length_encoder [] 64
  = Raise ValueError /\
  TheologyDocumentProcessor.vectorize_documents length_encoder two_chunks 0
  = Raise ValueError.
Proof.
  split.
  - apply vectorize_documents_errors. by left.
  - apply vectorize_documents_errors. right. lia.
Defined.

(** X8.  Vectorizing [n >= 1] documents and building the index on the
    result.  For ["IVF_PQ"] the index asked of FAISS has
    [min(1024, n // 10)] clusters, so none at all when there are fewer than
    ten documents; for ["FLAT"] it is the flat index, filled without
    training.  In both cases the index is returned exactly when the bindings
    accept to construct it, train it (for ["IVF_PQ"]) and fill it, and an
    exception of the training comes out as it is.  Any other index type
    raises [ValueError], whatever the bindings do. *)
Theorem build_faiss_index_after_vectorize `{Faiss}
    (encode : list str -> ndarray)
    (embed : str -> list Q) (dimension : Z)
    (documents : list TheologyDocumentProcessor.chunk) (batch_size : Z)
    (index_type : str) :
  pointwise encode embed dimension ->
  0 < batch_size ->
  documents <> [] ->
  let ivfpq :=
    faiss.IndexIVFPQ dimension (Z.min 1024 (len documents / 10)) 96 8 in
  let flat := faiss.IndexFlatIP dimension in
  exists vectors,
    TheologyDocumentProcessor.vectorize_documents encode documents batch_size
    = Ok vectors /\
    shape0 vectors = len documents /\
    (forall index,
       TheologyDocumentProcessor.build_faiss_index vectors (py "IVF_PQ")
       = Ok index <-> index = ivfpq /\ accepts ivfpq vectors) /\
    (len documents < 10 -> faiss.nlist ivfpq = Some 0) /\
    (forall e,
       IndexFlatL2 dimension = Ok tt -> index_new ivfpq = Ok tt ->
       index_train ivfpq vectors = Raise e ->
       TheologyDocumentProcessor.build_faiss_index vectors (py "IVF_PQ")
       = Raise e) /\
    (forall index,
       TheologyDocumentProcessor.build_faiss_index vectors (py "FLAT")
       = Ok index <-> index = flat /\ accepts flat vectors) /\
    (index_type <> py "IVF_PQ" -> index_type <> py "FLAT" ->
     TheologyDocumentProcessor.build_faiss_index vectors index_type
     = Raise ValueError).
Proof.
  intros Hp Hb Hne ivfpq flat.
  pose proof (vectorize_documents_whole encode embed dimension documents
                batch_size Hp Hb Hne) as Hv.
  eexists. split; [exact Hv|].
  set (vectors := embed <$> _).
  assert (Hn : shape0 vectors = len documents).
  { unfold vectors, shape0, len. by rewrite !length_fmap. }
  assert (Hd : shape1 vectors = dimension).
  { unfold vectors. destruct documents as [|c cs]; [done|].
    unfold shape1. simpl. apply Hp. }
  pose proof (build_faiss_index_nlist vectors) as [Hret Hacc].
  pose proof (build_faiss_index_train_raises vectors) as Hraise.
  pose proof (build_faiss_index_flat vectors) as [Hfret Hfacc].
  rewrite Hn, Hd in Hret, Hacc, Hraise. rewrite Hd in Hfret, Hfacc.
  fold ivfpq in Hret, Hacc, Hraise. fold flat in Hfret, Hfacc.
  split; [exact Hn|]. split; [|split; [|split; [|split]]].
  - intros index. split; [apply Hret|]. intros [-> Ha]. by apply Hacc.
  - intros Hfew. simpl. f_equal.
    assert (len documents / 10 = 0); [|lia].
    apply Z.div_small. unfold len in *. lia.
  - intros e. apply Hraise.
  - intros index. split; [apply Hfret|]. intros [-> Ha]. by apply Hfacc.
  - intros H1 H2. unfold TheologyDocumentProcessor.build_faiss_index.
    by rewrite !bool_decide_eq_false_2.
Qed.

Lemma build_faiss_index_after_vectorize_witness :
  exists vectors,
    TheologyDocumentProcessor.vectorize_documents length_encoder two_chunks 64
    = Ok vectors /\
    TheologyDocumentProcessor.build_faiss_index (H := strict_faiss) vectors
      (py "IVF_PQ")
    = Raise (PyError (py "RuntimeError")) /\
    TheologyDocumentProcessor.build_faiss_index (H := strict_faiss) vectors
      (py "FLAT")
    = Ok (faiss.IndexFlatIP 1) /\
    TheologyDocumentProcessor.build_faiss_index (H := strict_faiss) vectors
      (py "HNSW")
    = Raise ValueError.
Proof.
  destruct (build_faiss_index_after_vectorize (H := strict_faiss)
              length_encoder (fun s => [inject_Z (len s)]) 1 two_chunks 64
              (py "HNSW"))
    as (vectors & Hv & Hn & _ & _ & Htrain & Hflat & Hother).
  - exact length_encoder_pointwise.
  - lia.
  - done.
  - exists vectors. split; [exact Hv|]. split; [|split].
    + apply Htrain; [reflexivity|reflexivity|].
      cbn [index_train strict_faiss]. by rewrite Hn.
    + apply Hflat. by split.
    + apply Hother; by vm_compute.
Defined.

(** ** Loading a directory ([main.py]) *)

Section loader_facts.
Context `{Hashlib} `{StrLower}.

(** The chunks that one file contributes. *)
Definition file_chunks (self : DocumentProcessor.t) (f : DocumentProcessor.file)
    : list DocumentProcessor.DocumentChunk :=
  DocumentProcessor.load_body self [] f.

Lemma load_body_app (self : DocumentProcessor.t)
    (chunks : list DocumentProcessor.DocumentChunk) (f : DocumentProcessor.file) :
  DocumentProcessor.load_body self chunks f = chunks ++ file_chunks self f.
Proof.
  unfold file_chunks, DocumentProcessor.load_body.
  destruct (bool_decide _); [|by rewrite app_nil_r].
  destruct (DocumentProcessor.file_text f) as [text|]; [|by rewrite app_nil_r].
  destruct (DocumentProcessor.chunk_document self text _); [done|].
  by rewrite app_nil_r.
Qed.

Lemma load_fold (self : DocumentProcessor.t)
    (files : list DocumentProcessor.file)
    (chunks : list DocumentProcessor.DocumentChunk) :
  fold_left (DocumentProcessor.load_body self) files chunks
  = chunks ++ concat (file_chunks self <$> files).
Proof.
  induction files as [|f files IH] in chunks |- *; simpl.
  - by rewrite app_nil_r.
  - by rewrite IH, load_body_app, <- app_assoc.
Qed.

Lemma load_some (self : DocumentProcessor.t)
    (files : list DocumentProcessor.file) :
  DocumentProcessor.load_documents_from_directory self (Some files)
  = concat (file_chunks self <$> files).
Proof. unfold DocumentProcessor.load_documents_from_directory. by rewrite load_fold. Qed.

Lemma file_chunks_skipped (self : DocumentProcessor.t)
    (f : DocumentProcessor.file) :
  lower (DocumentProcessor.suffix f) ∉ DocumentProcessor.supported_formats \/
  DocumentProcessor.file_text f = None ->
  file_chunks self f = [].
Proof.
  unfold file_chunks, DocumentProcessor.load_body. intros [Hs|Hr].
  - by rewrite bool_decide_eq_false_2.
  - rewrite Hr. by destruct (bool_decide _).
Qed.
End loader_facts.

(** X9.  [load_documents_from_directory] of [main.py] never fails on a file:
    a file whose suffix (in lower case) is not [.txt], [.md] or [.json], or
    that cannot be read, changes nothing in the result, wherever it stands;
    the chunks of a listing are those of its first part followed by those of
    its second part; a directory that does not exist gives no chunk. *)
Theorem load_documents_skips_bad_files `{Hashlib} `{StrLower}
    (self : DocumentProcessor.t)
    (before after : list DocumentProcessor.file) (f : DocumentProcessor.file) :
  (lower (DocumentProcessor.suffix f) ∉ DocumentProcessor.supported_formats \/
   DocumentProcessor.file_text f = None ->
   DocumentProcessor.load_documents_from_directory self
     (Some (before ++ f :: after))
   = DocumentProcessor.load_documents_from_directory self
       (Some (before ++ after))) /\
  DocumentProcessor.load_documents_from_directory self (Some (before ++ after))
  = DocumentProcessor.load_documents_from_directory self (Some before)
    ++ DocumentProcessor.load_documents_from_directory self (Some after) /\
  DocumentProcessor.load_documents_from_directory self None = [].
Proof.
  split; [|split; [|done]].
  - intros Hbad. rewrite !load_some, !fmap_app, !concat_app, fmap_cons.
    cbn [concat]. by rewrite (file_chunks_skipped self f Hbad).
  - by rewrite !load_some, fmap_app, concat_app.
Qed.

(** A readable text file, a file that cannot be read, and an image. *)
Definition note_file : DocumentProcessor.file :=
  {| DocumentProcessor.file_path := py "notes/grace.TXT";
     DocumentProcessor.suffix := py ".TXT";
     DocumentProcessor.file_text := Some (repeat 97%N 600) |}.

Definition locked_file : DocumentProcessor.file :=
  {| DocumentProcessor.file_path := py "notes/locked.md";
     DocumentProcessor.suffix := py ".md";
     DocumentProcessor.file_text := None |}.

Lemma load_documents_skips_bad_files_witness :
  DocumentProcessor.load_documents_from_directory (H := plain_digest)
    (H0 := ascii_lower) DocumentProcessor.init
    (Some ([note_file] ++ locked_file :: [note_file]))
  = DocumentProcessor.load_documents_from_directory (H := plain_digest)
      (H0 := ascii_lower) DocumentProcessor.init
      (Some ([note_file] ++ [note_file])).
Proof.
  destruct (load_documents_skips_bad_files (H := plain_digest)
              (H0 := ascii_lower) DocumentProcessor.init
              [note_file] [note_file] locked_file) as (Hskip & _ & _).
  apply Hskip. right. reflexivity.
Defined.

(** X10.  With a stride that is not positive, [load_documents_from_directory]
    of [main.py] returns no chunk for any directory, and raises nothing: the
    [ValueError] that [chunk_document] raises for a zero stride is caught
    for every file. *)
Theorem load_documents_swallows_bad_stride `{Hashlib} `{StrLower}
    (self : DocumentProcessor.t)
    (directory : option (list DocumentProcessor.file)) :
  DocumentProcessor.chunk_size self <= DocumentProcessor.overlap self ->
  DocumentProcessor.load_documents_from_directory self directory = [].
Proof.
  intros Hle. destruct directory as [files|]; [|done].
  rewrite load_some.
  assert (Hfile : forall f, file_chunks self f = []).
  { intros f. unfold file_chunks, DocumentProcessor.load_body.
    destruct (bool_decide _); [|done].
    destruct (DocumentProcessor.file_text f) as [text|]; [|done].
    unfold DocumentProcessor.chunk_document.
    destruct (decide (DocumentProcessor.chunk_size self
                      = DocumentProcessor.overlap self)) as [E|E].
    - rewrite E, Z.sub_diag. done.
    - rewrite py_range_negative_step by (unfold len; lia). done. }
  induction files as [|f files IH]; [done|].
  rewrite fmap_cons. cbn [concat]. by rewrite Hfile, IH.
Qed.

Lemma load_documents_swallows_bad_stride_witness :
  DocumentProcessor.load_documents_from_directory (H := plain_digest)
    (H0 := ascii_lower)
    {| DocumentProcessor.chunk_size := 50; DocumentProcessor.overlap := 50 |}
    (Some [note_file; locked_file])
  = [].
Proof.
  apply (load_documents_swallows_bad_stride (H := plain_digest)
           (H0 := ascii_lower)).
  simpl. lia.
Defined.

(** The documents that a build stores for the chunks of a directory: the
    chunks, or the ten samples when there is none. *)
Definition stored_documents (chunks : list DocumentProcessor.DocumentChunk)
    : list DocumentProcessor.DocumentChunk :=
  match chunks with
  | [] => imap VectorSearchEngine.sample_chunk VectorSearchEngine.sample_documents
  | _ => chunks
  end.

(** X11.  [build_index_from_documents] of [main.py], with an encoder that
    embeds each text on its own.  The documents it stores are the chunks of
    the directory, or the ten samples when the directory gives no chunk (it
    does not exist, holds no supported readable file, or only texts too
    short).  When it returns there is exactly one vector per stored
    document, at the same position, the embedding of its text, and the index
    was asked with 1024 clusters however few the documents.  It returns when
    the bindings accept that index and, for chunks of the directory, the
    index and the documents can be written to disk.  With bindings that
    refuse to train on fewer vectors than clusters it raises whenever fewer
    than 1024 documents would be stored, so always when the samples are
    used. *)
Theorem build_index_aligned `{Hashlib} `{StrLower} `{Faiss}
    (encode : list str -> ndarray)
    (persist : faiss.Index -> list DocumentProcessor.DocumentChunk
               -> result unit)
    (embed : str -> list Q) (dimension : Z)
    (directory : option (list DocumentProcessor.file)) :
  pointwise encode embed dimension ->
  let chunks :=
    DocumentProcessor.load_documents_from_directory DocumentProcessor.init
      directory in
  let documents := stored_documents chunks in
  let vectors := embed ∘ DocumentProcessor.content <$> documents in
  let index := faiss.IndexIVFPQ dimension 1024 96 8 in
  (forall b,
     VectorSearchEngine.build_index_from_documents encode persist directory
     = Ok b ->
     b = VectorSearchEngine.Built vectors index documents) /\
  (accepts index vectors ->
   (chunks <> [] -> persist index chunks = Ok tt) ->
   VectorSearchEngine.build_index_from_documents encode persist directory
   = Ok (VectorSearchEngine.Built vectors index documents)) /\
  (refuses_few_vectors -> len documents < 1024 ->
   exists e,
     VectorSearchEngine.build_index_from_documents encode persist directory
     = Raise e) /\
  (chunks = [] -> len documents = 10).
Proof.
  intros Hp chunks documents vectors index.
  assert (Hstep :
    VectorSearchEngine.build_index_from_documents encode persist directory
    = bind (FAISSIndexManager.train_and_add_vectors vectors)
        (fun index' =>
           match chunks with
           | [] => Ok (VectorSearchEngine.Built vectors index' documents)
           | _ =>
               bind (persist index' chunks)
                 (fun _ => Ok (VectorSearchEngine.Built vectors index'
                                 documents))
           end)).
  { unfold VectorSearchEngine.build_index_from_documents.
    fold chunks. unfold vectors, documents.
    destruct chunks as [|c chunks'] eqn:Ec.
    - unfold VectorSearchEngine.build_sample_index, stored_documents.
      destruct Hp as [Henc _]. by rewrite Henc, <- list_fmap_compose.
    - unfold stored_documents.
      rewrite py_range_pos by lia. cbn [bind].
      rewrite (vstack_batches encode embed dimension) by done.
      cbn [bind]. by rewrite <- list_fmap_compose. }
  assert (Hd : shape1 vectors = dimension).
  { unfold vectors, documents, stored_documents.
    destruct chunks as [|c chunks']; unfold shape1; simpl; apply Hp. }
  destruct (train_and_add_vectors_nlist vectors) as [Hret Hacc].
  rewrite Hd in Hret, Hacc. fold index in Hret, Hacc.
  split; [|split; [|split]].
  - intros b. rewrite Hstep. unfold bind.
    destruct (FAISSIndexManager.train_and_add_vectors vectors)
      as [index'|e] eqn:Et; [|done].
    destruct (Hret index' eq_refl) as [-> _].
    destruct chunks as [|c chunks']; [by intros [= <-]|].
    destruct (persist _ _); [|done]. by intros [= <-].
  - intros Ha Hw. rewrite Hstep, (Hacc Ha). unfold bind.
    destruct chunks as [|c chunks']; [done|]. by rewrite Hw.
  - intros Href Hfew. rewrite Hstep.
    destruct (train_and_add_vectors_few vectors Href) as [e He].
    { unfold vectors, shape0, len in *. by rewrite length_fmap. }
    exists e. by rewrite He.
  - intros Hc. unfold documents. by rewrite Hc.
Qed.

Lemma build_index_aligned_witness :
  (exists e,
     VectorSearchEngine.build_index_from_documents (H := plain_digest)
       (H0 := ascii_lower) (H1 := strict_faiss) length_encoder
       (fun _ _ => Ok tt) (Some [note_file])
     = Raise e) /\
  (exists documents,
     VectorSearchEngine.build_index_from_documents (H := plain_digest)
       (H0 := ascii_lower) (H1 := lenient_faiss) length_encoder
       (fun _ _ => Ok tt) (Some [note_file])
     = Ok (VectorSearchEngine.Built
             ((fun s => [inject_Z (len s)]) ∘ DocumentProcessor.content
              <$> documents)
             (faiss.IndexIVFPQ 1 1024 96 8) documents) /\
     len documents = 2).
Proof.
  split.
  - destruct (build_index_aligned (H := plain_digest) (H0 := ascii_lower)
                (H1 := strict_faiss) length_encoder (fun _ _ => Ok tt)
                (fun s => [inject_Z (len s)]) 1 (Some [note_file])
                length_encoder_pointwise) as (_ & _ & Hraise & _).
    apply Hraise; [exact strict_faiss_refuses | by vm_compute].
  - destruct (build_index_aligned (H := plain_digest) (H0 := ascii_lower)
                (H1 := lenient_faiss) length_encoder (fun _ _ => Ok tt)
                (fun s => [inject_Z (len s)]) 1 (Some [note_file])
                length_encoder_pointwise) as (_ & Hok & _ & _).
    eexists. split.
    + apply Hok; [apply lenient_faiss_accepts | done].
    + by vm_compute.
Defined.

(** ** Text of a JSON object ([data_processor.py]) *)

Lemma omap_ext_elem {A B} (f g : A -> option B) (l : list A) :
  (forall x, x ∈ l -> f x = g x) -> omap f l = omap g l.
Proof.
  induction l as [|x l IH]; intros Hfg; simpl; [done|].
  assert (Hl : omap f l = omap g l).
  { apply IH. intros y Hy. apply Hfg. by right. }
  rewrite (Hfg x) by left. destruct (g x); [f_equal|]; exact Hl.
Qed.

Lemma extract_from_fields (data : list (str * value)) :
  TheologyDocumentProcessor.field_parts data <> [] ->
  TheologyDocumentProcessor.extract_text_from_dict data
  = join (py " ") (TheologyDocumentProcessor.field_parts data).
Proof.
  intros Hne. unfold TheologyDocumentProcessor.extract_text_from_dict.
  by destruct (TheologyDocumentProcessor.field_parts data).
Qed.

(** X12.  When one of the fields [text], [content], [body], [description],
    [title], [name], [summary] of an object holds a string,
    [extract_text_from_dict] returns the strings of these fields, in this
    order, separated by blanks; no other field and no reordering of the
    object changes the result: two objects that agree on these seven fields
    give the same text. *)
Theorem extract_text_uses_standard_fields (data data' : list (str * value)) :
  (exists field s,
     field ∈ TheologyDocumentProcessor.text_fields /\
     assoc_get data field = Some (VStr s)) ->
  (forall field, field ∈ TheologyDocumentProcessor.text_fields ->
     assoc_get data field = assoc_get data' field) ->
  TheologyDocumentProcessor.extract_text_from_dict data
  = join (py " ") (TheologyDocumentProcessor.field_parts data) /\
  TheologyDocumentProcessor.extract_text_from_dict data'
  = TheologyDocumentProcessor.extract_text_from_dict data.
Proof.
  intros (field & s & Hin & Hs) Hagree.
  assert (Hne : TheologyDocumentProcessor.field_parts data <> []).
  { unfold TheologyDocumentProcessor.field_parts. intros Hnil.
    assert (Hs' : s ∈ omap (fun field =>
                match assoc_get data field with
                | Some (VStr s) => Some s
                | _ => None
                end) TheologyDocumentProcessor.text_fields).
    { apply list_elem_of_omap. exists field. split; [done|]. by rewrite Hs. }
    rewrite Hnil in Hs'. by apply elem_of_nil in Hs'. }
  assert (Hsame : TheologyDocumentProcessor.field_parts data'
                  = TheologyDocumentProcessor.field_parts data).
  { unfold TheologyDocumentProcessor.field_parts. apply omap_ext_elem.
    intros f Hf. by rewrite (Hagree f Hf). }
  split; [by apply extract_from_fields|].
  rewrite !extract_from_fields; [by rewrite Hsame | done | by rewrite Hsame].
Qed.

(** An object with a title and a body, and the same with its fields in
    another order and a page count. *)
Definition titled_object : list (str * value) :=
  [(py "title", VStr (py "On Grace")); (py "body", VStr (py "Grace is free."))].

Definition titled_object' : list (str * value) :=
  [(py "pages", VInt 12); (py "body", VStr (py "Grace is free."));
   (py "title", VStr (py "On Grace"))].

Lemma extract_text_uses_standard_fields_witness :
  TheologyDocumentProcessor.extract_text_from_dict titled_object
  = py "Grace is free. On Grace" /\
  TheologyDocumentProcessor.extract_text_from_dict titled_object'
  = TheologyDocumentProcessor.extract_text_from_dict titled_object.
Proof.
  destruct (extract_text_uses_standard_fields titled_object titled_object')
    as [Hfields Hsame].
  - exists (py "title"), (py "On Grace").
    split; [by apply (bool_decide_unpack _) | reflexivity].
  - intros field Hf.
    repeat (apply elem_of_cons in Hf as [->|Hf]; [reflexivity|]).
    by apply elem_of_nil in Hf.
  - split; [rewrite Hfields; reflexivity | exact Hsame].
Defined.

Lemma lstrip_blanks (n : nat) : lstrip (repeat 32%N n) = [].
Proof. induction n as [|n IH]; [done|]. simpl. exact IH. Qed.

Lemma join_empty_parts (parts : list str) :
  Forall (fun p => p = []) parts ->
  exists n, join (py " ") parts = repeat 32%N n.
Proof.
  induction parts as [|p parts IH]; intros Hall.
  - by exists 0%nat.
  - apply Forall_cons in Hall as [-> Hall].
    destruct (IH Hall) as [n Hn]. destruct parts as [|q parts].
    + by exists 0%nat.
    + exists (S n).
      change (join (py " ") ([] :: q :: parts))
        with ([] ++ py " " ++ join (py " ") (q :: parts)).
      rewrite Hn. reflexivity.
Qed.

Lemma omap_none {A B} (f : A -> option B) (l : list A) :
  (forall x, x ∈ l -> f x = None) -> omap f l = [].
Proof.
  induction l as [|x l IH]; intros Hf; simpl; [done|].
  rewrite (Hf x) by left. apply IH. intros y Hy. apply Hf. by right.
Qed.

Lemma assoc_get_elem_of {V} (data : list (str * V)) (k : str) (v : V) :
  assoc_get data k = Some v -> (k, v) ∈ data.
Proof.
  induction data as [|[k' v'] data IH]; simpl; [done|].
  case_bool_decide; subst.
  - intros [= ->]. left.
  - intros Hg. right. by apply IH.
Qed.

Lemma field_parts_elem (data : list (str * value)) (s : str) :
  s ∈ TheologyDocumentProcessor.field_parts data <->
  exists field, field ∈ TheologyDocumentProcessor.text_fields /\
                assoc_get data field = Some (VStr s).
Proof.
  unfold TheologyDocumentProcessor.field_parts. rewrite list_elem_of_omap.
  split; intros (field & Hin & Hs); exists field; (split; [done|]).
  - destruct (assoc_get data field) as [[| |]|]; by simplify_eq.
  - by rewrite Hs.
Qed.

(** X13.  The length test of [extract_text_from_dict] applies only when none
    of the seven usual fields holds a string.  If one of them holds a string
    and all the strings they hold are empty, the text returned is blank (it
    trims to nothing), whatever the other fields hold. *)
Theorem extract_text_empty_field_wins (data : list (str * value)) :
  (exists field,
     field ∈ TheologyDocumentProcessor.text_fields /\
     assoc_get data field = Some (VStr [])) ->
  (forall field s, field ∈ TheologyDocumentProcessor.text_fields ->
     assoc_get data field = Some (VStr s) -> s = []) ->
  strip (TheologyDocumentProcessor.extract_text_from_dict data) = [].
Proof.
  intros Hfield Hall.
  assert (Hne : TheologyDocumentProcessor.field_parts data <> []).
  { intros Hnil. apply field_parts_elem in Hfield.
    rewrite Hnil in Hfield. by apply elem_of_nil in Hfield. }
  rewrite extract_from_fields by done.
  destruct (join_empty_parts (TheologyDocumentProcessor.field_parts data))
    as [n ->].
  { apply Forall_forall. intros s Hs.
    apply field_parts_elem in Hs as (field & Hin & Hs). by eapply Hall. }
  unfold strip. by rewrite lstrip_blanks.
Qed.

(** An object whose title is empty and whose notes are long. *)
Definition untitled_object : list (str * value) :=
  [(py "title", VStr []);
   (py "notes", VStr (py "A long remark on the doctrine of grace."))].

Lemma extract_text_empty_field_wins_witness :
  strip (TheologyDocumentProcessor.extract_text_from_dict untitled_object) = [].
Proof.
  apply extract_text_empty_field_wins.
  - exists (py "title"). split; [by apply (bool_decide_unpack _) | reflexivity].
  - intros field s Hf.
    repeat (apply elem_of_cons in Hf as [->|Hf];
            [by (vm_compute; intros [= <-]) || by vm_compute|]).
    by apply elem_of_nil in Hf.
Defined.

(** X14.  When no string of an object stands under one of the seven usual
    fields and every string it holds trims to ten characters or fewer (in
    particular when it holds no string at all), [extract_text_from_dict]
    returns the empty text. *)
Theorem extract_text_nothing_to_extract (data : list (str * value)) :
  (forall k s, (k, VStr s) ∈ data ->
     (k ∉ TheologyDocumentProcessor.text_fields) /\ len (strip s) <= 10) ->
  TheologyDocumentProcessor.extract_text_from_dict data = [].
Proof.
  intros Hall. unfold TheologyDocumentProcessor.extract_text_from_dict.
  assert (Hf : TheologyDocumentProcessor.field_parts data = []).
  { apply omap_none. intros field Hin.
    destruct (assoc_get data field) as [[| s |]|] eqn:E; try done.
    apply assoc_get_elem_of in E. by destruct (Hall field s E). }
  assert (Hs : TheologyDocumentProcessor.string_parts data = []).
  { apply omap_none. intros [k v] Hin. simpl.
    destruct v as [| s |]; try done.
    destruct (Hall k s Hin) as [_ Hlen].
    destruct (10 <? len (strip s)) eqn:E; [lia|done]. }
  by rewrite Hf, Hs.
Qed.

(** An object with a number and a short remark. *)
Definition sparse_object : list (str * value) :=
  [(py "pages", VInt 12); (py "note", VStr (py "  see p. 3 "))].

Lemma extract_text_nothing_to_extract_witness :
  TheologyDocumentProcessor.extract_text_from_dict sparse_object = [].
Proof.
  apply extract_text_nothing_to_extract.
  intros k s Hin.
  apply elem_of_cons in Hin as [[= -> ->]|Hin]. 
  apply elem_of_cons in Hin as [[= -> ->]|Hin]; [|by apply elem_of_nil in Hin].
  split; [by apply (bool_decide_unpack _) | by vm_compute].
Defined.

(** ** The cache: round trip, frame and well-formedness *)

Section cache_round_trip.
Context `{Hashlib} `{StrLower} {Data : Type}.
Implicit Types (self : CacheManager.t Data).

(** With a capacity of at least one, [set] never raises. *)
Lemma evict_ok self :
  0 < CacheManager.max_size self ->
  exists c, CacheManager.evict self = Ok c /\
    (len (CacheManager.cache self) < CacheManager.max_size self ->
     c = CacheManager.cache self) /\
    (CacheManager.max_size self <= len (CacheManager.cache self) ->
     exists (n : nat) k e,
       oldest_at (CacheManager.cache self) n k e /\
       c = CacheManager.dict_del (CacheManager.cache self) k).
Proof.
  intros Hpos.
  destruct (decide (len (CacheManager.cache self) < CacheManager.max_size self))
    as [Hlt|Hge].
  - exists (CacheManager.cache self). split; [by apply evict_below|].
    split; [done|lia].
  - destruct (evict_full self) as (n & k & e & Hold & Hev);
      [lia | apply len_nonempty; lia |].
    eexists. split; [exact Hev|]. split; [lia|]. intros _. by exists n, k, e.
Qed.

Lemma dict_set_keys (d : CacheManager.dict Data) k e :
  CacheManager.keys (CacheManager.dict_set d k e)
  = if decide (k ∈ CacheManager.keys d) then CacheManager.keys d
    else CacheManager.keys d ++ [k].
Proof.
  unfold CacheManager.keys.
  induction d as [|[k' e'] d IH].
  - cbn [CacheManager.dict_set]. rewrite fmap_nil.
    case_decide as Hin; [by apply elem_of_nil in Hin|done].
  - cbn [CacheManager.dict_set]. rewrite fmap_cons. cbn [fst].
    case_bool_decide; subst.
    + by rewrite decide_True by left.
    + rewrite fmap_cons. cbn [fst]. rewrite IH.
      destruct (decide (k ∈ fst <$> d)) as [Hin|Hin].
      * by rewrite decide_True by by right.
      * rewrite decide_False; [done|]. by intros [->|?]%elem_of_cons.
Qed.

Lemma dict_set_wf (d : CacheManager.dict Data) k e :
  CacheManager.dict_wf d -> CacheManager.dict_wf (CacheManager.dict_set d k e).
Proof.
  unfold CacheManager.dict_wf. rewrite dict_set_keys.
  case_decide as Hin; [done|]. intros Hwf.
  apply NoDup_app. split; [done|]. split; [|apply NoDup_singleton].
  intros x Hx [->|[]%elem_of_nil]%elem_of_cons. done.
Qed.
End cache_round_trip.

(** X15.  With a capacity of at least one, [set] does not raise, and a
    [get] that follows it with a query of the same key returns the data just
    stored while the entry is younger than the duration; once its age has
    reached the duration the [get] returns nothing and the key is gone. *)
Theorem set_then_get `{Hashlib} `{StrLower} {Data : Type}
    (self : CacheManager.t Data) (query query' : str) (payload : Data)
    (now now' : Q) :
  0 < CacheManager.max_size self ->
  CacheManager._get_cache_key query' = CacheManager._get_cache_key query ->
  exists self',
    CacheManager.set self query payload now = Ok self' /\
    ((now' - now < inject_Z (CacheManager.duration self))%Q ->
     CacheManager.get self' query' now' = (Some payload, self')) /\
    ((inject_Z (CacheManager.duration self) <= now' - now)%Q ->
     exists self'',
       CacheManager.get self' query' now' = (None, self'') /\
       CacheManager._get_cache_key query
         ∉ CacheManager.keys (CacheManager.cache self'')).
Proof.
  intros Hpos Hkey.
  destruct (evict_ok self Hpos) as (c & Hev & _).
  unfold CacheManager.set. rewrite Hev. eexists. split; [reflexivity|].
  unfold CacheManager.get. rewrite Hkey. simpl. rewrite dict_set_get. simpl.
  split.
  - intros Hage. apply Qltb_lt in Hage. by rewrite Hage.
  - intros Hage. apply Qltb_ge in Hage. rewrite Hage.
    eexists. split; [reflexivity|]. simpl. apply dict_del_not_in.
Qed.

Lemma set_then_get_witness :
  exists self',
    CacheManager.set (H := plain_digest) (H0 := ascii_lower)
      one_entry_cache (py "Grace") 9%nat 500 = Ok self' /\
    CacheManager.get (H := plain_digest) (H0 := ascii_lower)
      self' (py "  grace ") 600 = (Some 9%nat, self').
Proof.
  destruct (set_then_get (H := plain_digest) (H0 := ascii_lower)
              one_entry_cache (py "Grace") (py "  grace ") 9%nat 500%Q 600%Q)
    as (self' & Hset & Hfresh & _).
  - by vm_compute.
  - reflexivity.
  - exists self'. split; [exact Hset|]. apply Hfresh. by vm_compute.
Defined.

(** X16.  The keys of the cache stay pairwise distinct: a call of [set],
    whether it returns or raises, and a call of [get] both leave a cache
    with distinct keys when they find one; so does every manager along a
    sequence of calls of [set]. *)
Theorem cache_keys_stay_distinct `{Hashlib} `{StrLower} {Data : Type}
    (self : CacheManager.t Data) (calls : list (str * Data * Q))
    (query : str) (now : Q) :
  CacheManager.dict_wf (CacheManager.cache self) ->
  CacheManager.dict_wf (CacheManager.cache (CacheManager.get self query now).2) /\
  Forall (fun s => CacheManager.dict_wf (CacheManager.cache s))
         (CacheManager.set_trace self calls).
Proof.
  intros Hwf. split.
  - unfold CacheManager.get.
    destruct (CacheManager.dict_get _ _) as [e|]; [|done].
    destruct (Qltb _ _); [done|]. simpl. by apply dict_del_wf.
  - induction calls as [|call calls IH] in self, Hwf |- *; simpl; [constructor|].
    assert (Hstep : CacheManager.dict_wf
                      (CacheManager.cache (CacheManager.after_set self call))).
    { unfold CacheManager.after_set, CacheManager.set, CacheManager.evict.
      destruct (_ <=? _); [|by apply dict_set_wf].
      destruct (CacheManager.min_key _) as [k|]; [|done].
      simpl. by apply dict_set_wf, dict_del_wf. }
    constructor; [done|]. by apply IH.
Qed.

Lemma cache_keys_stay_distinct_witness :
  Forall (fun s => CacheManager.dict_wf (CacheManager.cache s))
         (CacheManager.set_trace (H := plain_digest) (H0 := ascii_lower)
            cache_a_b [(py "c", 3%nat, 3%Q); (py "A", 4%nat, 4%Q)]).
Proof.
  apply (cache_keys_stay_distinct (H := plain_digest) (H0 := ascii_lower)
           cache_a_b _ (py "a") 0%Q).
  unfold CacheManager.dict_wf. refine (bool_decide_unpack _ _). by vm_compute.
Defined.

(** X17.  With a capacity of at least one, [set] leaves every other entry
    as it is, except the one it evicts: below capacity every key other than
    the written one keeps its entry; at capacity every key other than the
    written one and the oldest one keeps its entry. *)
Theorem set_keeps_other_entries `{Hashlib} `{StrLower} {Data : Type}
    (self : CacheManager.t Data) (query : str) (payload : Data) (now : Q) :
  0 < CacheManager.max_size self ->
  exists self',
    CacheManager.set self query payload now = Ok self' /\
    CacheManager.max_size self' = CacheManager.max_size self /\
    CacheManager.duration self' = CacheManager.duration self /\
    (len (CacheManager.cache self) < CacheManager.max_size self ->
     forall k', k' <> CacheManager._get_cache_key query ->
       CacheManager.dict_get (CacheManager.cache self') k'
       = CacheManager.dict_get (CacheManager.cache self) k') /\
    (CacheManager.max_size self <= len (CacheManager.cache self) ->
     exists (n : nat) k e,
       oldest_at (CacheManager.cache self) n k e /\
       forall k', k' <> CacheManager._get_cache_key query -> k' <> k ->
         CacheManager.dict_get (CacheManager.cache self') k'
         = CacheManager.dict_get (CacheManager.cache self) k').
Proof.
  intros Hpos.
  destruct (evict_ok self Hpos) as (c & Hev & Hbelow & Hfull).
  unfold CacheManager.set. rewrite Hev. eexists. split; [reflexivity|].
  simpl. split; [done|]. split; [done|]. split.
  - intros Hlt k' Hne. rewrite (Hbelow Hlt).
    apply dict_set_get_ne. congruence.
  - intros Hge. destruct (Hfull Hge) as (n & k & e & Hold & ->).
    exists n, k, e. split; [done|]. intros k' Hne Hne'.
    rewrite dict_set_get_ne by congruence.
    apply dict_del_get_ne. congruence.
Qed.

Lemma set_keeps_other_entries_witness :
  exists self',
    CacheManager.set (H := plain_digest) (H0 := ascii_lower)
      one_entry_cache (py "faith") 9%nat 500 = Ok self' /\
    CacheManager.dict_get (CacheManager.cache self') (py "hello")
    = CacheManager.dict_get (CacheManager.cache one_entry_cache) (py "hello").
Proof.
  destruct (set_keeps_other_entries (H := plain_digest) (H0 := ascii_lower)
              one_entry_cache (py "faith") 9%nat 500%Q)
    as (self' & Hset & _ & _ & Hbelow & _).
  - by vm_compute.
  - exists self'. split; [exact Hset|]. apply Hbelow; by vm_compute.
Defined.

(** ** Retrieval: nothing relevant *)

Lemma zip_fst_Forall {A B} (P : A -> Prop) (l : list A) (k : list B) :
  Forall P l -> Forall (fun c => P c.1) (zip l k).
Proof.
  intros Hl. induction Hl as [|x l Hx Hl IH] in k |- *; simpl; [constructor|].
  destruct k as [|y k]; simpl; [constructor|].
  constructor; [done|]. apply IH.
Qed.

Lemma collect_below_threshold
    (documents : list DocumentProcessor.DocumentChunk)
    (candidates : list (Q * Z)) (acc : list VectorSearchEngine.doc) :
  Forall (fun c => (c.1 <= 3 # 10)%Q) candidates ->
  VectorSearchEngine.collect documents candidates acc = Ok acc.
Proof.
  induction 1 as [|[sc idx] cs Hsc Hcs IH]; simpl; [done|].
  simpl in Hsc. apply Qltb_ge in Hsc. rewrite Hsc, andb_false_r. exact IH.
Qed.

(** X18.  When the index answers the request for [2 * top_k] candidates and
    none of them scores above 0.3, [search] returns the empty list and
    raises nothing, whatever the positions of the candidates (negative or
    beyond the store).  When the index raises instead, as the bindings do
    for a [top_k] that is not positive, [search] raises the same
    exception. *)
Theorem search_nothing_relevant {vector : Type} (encode : str -> vector)
    (self : VectorSearchEngine.t)
    (ix : vector -> Z -> result (list Q * list Z)) (query : str) (top_k : Z)
    (start_time end_time : Q) :
  FAISSIndexManager.index (VectorSearchEngine.faiss_manager self) = Some ix ->
  (forall scores indices,
     ix (encode query) (top_k * 2) = Ok (scores, indices) ->
     Forall (fun sc => (sc <= 3 # 10)%Q) scores ->
     VectorSearchEngine.search encode self query top_k start_time end_time
     = Ok ([], (end_time - start_time)%Q)) /\
  (forall e,
     ix (encode query) (top_k * 2) = Raise e ->
     VectorSearchEngine.search encode self query top_k start_time end_time
     = Raise e).
Proof.
  intros Hix.
  unfold VectorSearchEngine.search, FAISSIndexManager.search. rewrite Hix.
  split.
  - intros scores indices -> Hlow.
    rewrite collect_below_threshold
      by by apply (zip_fst_Forall (fun sc => (sc <= 3 # 10)%Q)).
    unfold py_slice. by rewrite drop_nil, take_nil.
  - by intros e ->.
Qed.

(** An engine over three chunks whose index finds nothing close: every
    candidate scores 0.1, at positions 7 and -1. *)
Definition far_engine : VectorSearchEngine.t (vector := unit) :=
  {| VectorSearchEngine.faiss_manager :=
       {| FAISSIndexManager.index :=
            Some (answering [1 # 10; 1 # 10] [7; -1]) |};
     VectorSearchEngine.documents := three_chunks |}.

Lemma search_nothing_relevant_witness :
  VectorSearchEngine.search (fun _ => tt) far_engine (py "grace") 5 0 1
  = Ok ([], (1 - 0)%Q) /\
  VectorSearchEngine.search (fun _ => tt) far_engine (py "grace") 0 0 1
  = Raise (PyError (py "AssertionError")).
Proof.
  split.
  - destruct (search_nothing_relevant (fun _ => tt) far_engine
                (answering [1 # 10; 1 # 10] [7; -1]) (py "grace") 5 0 1
                eq_refl) as [Hnone _].
    apply (Hnone [1 # 10; 1 # 10] [7; -1]).
    + reflexivity.
    + repeat constructor; by vm_compute.
  - destruct (search_nothing_relevant (fun _ => tt) far_engine
                (answering [1 # 10; 1 # 10] [7; -1]) (py "grace") 0 0 1
                eq_refl) as [_ Hraise].
    apply Hraise. reflexivity.
Defined.

(** An engine over three chunks whose index returns positions 2, 0 and 5
    with scores 0.9, 0.6 and 0.5. *)
Definition near_engine : VectorSearchEngine.t (vector := unit) :=
  {| VectorSearchEngine.faiss_manager :=
       {| FAISSIndexManager.index :=
            Some (answering [9 # 10; 6 # 10; 5 # 10] [2; 0; 5]) |};
     VectorSearchEngine.documents := three_chunks |}.

(** An engine over three chunks whose index returns positions 0 and 1 with
    scores 0.4 and 0.35. *)
Definition lukewarm_engine : VectorSearchEngine.t (vector := unit) :=
  {| VectorSearchEngine.faiss_manager :=
       {| FAISSIndexManager.index :=
            Some (answering [4 # 10; 35 # 100] [0; 1]) |};
     VectorSearchEngine.documents := three_chunks |}.

Lemma search_without_negative_positions_witness :
  exists docs,
    VectorSearchEngine.search (fun _ => tt) near_engine (py "grace") 1 0 1
    = Ok (docs, (1 - 0)%Q) /\
    len docs <= 1 /\
    Forall (fun d => ((3 # 10) < VectorSearchEngine.score d)%Q) docs /\
    sublist (VectorSearchEngine.score <$> docs) [9 # 10; 6 # 10; 5 # 10].
Proof.
  apply (search_without_negative_positions (fun _ => tt) near_engine
           (answering [9 # 10; 6 # 10; 5 # 10] [2; 0; 5]) (py "grace") 1 0 1
           [9 # 10; 6 # 10; 5 # 10] [2; 0; 5]).
  - reflexivity.
  - reflexivity.
  - lia.
  - repeat constructor; lia.
Defined.

(** ** The request handler *)

(** A response as it is served from the cache. *)
Definition as_hit (r : SearchResponse) : SearchResponse :=
  {| answer := answer r;
     sources := sources r;
     search_time := search_time r;
     total_time := total_time r;
     cache_hit := true;
     confidence_score := confidence_score r |}.

(** The cache lookup with which [vector_search] starts: what it finds and
    the cache manager it leaves. *)
Definition after_lookup `{Hashlib} `{StrLower}
    (cache_manager : CacheManager.t SearchResponse)
    (request : SearchRequest) (now : readings)
    : option SearchResponse * CacheManager.t SearchResponse :=
  if use_cache request
  then CacheManager.get cache_manager (question request) (at_get now)
  else (None, cache_manager).

Section handler_facts.
Context `{Hashlib} `{StrLower} `{Float64} {vector : Type}.
Variable encode : str -> vector.
Variable generate_answer : str -> list VectorSearchEngine.doc -> Q -> str * Q.

Lemma vector_search_hit_path search_engine cache_manager request now r cm1 :
  after_lookup cache_manager request now = (Some r, cm1) ->
  vector_search encode generate_answer search_engine cache_manager request now
  = (Ok (as_hit r),
     mark_hit cm1 (CacheManager._get_cache_key (question request)) (as_hit r)).
Proof.
  unfold after_lookup, vector_search. by intros ->.
Qed.

(** What [vector_search] does after a lookup that found nothing. *)
Definition after_miss (search_engine : VectorSearchEngine.t)
    (cm1 : CacheManager.t SearchResponse) (request : SearchRequest)
    (now : readings) : result SearchResponse * CacheManager.t SearchResponse :=
  match VectorSearchEngine.search encode search_engine (question request)
          (top_k request) (at_search_start now) (at_search_end now) with
  | Raise e => (Raise (HTTPException 500), cm1)
  | Ok ([], st) =>
      (Ok {| answer := not_found_answer; sources := []; search_time := st;
             total_time := (at_total now - at_start now)%Q;
             cache_hit := false; confidence_score := 0%Q |}, cm1)
  | Ok (relevant_docs, st) =>
      let result :=
        {| answer := (generate_answer (question request) relevant_docs
                        (temperature request)).1;
           sources := relevant_docs;
           search_time := st;
           total_time := (at_total now - at_start now)%Q;
           cache_hit := false;
           confidence_score := confidence_of relevant_docs |} in
      if (use_cache request
          && Qltb (5 # 10) (confidence_of relevant_docs))%bool then
        match CacheManager.set cm1 (question request) result (at_set now) with
        | Raise e => (Raise (HTTPException 500), cm1)
        | Ok cm2 => (Ok result, cm2)
        end
      else (Ok result, cm1)
  end.

Lemma vector_search_miss_path search_engine cache_manager request now cm1 :
  after_lookup cache_manager request now = (None, cm1) ->
  vector_search encode generate_answer search_engine cache_manager request now
  = after_miss search_engine cm1 request now.
Proof.
  unfold after_lookup, vector_search, after_miss. intros ->.
  destruct (VectorSearchEngine.search _ _ _ _ _ _) as [[docs st]|e]; [|done].
  destruct docs as [|d docs]; [done|].
  by destruct (generate_answer _ _ _).
Qed.

Lemma after_lookup_cases cache_manager request now :
  (exists r cm1, after_lookup cache_manager request now = (Some r, cm1)) \/
  (exists cm1, after_lookup cache_manager request now = (None, cm1)).
Proof.
  destruct (after_lookup cache_manager request now) as [[r|] cm1].
  - left. by exists r, cm1.
  - right. by exists cm1.
Qed.
End handler_facts.

(** A response with confidence 0.84, and a cache that holds it under the key
    of ["grace"], stored at time 100. *)
Definition grace_response : SearchResponse :=
  {| answer := py "Grace is unmerited favour.";
     sources := two_docs;
     search_time := 1 # 100;
     total_time := 2;
     cache_hit := false;
     confidence_score := 84 # 100 |}.

Definition grace_cache : CacheManager.t SearchResponse :=
  {| CacheManager.cache :=
       [(py "grace", {| CacheManager.data := grace_response;
                        CacheManager.timestamp := 100 |})];
     CacheManager.max_size := Config.CACHE_SIZE;
     CacheManager.duration := Config.CACHE_DURATION |}.

Definition grace_request (cached : bool) : SearchRequest :=
  {| question := py " Grace ";
     top_k := 5;
     temperature := 7 # 10;
     use_cache := cached |}.

Definition some_readings : readings :=
  {| at_start := 200; at_get := 201; at_search_start := 202;
     at_search_end := 203; at_total := 204; at_set := 205 |}.

(** ** Confidence of a computed response *)

(** The float arithmetic rounds no number that is not negative below zero,
    and the sum of such numbers is not negative. *)
Definition keeps_sign `{Float64} : Prop :=
  (forall x, (0 <= x)%Q -> (0 <= fl x)%Q) /\
  (forall l, Forall (fun x => (0 <= x)%Q) l -> (0 <= fsum l)%Q).

Lemma exact_arithmetic_keeps_sign : keeps_sign (H := exact_arithmetic).
Proof.
  split; [done|]. intros l Hl. by apply py_sum_nonneg.
Qed.

Lemma pow2_pos (k : Z) : (0 < pow2 k)%Q.
Proof.
  unfold pow2. destruct (0 <=? k) eqn:E; [|done].
  apply Z.leb_le in E. unfold Qlt. simpl.
  pose proof (Z.pow_pos_nonneg 2 k). lia.
Qed.

Lemma round_half_even_nonneg (x : Q) : (0 <= x)%Q -> 0 <= round_half_even x.
Proof.
  intros Hx. unfold round_half_even.
  assert (Hf : 0 <= Qfloor x) by (by apply (Qfloor_resp_le 0 x)).
  destruct (_ ?= _)%Q; [destruct (Z.even _)|..]; lia.
Qed.

Lemma binary64_round_nonneg (x : Q) : (0 <= x)%Q -> (0 <= binary64_round x)%Q.
Proof.
  intros Hx. unfold binary64_round.
  destruct (Qeq_bool x 0); [done|].
  assert (E : Qle_bool 0 x = true) by by apply Qle_bool_iff.
  rewrite E.
  set (last_place := Z.max _ _).
  apply Qmult_le_0_compat; [|apply Qlt_le_weak, pow2_pos].
  change 0%Q with (inject_Z 0). rewrite <- Zle_Qle.
  apply round_half_even_nonneg.
  apply Qle_shift_div_l; [apply pow2_pos|].
  rewrite Qmult_0_l. apply Qabs_nonneg.
Qed.

Lemma binary64_keeps_sign : keeps_sign (H := binary64).
Proof.
  split; [apply binary64_round_nonneg|].
  intros l Hl. simpl.
  enough (Hgen : forall acc, (0 <= acc)%Q ->
            (0 <= fold_left (fun acc x => binary64_round (acc + x)) l acc)%Q)
    by apply Hgen, Qle_refl.
  induction Hl as [|x l Hx Hl IH]; intros acc Hacc; simpl; [done|].
  apply IH, binary64_round_nonneg.
  replace 0%Q with (0 + 0)%Q by done. by apply Qplus_le_compat.
Qed.

Section confidence_facts.
Context `{Float64}.

(** The mean of the scores, times 1.2, in float arithmetic. *)
Definition boosted_mean (docs : list VectorSearchEngine.doc) : Q :=
  fl (fl (fsum (VectorSearchEngine.score <$> docs) / inject_Z (len docs))
      * fl (12 # 10))%Q.

Lemma confidence_of_clamp (docs : list VectorSearchEngine.doc) :
  docs <> [] ->
  ((boosted_mean docs <= 1)%Q -> confidence_of docs = boosted_mean docs) /\
  ((1 < boosted_mean docs)%Q -> confidence_of docs = 1%Q).
Proof.
  intros Hne. destruct docs as [|d ds]; [done|].
  unfold confidence_of. fold (boosted_mean (d :: ds)).
  destruct (py_min_cases (boosted_mean (d :: ds)) 1) as [[Hle ->]|[Hlt ->]].
  - split; [done|]. intros Hgt. by apply Qlt_not_le in Hgt.
  - split; [|done]. intros Hle. by apply Qlt_not_le in Hlt.
Qed.

Lemma confidence_of_range (docs : list VectorSearchEngine.doc) :
  keeps_sign ->
  Forall (fun d => ((3 # 10) < VectorSearchEngine.score d)%Q) docs ->
  (0 <= confidence_of docs <= 1)%Q.
Proof.
  intros [Hfl Hsum] Hall. destruct docs as [|d ds]; [done|].
  unfold confidence_of.
  set (scores := VectorSearchEngine.score <$> d :: ds).
  set (b := fl (fl (fsum scores / inject_Z (len (d :: ds))) * fl (12 # 10))%Q).
  assert (Hb : (0 <= b)%Q).
  { apply Hfl, Qmult_le_0_compat; [|by apply Hfl].
    apply Hfl, Qle_shift_div_l.
    - unfold len. simpl length. unfold Qlt. simpl. lia.
    - rewrite Qmult_0_l. apply Hsum.
      apply Forall_fmap. eapply Forall_impl; [exact Hall|].
      intros x Hx. simpl. apply Qlt_le_weak.
      eapply Qlt_trans; [|exact Hx]. done. }
  destruct (py_min_cases b 1) as [[Hle ->]|[Hlt ->]]; by split.
Qed.
End confidence_facts.

(** What [search] returns scores above 0.3. *)
Lemma collect_scores_above
    (documents : list DocumentProcessor.DocumentChunk)
    (candidates : list (Q * Z)) (acc docs : list VectorSearchEngine.doc) :
  VectorSearchEngine.collect documents candidates acc = Ok docs ->
  Forall (fun d => ((3 # 10) < VectorSearchEngine.score d)%Q) acc ->
  Forall (fun d => ((3 # 10) < VectorSearchEngine.score d)%Q) docs.
Proof.
  induction candidates as [|[sc idx] cs IH] in acc |- *; simpl.
  - by intros [= <-].
  - destruct ((idx <? len documents) && Qltb (3 # 10) sc)%bool eqn:E;
      [|apply IH].
    apply andb_true_iff in E as [_ Hsc]. apply Qltb_lt in Hsc.
    destruct (py_index documents idx) as [d|e]; [|done].
    intros Hc Hacc. apply (IH _ Hc).
    apply Forall_app. split; [done|]. by repeat constructor.
Qed.

Lemma search_scores_above {vector : Type} (encode : str -> vector)
    (self : VectorSearchEngine.t) (query : str) (top_k : Z)
    (start_time end_time : Q) (docs : list VectorSearchEngine.doc) (st : Q) :
  VectorSearchEngine.search encode self query top_k start_time end_time
  = Ok (docs, st) ->
  Forall (fun d => ((3 # 10) < VectorSearchEngine.score d)%Q) docs.
Proof.
  unfold VectorSearchEngine.search.
  destruct (FAISSIndexManager.search _ _ _) as [[scores indices]|e]; [|done].
  destruct (VectorSearchEngine.collect _ _ _) as [found|e] eqn:Ec; [|done].
  intros [= <- _]. apply py_slice_Forall.
  by apply (collect_scores_above _ _ _ _ Ec).
Qed.

Lemma after_lookup_max_size `{Hashlib} `{StrLower}
    (cache_manager : CacheManager.t SearchResponse)
    (request : SearchRequest) (now : readings) :
  CacheManager.max_size (after_lookup cache_manager request now).2
  = CacheManager.max_size cache_manager.
Proof.
  unfold after_lookup, CacheManager.get.
  destruct (use_cache request); [|done].
  destruct (CacheManager.dict_get _ _) as [e|]; [|done].
  by destruct (Qltb _ _).
Qed.

(** C5.  When [vector_search], with a cache of capacity at least one, does
    not answer from the cache and the search returns documents, the
    response cites these documents and its confidence is, in float
    arithmetic, the mean of their scores (their sum over their number)
    times 1.2 when that does not exceed 1, and 1 otherwise.  When the search
    returns no document the confidence is exactly 0.  Every document that
    [search] returns scores above 0.3, so with float arithmetic that rounds
    no number that is not negative below zero the confidence lies between 0
    and 1. *)
Theorem confidence_score_spec `{Hashlib} `{StrLower} `{Float64}
    {vector : Type} (encode : str -> vector)
    (generate_answer : str -> list VectorSearchEngine.doc -> Q -> str * Q)
    (search_engine : VectorSearchEngine.t)
    (cache_manager : CacheManager.t SearchResponse)
    (request : SearchRequest) (now : readings)
    (docs : list VectorSearchEngine.doc) (search_time : Q) :
  0 < CacheManager.max_size cache_manager ->
  (after_lookup cache_manager request now).1 = None ->
  VectorSearchEngine.search encode search_engine (question request)
    (top_k request) (at_search_start now) (at_search_end now)
  = Ok (docs, search_time) ->
  let mean := fl (fsum (VectorSearchEngine.score <$> docs)
                  / inject_Z (len docs))%Q in
  let boosted := fl (mean * fl (12 # 10))%Q in
  exists response cache_manager',
    vector_search encode generate_answer search_engine cache_manager
      request now = (Ok response, cache_manager') /\
    sources response = docs /\
    cache_hit response = false /\
    (docs = [] -> confidence_score response = 0%Q) /\
    (docs <> [] ->
     ((boosted <= 1)%Q -> confidence_score response = boosted) /\
     ((1 < boosted)%Q -> confidence_score response = 1%Q)) /\
    Forall (fun d => ((3 # 10) < VectorSearchEngine.score d)%Q) docs /\
    (keeps_sign -> (0 <= confidence_score response <= 1)%Q).
Proof.
  intros Hsize Hmiss Hsearch mean boosted.
  pose proof (after_lookup_max_size cache_manager request now) as Hmax.
  destruct (after_lookup cache_manager request now) as [cached cm1] eqn:Hlook.
  simpl in Hmiss, Hmax. subst cached.
  rewrite (vector_search_miss_path _ _ _ _ _ _ _ Hlook). unfold after_miss.
  rewrite Hsearch.
  pose proof (search_scores_above _ _ _ _ _ _ _ _ Hsearch) as Habove.
  destruct docs as [|d docs].
  { eexists _, _. split; [reflexivity|]. simpl. by repeat split. }
  assert (Hfields : forall cm2 : CacheManager.t SearchResponse,
    exists response cache_manager',
      (Ok {| answer := (generate_answer (question request) (d :: docs)
                          (temperature request)).1;
             sources := d :: docs;
             search_time := search_time;
             total_time := (at_total now - at_start now)%Q;
             cache_hit := false;
             confidence_score := confidence_of (d :: docs) |}, cm2)
      = (Ok response, cache_manager') /\
      sources response = d :: docs /\
      cache_hit response = false /\
      (d :: docs = [] -> confidence_score response = 0%Q) /\
      (d :: docs <> [] ->
       ((boosted <= 1)%Q -> confidence_score response = boosted) /\
       ((1 < boosted)%Q -> confidence_score response = 1%Q)) /\
      Forall (fun d => ((3 # 10) < VectorSearchEngine.score d)%Q) (d :: docs) /\
      (keeps_sign -> (0 <= confidence_score response <= 1)%Q)).
  { intros cm2. eexists _, _. split; [reflexivity|].
    cbn [sources cache_hit confidence_score].
    split; [done|]. split; [done|]. split; [done|]. split; [|split; [done|]].
    - intros _. apply (confidence_of_clamp (d :: docs)). done.
    - intros Hsign. by apply confidence_of_range. }
  destruct (use_cache request && Qltb (5 # 10) (confidence_of (d :: docs)))%bool.
  - unfold CacheManager.set.
    destruct (evict_ok cm1) as (c & -> & _); [lia|]. apply Hfields.
  - apply Hfields.
Qed.

Lemma confidence_score_spec_witness :
  exists response cache_manager',
    vector_search (H := plain_digest) (H0 := ascii_lower) (H1 := binary64)
      (fun _ => tt) (fun _ _ _ => (py "Grace, freely given.", 0%Q))
      near_engine CacheManager.init (grace_request true) some_readings
    = (Ok response, cache_manager') /\
    VectorSearchEngine.score <$> sources response = [9 # 10; 6 # 10] /\
    (confidence_score response == 8106479329266892 # 9007199254740992)%Q /\
    (0 <= confidence_score response <= 1)%Q.
Proof.
  destruct (confidence_score_spec (H := plain_digest) (H0 := ascii_lower)
              (H1 := binary64) (fun _ => tt)
              (fun _ _ _ => (py "Grace, freely given.", 0%Q))
              near_engine CacheManager.init (grace_request true)
              some_readings
              [doc_of (chunk_named "c2") (9 # 10);
               doc_of (chunk_named "c0") (6 # 10)] (203 - 202)%Q)
    as (response & cm' & Hres & Hsrc & _ & _ & Hclamp & _ & Hrange).
  - by vm_compute.
  - reflexivity.
  - reflexivity.
  - exists response, cm'. split; [exact Hres|]. split; [by rewrite Hsrc|].
    split; [|apply Hrange, binary64_keeps_sign].
    destruct Hclamp as [Hle _]; [done|]. rewrite Hle; by vm_compute.
Defined.

(** X19.  A request that uses the cache and whose key holds an entry younger
    than the duration is answered from the cache, whatever the search engine,
    the encoder and the answer generator: the response is the stored one with
    [cache_hit] set.  The flag is written into the stored entry too, without
    renewing its time stamp, and the keys of the cache do not change. *)
Theorem vector_search_serves_fresh_entry `{Hashlib} `{StrLower} `{Float64}
    {vector : Type}
    (encode : str -> vector)
    (generate_answer : str -> list VectorSearchEngine.doc -> Q -> str * Q)
    (search_engine : VectorSearchEngine.t)
    (cache_manager : CacheManager.t SearchResponse)
    (request : SearchRequest) (now : readings)
    (e : CacheManager.entry SearchResponse) :
  let key := CacheManager._get_cache_key (question request) in
  use_cache request = true ->
  CacheManager.dict_get (CacheManager.cache cache_manager) key = Some e ->
  (at_get now - CacheManager.timestamp e
   < inject_Z (CacheManager.duration cache_manager))%Q ->
  exists cache_manager',
    vector_search encode generate_answer search_engine cache_manager request now
    = (Ok (as_hit (CacheManager.data e)), cache_manager') /\
    CacheManager.cache cache_manager'
    = CacheManager.dict_set (CacheManager.cache cache_manager) key
        {| CacheManager.data := as_hit (CacheManager.data e);
           CacheManager.timestamp := CacheManager.timestamp e |} /\
    CacheManager.keys (CacheManager.cache cache_manager')
    = CacheManager.keys (CacheManager.cache cache_manager).
Proof.
  intros key Huse He Hfresh.
  assert (Hlook : after_lookup cache_manager request now
                  = (Some (CacheManager.data e), cache_manager)).
  { unfold after_lookup, CacheManager.get. rewrite Huse. fold key. rewrite He.
    apply Qltb_lt in Hfresh. by rewrite Hfresh. }
  rewrite (vector_search_hit_path _ _ _ _ _ _ _ _ Hlook). fold key.
  unfold mark_hit. rewrite He. eexists. split; [reflexivity|].
  simpl. split; [done|].
  rewrite dict_set_keys, decide_True; [done|].
  apply list_elem_of_fmap. exists (key, e). split; [done|].
  by apply dict_get_elem_of.
Qed.

Lemma vector_search_serves_fresh_entry_witness :
  exists cache_manager',
    vector_search (H := plain_digest) (H0 := ascii_lower) (H1 := binary64) (fun _ => tt)
      (fun _ _ _ => (py "unused", 0%Q)) far_engine grace_cache
      (grace_request true) some_readings
    = (Ok (as_hit grace_response), cache_manager').
Proof.
  destruct (vector_search_serves_fresh_entry (H := plain_digest)
              (H0 := ascii_lower) (H1 := binary64) (fun _ => tt)
              (fun _ _ _ => (py "unused", 0%Q)) far_engine grace_cache
              (grace_request true) some_readings
              {| CacheManager.data := grace_response;
                 CacheManager.timestamp := 100 |})
    as (cm' & Hres & _).
  - reflexivity.
  - reflexivity.
  - by vm_compute.
  - by exists cm'.
Defined.

(** X20.  A request that does not use the cache leaves the cache manager
    exactly as it was, whatever the outcome. *)
Theorem vector_search_without_cache `{Hashlib} `{StrLower} `{Float64}
    {vector : Type}
    (encode : str -> vector)
    (generate_answer : str -> list VectorSearchEngine.doc -> Q -> str * Q)
    (search_engine : VectorSearchEngine.t)
    (cache_manager : CacheManager.t SearchResponse)
    (request : SearchRequest) (now : readings) :
  use_cache request = false ->
  (vector_search encode generate_answer search_engine cache_manager
     request now).2 = cache_manager.
Proof.
  intros Huse.
  assert (Hlook : after_lookup cache_manager request now = (None, cache_manager)).
  { unfold after_lookup. by rewrite Huse. }
  rewrite (vector_search_miss_path _ _ _ _ _ _ _ Hlook).
  unfold after_miss. rewrite Huse. simpl.
  destruct (VectorSearchEngine.search _ _ _ _ _ _) as [[docs st]|err]; [|done].
  by destruct docs.
Qed.

Lemma vector_search_without_cache_witness :
  (vector_search (H := plain_digest) (H0 := ascii_lower) (H1 := binary64) (fun _ => tt)
     (fun _ _ _ => (py "Grace, freely given.", 0%Q)) near_engine grace_cache
     (grace_request false) some_readings).2 = grace_cache.
Proof.
  apply (vector_search_without_cache (H := plain_digest) (H0 := ascii_lower) (H1 := binary64)).
  reflexivity.
Defined.

(** X21.  A response that [vector_search] computes is stored only when the
    request uses the cache, the response has documents and its confidence
    exceeds 0.5: a computed response with confidence at most 0.5 leaves the
    cache as the lookup left it, and whenever the cache differs from that,
    the response was stored by [set]. *)
Theorem vector_search_caches_only_confident `{Hashlib} `{StrLower}
    `{Float64} {vector : Type} (encode : str -> vector)
    (generate_answer : str -> list VectorSearchEngine.doc -> Q -> str * Q)
    (search_engine : VectorSearchEngine.t)
    (cache_manager cache_manager' : CacheManager.t SearchResponse)
    (request : SearchRequest) (now : readings) (response : SearchResponse) :
  vector_search encode generate_answer search_engine cache_manager request now
  = (Ok response, cache_manager') ->
  cache_hit response = false ->
  let cm1 := (after_lookup cache_manager request now).2 in
  ((confidence_score response <= 5 # 10)%Q -> cache_manager' = cm1) /\
  (cache_manager' <> cm1 ->
   use_cache request = true /\
   ((5 # 10) < confidence_score response)%Q /\
   sources response <> [] /\
   CacheManager.set cm1 (question request) response (at_set now)
   = Ok cache_manager').
Proof.
  intros Hres Hmiss cm1. subst cm1.
  destruct (after_lookup_cases cache_manager request now)
    as [(r & cm1 & Hlook)|(cm1 & Hlook)].
  { rewrite (vector_search_hit_path _ _ _ _ _ _ _ _ Hlook) in Hres.
    injection Hres as <- _. done. }
  rewrite (vector_search_miss_path _ _ _ _ _ _ _ Hlook) in Hres.
  rewrite Hlook. simpl. unfold after_miss in Hres.
  destruct (VectorSearchEngine.search _ _ _ _ _ _) as [[docs st]|err];
    [|done].
  destruct docs as [|d docs].
  { injection Hres as <- <-. by split. }
  destruct (use_cache request) eqn:Huse;
    destruct (Qltb (5 # 10) (confidence_of (d :: docs))) eqn:Hconf;
    cbn [andb] in Hres.
  - destruct (CacheManager.set _ _ _ _) as [cm2|err] eqn:Hset; [|done].
    injection Hres as <- <-. cbn [confidence_score sources].
    apply Qltb_lt in Hconf. split.
    + intros Hle. by apply Qlt_not_le in Hconf.
    + intros _. by repeat split.
  - injection Hres as <- <-. by split.
  - injection Hres as <- <-. by split.
  - injection Hres as <- <-. by split.
Qed.

(** A request that uses the cache and whose question is not in it. *)
Definition mercy_request : SearchRequest :=
  {| question := py "mercy";
     top_k := 5;
     temperature := 7 # 10;
     use_cache := true |}.

Lemma vector_search_caches_only_confident_witness :
  (exists response,
     vector_search (H := plain_digest) (H0 := ascii_lower) (H1 := binary64)
       (fun _ => tt) (fun _ _ _ => (py "Mercy triumphs.", 0%Q))
       lukewarm_engine grace_cache mercy_request some_readings
     = (Ok response, grace_cache) /\
     sources response <> [] /\
     (confidence_score response <= 5 # 10)%Q /\
     grace_cache
     = (after_lookup (H := plain_digest) (H0 := ascii_lower) grace_cache
          mercy_request some_readings).2) /\
  (exists response cache_manager',
     vector_search (H := plain_digest) (H0 := ascii_lower) (H1 := binary64)
       (fun _ => tt) (fun _ _ _ => (py "Mercy triumphs.", 0%Q))
       near_engine grace_cache mercy_request some_readings
     = (Ok response, cache_manager') /\
     cache_manager' <> grace_cache /\
     ((5 # 10) < confidence_score response)%Q /\
     CacheManager.set (H := plain_digest) (H0 := ascii_lower) grace_cache
       (py "mercy") response 205
     = Ok cache_manager').
Proof.
  split.
  - eexists. split; [by vm_compute|]. split; [by vm_compute|].
    split; [by vm_compute|].
    edestruct (vector_search_caches_only_confident (H := plain_digest)
                 (H0 := ascii_lower) (H1 := binary64) (fun _ => tt)
                 (fun _ _ _ => (py "Mercy triumphs.", 0%Q)) lukewarm_engine
                 grace_cache grace_cache mercy_request some_readings)
      as [Hle _].
    + by vm_compute.
    + reflexivity.
    + apply Hle. by vm_compute.
  - eexists. eexists. split; [by vm_compute|].
    assert (Hne : forall a b : CacheManager.t SearchResponse,
              length (CacheManager.cache a) <> length (CacheManager.cache b)
              -> a <> b) by (by intros a b Hl ->).
    split; [apply Hne; by vm_compute|].
    lazymatch goal with
    | |- _ /\ CacheManager.set _ _ ?response _ = Ok ?cm' =>
        destruct (vector_search_caches_only_confident (H := plain_digest)
                    (H0 := ascii_lower) (H1 := binary64) (fun _ => tt)
                    (fun _ _ _ => (py "Mercy triumphs.", 0%Q)) near_engine
                    grace_cache cm' mercy_request some_readings response)
          as [_ Hstored]
    end.
    + by vm_compute.
    + reflexivity.
    + destruct Hstored as (_ & Hconf & _ & Hset);
        [apply Hne; by vm_compute|].
      split; [exact Hconf | exact Hset].
Defined.

(** X22.  When the cache lookup finds nothing, the index answers the request
    for [2 * top_k] candidates and none of them scores above 0.3,
    [vector_search] raises nothing: it returns the fixed answer that nothing
    was found, with no source, confidence 0 and [cache_hit] unset, does not
    ask the answer generator, and stores nothing.  When the index raises
    instead, as the bindings do for a [top_k] that is not positive, the
    outcome is the [HTTPException] with status 500, and nothing is stored
    either. *)
Theorem vector_search_not_found `{Hashlib} `{StrLower} `{Float64}
    {vector : Type}
    (encode : str -> vector)
    (generate_answer : str -> list VectorSearchEngine.doc -> Q -> str * Q)
    (search_engine : VectorSearchEngine.t)
    (ix : vector -> Z -> result (list Q * list Z))
    (cache_manager : CacheManager.t SearchResponse)
    (request : SearchRequest) (now : readings) :
  (after_lookup cache_manager request now).1 = None ->
  FAISSIndexManager.index (VectorSearchEngine.faiss_manager search_engine)
  = Some ix ->
  (forall scores indices,
     ix (encode (question request)) (top_k request * 2)
     = Ok (scores, indices) ->
     Forall (fun sc => (sc <= 3 # 10)%Q) scores ->
     vector_search encode generate_answer search_engine cache_manager
       request now
     = (Ok {| answer := not_found_answer;
              sources := [];
              search_time := (at_search_end now - at_search_start now)%Q;
              total_time := (at_total now - at_start now)%Q;
              cache_hit := false;
              confidence_score := 0%Q |},
        (after_lookup cache_manager request now).2)) /\
  (forall e,
     ix (encode (question request)) (top_k request * 2) = Raise e ->
     vector_search encode generate_answer search_engine cache_manager
       request now
     = (Raise (HTTPException 500),
        (after_lookup cache_manager request now).2)).
Proof.
  intros Hmiss Hix.
  destruct (after_lookup cache_manager request now) as [cached cm1] eqn:Hlook.
  simpl in Hmiss. subst cached.
  rewrite (vector_search_miss_path _ _ _ _ _ _ _ Hlook). unfold after_miss.
  unfold VectorSearchEngine.search, FAISSIndexManager.search.
  rewrite Hix. split.
  - intros scores indices -> Hlow.
    rewrite collect_below_threshold
      by by apply (zip_fst_Forall (fun sc => (sc <= 3 # 10)%Q)).
    unfold py_slice. by rewrite drop_nil, take_nil.
  - by intros e ->.
Qed.

Lemma vector_search_not_found_witness :
  (vector_search (H := plain_digest) (H0 := ascii_lower) (H1 := binary64)
     (fun _ => tt) (fun _ _ _ => (py "unused", 0%Q)) far_engine grace_cache
     {| question := py "predestination"; top_k := 5; temperature := 7 # 10;
        use_cache := true |} some_readings).2
  = grace_cache /\
  vector_search (H := plain_digest) (H0 := ascii_lower) (H1 := binary64)
    (fun _ => tt) (fun _ _ _ => (py "unused", 0%Q)) far_engine grace_cache
    {| question := py "predestination"; top_k := 0; temperature := 7 # 10;
       use_cache := true |} some_readings
  = (Raise (HTTPException 500), grace_cache).
Proof.
  split.
  - destruct (vector_search_not_found (H := plain_digest) (H0 := ascii_lower)
                (H1 := binary64) (fun _ => tt)
                (fun _ _ _ => (py "unused", 0%Q)) far_engine
                (answering [1 # 10; 1 # 10] [7; -1]) grace_cache
                {| question := py "predestination"; top_k := 5;
                   temperature := 7 # 10; use_cache := true |}
                some_readings eq_refl eq_refl) as [Hfound _].
    rewrite (Hfound [1 # 10; 1 # 10] [7; -1]).
    + reflexivity.
    + reflexivity.
    + repeat constructor; by vm_compute.
  - destruct (vector_search_not_found (H := plain_digest) (H0 := ascii_lower)
                (H1 := binary64) (fun _ => tt)
                (fun _ _ _ => (py "unused", 0%Q)) far_engine
                (answering [1 # 10; 1 # 10] [7; -1]) grace_cache
                {| question := py "predestination"; top_k := 0;
                   temperature := 7 # 10; use_cache := true |}
                some_readings eq_refl eq_refl) as [_ Hraise].
    rewrite (Hraise (PyError (py "AssertionError"))); reflexivity.
Defined.

(** X23.  Whatever goes wrong inside [vector_search] reaches the caller as
    an [HTTPException] with status 500 and nothing else, and the cache is
    then as the lookup left it.  This is what happens when the lookup finds
    nothing and no index is loaded. *)
Theorem vector_search_errors_are_500 `{Hashlib} `{StrLower} `{Float64}
    {vector : Type}
    (encode : str -> vector)
    (generate_answer : str -> list VectorSearchEngine.doc -> Q -> str * Q)
    (search_engine : VectorSearchEngine.t)
    (cache_manager : CacheManager.t SearchResponse)
    (request : SearchRequest) (now : readings) :
  (forall err cache_manager',
     vector_search encode generate_answer search_engine cache_manager
       request now = (Raise err, cache_manager') ->
     err = HTTPException 500 /\
     cache_manager' = (after_lookup cache_manager request now).2) /\
  ((after_lookup cache_manager request now).1 = None ->
   FAISSIndexManager.index (VectorSearchEngine.faiss_manager search_engine)
   = None ->
   vector_search encode generate_answer search_engine cache_manager request now
   = (Raise (HTTPException 500), (after_lookup cache_manager request now).2)).
Proof.
  destruct (after_lookup_cases cache_manager request now)
    as [(r & cm1 & Hlook)|(cm1 & Hlook)].
  { rewrite (vector_search_hit_path _ _ _ _ _ _ _ _ Hlook), Hlook.
    split; [by intros err cm' [=]|]. by intros [=]. }
  rewrite (vector_search_miss_path _ _ _ _ _ _ _ Hlook), Hlook. simpl.
  unfold after_miss. split.
  - intros err cm'.
    destruct (VectorSearchEngine.search _ _ _ _ _ _) as [[docs st]|e].
    + destruct docs as [|d docs]; [by intros [=]|].
      destruct (_ && _)%bool; [|by intros [=]].
      destruct (CacheManager.set _ _ _ _); [by intros [=]|].
      by intros [= <- <-].
    + by intros [= <- <-].
  - intros _ Hnone.
    unfold VectorSearchEngine.search, FAISSIndexManager.search.
    by rewrite Hnone.
Qed.

(** An engine without an index. *)
Definition empty_engine : VectorSearchEngine.t (vector := unit) :=
  {| VectorSearchEngine.faiss_manager := {| FAISSIndexManager.index := None |};
     VectorSearchEngine.documents := [] |}.

Lemma vector_search_errors_are_500_witness :
  vector_search (H := plain_digest) (H0 := ascii_lower) (H1 := binary64) (fun _ => tt)
    (fun _ _ _ => (py "unused", 0%Q)) empty_engine grace_cache
    (grace_request false) some_readings
  = (Raise (HTTPException 500), grace_cache).
Proof.
  destruct (vector_search_errors_are_500 (H := plain_digest)
              (H0 := ascii_lower) (H1 := binary64) (fun _ => tt)
              (fun _ _ _ => (py "unused", 0%Q)) empty_engine grace_cache
              (grace_request false) some_readings) as [_ Hnone].
  apply Hnone; reflexivity.
Defined.

(** X24.  A computed response that was stored (the request uses the cache,
    the response has documents and a confidence above 0.5) is what the same
    request gets back, with [cache_hit] set, as long as the entry is younger
    than the duration, whatever the search engine and the answer generator
    have become in the meantime. *)
Theorem vector_search_twice `{Hashlib} `{StrLower} `{Float64}
    {vector : Type}
    (encode encode' : str -> vector)
    (generate_answer generate_answer'
       : str -> list VectorSearchEngine.doc -> Q -> str * Q)
    (search_engine search_engine' : VectorSearchEngine.t)
    (cache_manager cache_manager' : CacheManager.t SearchResponse)
    (request : SearchRequest) (now now' : readings)
    (response : SearchResponse) :
  vector_search encode generate_answer search_engine cache_manager request now
  = (Ok response, cache_manager') ->
  cache_hit response = false ->
  use_cache request = true ->
  sources response <> [] ->
  ((5 # 10) < confidence_score response)%Q ->
  (at_get now' - at_set now
   < inject_Z (CacheManager.duration cache_manager))%Q ->
  (vector_search encode' generate_answer' search_engine' cache_manager'
     request now').1 = Ok (as_hit response).
Proof.
  intros Hres Hmiss Huse Hdocs Hconf Hfresh.
  destruct (after_lookup_cases cache_manager request now)
    as [(r & cm1 & Hlook)|(cm1 & Hlook)].
  { rewrite (vector_search_hit_path _ _ _ _ _ _ _ _ Hlook) in Hres.
    injection Hres as <- _. done. }
  assert (Hdur : CacheManager.duration cm1 = CacheManager.duration cache_manager).
  { unfold after_lookup in Hlook. rewrite Huse in Hlook.
    unfold CacheManager.get in Hlook.
    destruct (CacheManager.dict_get _ _) as [e|]; [|by injection Hlook as <-].
    destruct (Qltb _ _); [done|]. by injection Hlook as <-. }
  rewrite (vector_search_miss_path _ _ _ _ _ _ _ Hlook) in Hres.
  unfold after_miss in Hres.
  destruct (VectorSearchEngine.search _ _ _ _ _ _) as [[docs st]|err];
    [|done].
  destruct docs as [|d docs].
  { injection Hres as <- _. done. }
  rewrite Huse in Hres.
  destruct (Qltb (5 # 10) (confidence_of (d :: docs))) eqn:Hc;
    cbn [andb] in Hres.
  - destruct (CacheManager.set _ _ _ _) as [cm2|err] eqn:Hset; [|done].
    injection Hres as Hresp <-.
    unfold CacheManager.set in Hset.
    destruct (CacheManager.evict cm1) as [c|]; [|done].
    injection Hset as <-.
    assert (Hlook' : after_lookup
                       (CacheManager.with_cache cm1
                          (CacheManager.dict_set c
                             (CacheManager._get_cache_key (question request))
                             {| CacheManager.data := response;
                                CacheManager.timestamp := at_set now |}))
                       request now'
                     = (Some response,
                        CacheManager.with_cache cm1
                          (CacheManager.dict_set c
                             (CacheManager._get_cache_key (question request))
                             {| CacheManager.data := response;
                                CacheManager.timestamp := at_set now |}))).
    { unfold after_lookup, CacheManager.get. rewrite Huse. simpl.
      rewrite dict_set_get. simpl. rewrite Hdur.
      apply Qltb_lt in Hfresh. by rewrite Hfresh. }
    rewrite <- Hresp in Hlook' |- *.
    by rewrite (vector_search_hit_path _ _ _ _ _ _ _ _ Hlook').
  - injection Hres as Hresp _. rewrite <- Hresp in Hconf.
    cbn [confidence_score] in Hconf. apply Qltb_ge in Hc.
    destruct (Qlt_not_le _ _ Hconf Hc).
Qed.

(** Clock readings of a second request, a little later. *)
Definition later_readings : readings :=
  {| at_start := 900; at_get := 901; at_search_start := 902;
     at_search_end := 903; at_total := 904; at_set := 905 |}.

Lemma vector_search_twice_witness :
  (vector_search (H := plain_digest) (H0 := ascii_lower) (H1 := binary64) (fun _ => tt)
     (fun _ _ _ => (py "unused", 0%Q)) empty_engine
     (vector_search (H := plain_digest) (H0 := ascii_lower) (H1 := binary64) (fun _ => tt)
        (fun _ _ _ => (py "grace is a gift", 0%Q)) near_engine
        CacheManager.init (grace_request true) some_readings).2
     (grace_request true) later_readings).1
  = Ok (as_hit
          (match (vector_search (H := plain_digest) (H0 := ascii_lower) (H1 := binary64)
                    (fun _ => tt) (fun _ _ _ => (py "grace is a gift", 0%Q))
                    near_engine CacheManager.init
                    (grace_request true) some_readings).1 with
           | Ok r => r
           | Raise _ => grace_response
           end)).
Proof.
  eapply (vector_search_twice (H := plain_digest) (H0 := ascii_lower) (H1 := binary64)
            (fun _ => tt) (fun _ => tt)
            (fun _ _ _ => (py "grace is a gift", 0%Q))
            (fun _ _ _ => (py "unused", 0%Q)) near_engine empty_engine
            CacheManager.init _ (grace_request true)
            some_readings later_readings).
  - reflexivity.
  - reflexivity.
  - reflexivity.
  - by vm_compute.
  - by vm_compute.
  - by vm_compute.
Defined.

(** X25.  When the index answers the request for [2 * top_k] candidates
    without a negative position, [search] returns only passages of the
    store: each result carries the content, the source and the metadata of
    the stored passage at the position of one candidate, together with the
    score of that same candidate, which is above 0.3.  A candidate whose
    position lies beyond the store contributes nothing and raises
    nothing. *)
Theorem search_results_are_stored_passages {vector : Type}
    (encode : str -> vector) (self : VectorSearchEngine.t)
    (ix : vector -> Z -> result (list Q * list Z)) (query : str) (top_k : Z)
    (start_time end_time : Q) (scores : list Q) (indices : list Z) :
  FAISSIndexManager.index (VectorSearchEngine.faiss_manager self) = Some ix ->
  ix (encode query) (top_k * 2) = Ok (scores, indices) ->
  Forall (fun i => 0 <= i) indices ->
  exists docs,
    VectorSearchEngine.search encode self query top_k start_time end_time
    = Ok (docs, (end_time - start_time)%Q) /\
    forall r, r ∈ docs ->
      exists sc idx d,
        (sc, idx) ∈ zip scores indices /\
        0 <= idx < len (VectorSearchEngine.documents self) /\
        VectorSearchEngine.documents self !! Z.to_nat idx = Some d /\
        ((3 # 10) < sc)%Q /\
        r = {| VectorSearchEngine.content := DocumentProcessor.content d;
               VectorSearchEngine.source := DocumentProcessor.source d;
               VectorSearchEngine.score := sc;
               VectorSearchEngine.metadata := DocumentProcessor.metadata d |}.
Proof.
  intros Hix Hans Hpos.
  unfold VectorSearchEngine.search, FAISSIndexManager.search.
  rewrite Hix, Hans.
  rewrite collect_nonnegative by by apply (zip_snd_Forall (fun i => 0 <= i)).
  simpl. eexists. split; [reflexivity|].
  intros r Hr. unfold py_slice in Hr.
  eapply elem_of_sublist in Hr;
    [|etrans; [apply sublist_take|apply sublist_drop]].
  apply list_elem_of_omap in Hr as ([sc idx] & Hc & Hret).
  exists sc, idx.
  assert (Hidx : 0 <= idx).
  { pose proof Hc as Hc'. apply elem_of_zip_r in Hc'.
    by apply (proj1 (Forall_forall _ _) Hpos) in Hc'. }
  unfold retained in Hret. simpl in Hret.
  destruct ((idx <? len _) && Qltb (3 # 10) sc)%bool eqn:E; [|done].
  apply andb_true_iff in E as [Hlt Hsc].
  apply Z.ltb_lt in Hlt. apply Qltb_lt in Hsc.
  destruct (_ !! Z.to_nat idx) as [d|] eqn:Ed; [|done].
  exists d. injection Hret as <-.
  repeat split; try done; try lia.
Qed.

Lemma search_results_are_stored_passages_witness :
  exists docs,
    VectorSearchEngine.search (fun _ => tt) near_engine (py "grace") 2 0 1
    = Ok (docs, (1 - 0)%Q) /\
    forall r, r ∈ docs ->
      exists sc idx d,
        (sc, idx) ∈ [(9 # 10, 2); (6 # 10, 0); (5 # 10, 5)] /\
        0 <= idx < 3 /\
        three_chunks !! Z.to_nat idx = Some d /\
        ((3 # 10) < sc)%Q /\
        r = {| VectorSearchEngine.content := DocumentProcessor.content d;
               VectorSearchEngine.source := DocumentProcessor.source d;
               VectorSearchEngine.score := sc;
               VectorSearchEngine.metadata := DocumentProcessor.metadata d |}.
Proof.
  apply (search_results_are_stored_passages (fun _ => tt) near_engine
           (answering [9 # 10; 6 # 10; 5 # 10] [2; 0; 5]) (py "grace") 2 0 1
           [9 # 10; 6 # 10; 5 # 10] [2; 0; 5]).
  - reflexivity.
  - reflexivity.
  - repeat constructor; by vm_compute.
Defined.
